(** * OV5640 camera sensor driver: a shallow embedding of [ov5640.c]

    The driver configures the sensor through single-byte register
    transactions on a two-wire bus that the application injects as a table
    of function pointers.  The embedding keeps the shape of the C code:

    - machine integers are [Z] with the wrap-around of each C type written
      out ([u8], [u16], [u32]);
    - the handle [OV5640_Object_t] is a record, and every driver function is
      a computation in a small state monad over the handle, the environment
      behind the bus and the log of bus transactions;
    - an access outside a C array is undefined behaviour and ends the
      computation in [Undef]; a blocking loop that does not finish within
      its fuel ends in [Diverge];
    - the macros of [ov5640.h] and [ov5640_reg.h] (status codes, enumerators,
      register addresses) are not part of the sources at hand and are taken
      as a parameter, the class [Header]. *)

From Stdlib Require Import ZArith List Lia Bool.
Import ListNotations.
Open Scope Z_scope.

(** ** Machine integers *)

Definition u8 (x : Z) : Z := x mod 256.
Definition u16 (x : Z) : Z := x mod 65536.
Definition u32 (x : Z) : Z := x mod 4294967296.

Arguments u8 x : simpl never.
Arguments u16 x : simpl never.
Arguments u32 x : simpl never.

(** ** Header constants *)

(** The register macros of [ov5640_reg.h] that the modelled functions name,
    in address order. *)
Inductive RegName : Type :=
  | OV5640_SYSREM_RESET00 | OV5640_SYSREM_RESET02 | OV5640_CLOCK_ENABLE00
  | OV5640_CLOCK_ENABLE02 | OV5640_SYSTEM_CTROL0 | OV5640_MIPI_CONTROL00
  | OV5640_PAD_OUTPUT_ENABLE01 | OV5640_PAD_OUTPUT_ENABLE02 | OV5640_PAD_OUTPUT_VALUE00
  | OV5640_SC_PLL_CONTRL0 | OV5640_SC_PLL_CONTRL1 | OV5640_SC_PLL_CONTRL2
  | OV5640_SC_PLL_CONTRL3 | OV5640_SCCB_SYSTEM_CTRL1 | OV5640_SYSTEM_ROOT_DIVIDER
  | OV5640_TIMING_HS_HIGH | OV5640_TIMING_HS_LOW | OV5640_TIMING_VS_HIGH
  | OV5640_TIMING_VS_LOW | OV5640_TIMING_HW_HIGH | OV5640_TIMING_HW_LOW
  | OV5640_TIMING_VH_HIGH | OV5640_TIMING_VH_LOW | OV5640_TIMING_DVPHO_HIGH
  | OV5640_TIMING_DVPHO_LOW | OV5640_TIMING_DVPVO_HIGH | OV5640_TIMING_DVPVO_LOW
  | OV5640_TIMING_HTS_HIGH | OV5640_TIMING_HTS_LOW | OV5640_TIMING_VTS_HIGH
  | OV5640_TIMING_VTS_LOW | OV5640_TIMING_HOFFSET_HIGH | OV5640_TIMING_HOFFSET_LOW
  | OV5640_TIMING_VOFFSET_HIGH | OV5640_TIMING_VOFFSET_LOW | OV5640_TIMING_X_INC
  | OV5640_TIMING_Y_INC | OV5640_TIMING_TC_REG20 | OV5640_TIMING_TC_REG21
  | OV5640_AEC_CTRL02 | OV5640_AEC_CTRL03 | OV5640_AEC_B50_STEP_HIGH
  | OV5640_AEC_B50_STEP_LOW | OV5640_AEC_B60_STEP_HIGH | OV5640_AEC_B60_STEP_LOW
  | OV5640_AEC_CTRL0D | OV5640_AEC_CTRL0E | OV5640_AEC_CTRL0F
  | OV5640_AEC_CTRL10 | OV5640_AEC_CTRL11 | OV5640_AEC_CTRL13
  | OV5640_AEC_MAX_EXPO_HIGH | OV5640_AEC_MAX_EXPO_LOW | OV5640_AEC_GAIN_CEILING_HIGH
  | OV5640_AEC_GAIN_CEILING_LOW | OV5640_AEC_CTRL1B | OV5640_AEC_CTRL1E
  | OV5640_AEC_CTRL1F | OV5640_5060HZ_CTRL01 | OV5640_5060HZ_CTRL04
  | OV5640_5060HZ_CTRL05 | OV5640_LIGHTMETER1_TH_HIGH | OV5640_LIGHTMETER1_TH_LOW
  | OV5640_LIGHTMETER2_TH_HIGH | OV5640_LIGHTMETER2_TH_LOW | OV5640_SAMPLE_NUMBER_HIGH
  | OV5640_SAMPLE_NUMBER_LOW | OV5640_BLC_CTRL01 | OV5640_BLC_CTRL04
  | OV5640_FRAME_CTRL02 | OV5640_FORMAT_CTRL00 | OV5640_JPEG_CTRL07
  | OV5640_JPG_MODE_SELECT | OV5640_POLARITY_CTRL | OV5640_MIPI_CTRL00
  | OV5640_PCLK_PERIOD | OV5640_ISP_CONTROL00 | OV5640_ISP_CONTROL01
  | OV5640_FORMAT_MUX_CTRL | OV5640_AWB_CTRL00 | OV5640_AWB_CTRL01
  | OV5640_AWB_CTRL02 | OV5640_AWB_CTRL03 | OV5640_AWB_CTRL04
  | OV5640_AWB_CTRL05 | OV5640_AWB_CTRL06 | OV5640_AWB_CTRL07
  | OV5640_AWB_CTRL08 | OV5640_AWB_CTRL09 | OV5640_AWB_CTRL10
  | OV5640_AWB_CTRL11 | OV5640_AWB_CTRL12 | OV5640_AWB_CTRL13
  | OV5640_AWB_CTRL14 | OV5640_AWB_CTRL15 | OV5640_AWB_CTRL16
  | OV5640_AWB_CTRL17 | OV5640_AWB_CTRL18 | OV5640_AWB_CTRL19
  | OV5640_AWB_CTRL20 | OV5640_AWB_CTRL21 | OV5640_AWB_CTRL22
  | OV5640_AWB_CTRL23 | OV5640_AWB_CTRL24 | OV5640_AWB_CTRL25
  | OV5640_AWB_CTRL26 | OV5640_AWB_CTRL27 | OV5640_AWB_CTRL28
  | OV5640_AWB_CTRL29 | OV5640_AWB_CTRL30 | OV5640_CIP_SHARPENMT_TH1
  | OV5640_CIP_SHARPENMT_TH2 | OV5640_CIP_SHARPENMT_OFFSET1 | OV5640_CIP_SHARPENMT_OFFSET2
  | OV5640_CIP_DNS_TH1 | OV5640_CIP_DNS_TH2 | OV5640_CIP_DNS_OFFSET1
  | OV5640_CIP_DNS_OFFSET2 | OV5640_CIP_CTRL | OV5640_CIP_SHARPENTH_TH1
  | OV5640_CIP_SHARPENTH_TH2 | OV5640_CIP_SHARPENTH_OFFSET1 | OV5640_CMX1
  | OV5640_CMX2 | OV5640_CMX3 | OV5640_CMX4
  | OV5640_CMX5 | OV5640_CMX6 | OV5640_CMX7
  | OV5640_CMX8 | OV5640_CMX9 | OV5640_CMXSIGN_HIGH
  | OV5640_CMXSIGN_LOW | OV5640_GAMMA_CTRL00 | OV5640_GAMMA_YST00
  | OV5640_GAMMA_YST01 | OV5640_GAMMA_YST02 | OV5640_GAMMA_YST03
  | OV5640_GAMMA_YST04 | OV5640_GAMMA_YST05 | OV5640_GAMMA_YST06
  | OV5640_GAMMA_YST07 | OV5640_GAMMA_YST08 | OV5640_GAMMA_YST09
  | OV5640_GAMMA_YST0A | OV5640_GAMMA_YST0B | OV5640_GAMMA_YST0C
  | OV5640_GAMMA_YST0D | OV5640_GAMMA_YST0E | OV5640_GAMMA_YST0F
  | OV5640_SDE_CTRL0 | OV5640_SDE_CTRL1 | OV5640_SDE_CTRL2
  | OV5640_SDE_CTRL3 | OV5640_SDE_CTRL4 | OV5640_SDE_CTRL5
  | OV5640_SDE_CTRL6 | OV5640_SDE_CTRL7 | OV5640_SDE_CTRL8
  | OV5640_SDE_CTRL9 | OV5640_SDE_CTRL10 | OV5640_SDE_CTRL11
  | OV5640_GMTRX00 | OV5640_GMTRX01 | OV5640_GMTRX02
  | OV5640_GMTRX03 | OV5640_GMTRX04 | OV5640_GMTRX05
  | OV5640_GMTRX10 | OV5640_GMTRX11 | OV5640_GMTRX12
  | OV5640_GMTRX13 | OV5640_GMTRX14 | OV5640_GMTRX15
  | OV5640_GMTRX20 | OV5640_GMTRX21 | OV5640_GMTRX22
  | OV5640_GMTRX23 | OV5640_GMTRX24 | OV5640_GMTRX25
  | OV5640_GMTRX30 | OV5640_GMTRX31 | OV5640_GMTRX32
  | OV5640_GMTRX33 | OV5640_GMTRX34 | OV5640_GMTRX35
  | OV5640_GMTRX40 | OV5640_GMTRX41 | OV5640_GMTRX42
  | OV5640_GMTRX43 | OV5640_GMTRX44 | OV5640_GMTRX45
  | OV5640_GMTRX50 | OV5640_GMTRX51 | OV5640_GMTRX52
  | OV5640_GMTRX53 | OV5640_GMTRX54 | OV5640_GMTRX55
  | OV5640_BRMATRX00 | OV5640_BRMATRX01 | OV5640_BRMATRX02
  | OV5640_BRMATRX03 | OV5640_BRMATRX04 | OV5640_BRMATRX05
  | OV5640_BRMATRX06 | OV5640_BRMATRX07 | OV5640_BRMATRX08
  | OV5640_BRMATRX09 | OV5640_BRMATRX20 | OV5640_BRMATRX21
  | OV5640_BRMATRX22 | OV5640_BRMATRX23 | OV5640_BRMATRX24
  | OV5640_BRMATRX30 | OV5640_BRMATRX31 | OV5640_BRMATRX32
  | OV5640_BRMATRX33 | OV5640_BRMATRX34 | OV5640_BRMATRX40
  | OV5640_BRMATRX41 | OV5640_BRMATRX42 | OV5640_BRMATRX43
  | OV5640_BRMATRX44 | OV5640_LENC_BR_OFFSET.

(** The values of the macros.  [reg] gives the address behind each register
    macro; the other fields are the status codes and enumerators of
    [ov5640.h]. *)
Class Header : Type := {
  reg : RegName -> Z;
  OV5640_OK : Z;
  OV5640_ERROR : Z;
  OV5640_R160x120 : Z;
  OV5640_R320x240 : Z;
  OV5640_R480x272 : Z;
  OV5640_R640x480 : Z;
  OV5640_R800x480 : Z;
  OV5640_RGB565 : Z;
  OV5640_RGB888 : Z;
  OV5640_YUV422 : Z;
  OV5640_Y8 : Z;
  OV5640_JPEG : Z;
  OV5640_POLARITY_PCLK_LOW : Z;
  OV5640_POLARITY_PCLK_HIGH : Z;
  OV5640_POLARITY_HREF_LOW : Z;
  OV5640_POLARITY_HREF_HIGH : Z;
  OV5640_POLARITY_VSYNC_LOW : Z;
  OV5640_POLARITY_VSYNC_HIGH : Z;
  OV5640_MIRROR_FLIP_NONE : Z;
  OV5640_FLIP : Z;
  OV5640_MIRROR : Z;
  OV5640_MIRROR_FLIP : Z;
  SERIAL_MODE : Z
}.

(** The blocking delay of the RTOS, [vTaskDelay(pdMS_TO_TICKS(ms))]: time
    passes in the environment behind the bus. *)
Class RTOS (B : Type) : Type := {
  vTaskDelay : Z -> B -> B
}.

(** ** Handle, bus binding and world *)

Section Types.
Context {B : Type}.

(** [OV5640_IO_t]: the capabilities the caller supplies.  Every call site
    of the driver transfers one byte, so a write takes the byte and a read
    takes the content of the one-byte buffer before the call and gives its
    content after it; each returns the status of the transaction. *)
Record OV5640_IO_t : Type := {
  IO_Init : option (B -> Z * B);
  IO_DeInit : option (B -> Z * B);
  IO_Address : Z;
  IO_WriteReg : Z -> Z -> Z -> B -> Z * B;
  IO_ReadReg : Z -> Z -> Z -> B -> (Z * Z) * B;
  IO_GetTick : B -> Z * B
}.

(** [OV5640_Object_t].  The [Ctx] member always holds the two wrappers
    below and the handle itself, so it is left implicit. *)
Record OV5640_Object_t : Type := {
  IO : OV5640_IO_t;
  IsInitialized : Z;
  Mode : Z;
  VirtualChannelID : Z;
  bright : Z;
  saturation : Z;
  contrast : Z;
  huedegree : Z
}.

(** One bus transaction or RTOS delay, as seen from outside the driver. *)
Inductive Event : Type :=
| EvWrite (Reg data status : Z)
| EvRead (Reg status data : Z)
| EvDelay (ms : Z).

Record World : Type := {
  obj : OV5640_Object_t;
  env : B;
  trace : list Event
}.

Inductive outcome (A : Type) : Type :=
| Ret (a : A) (w : World)
| Undef (w : World)
| Diverge (w : World).

Definition M (A : Type) : Type := World -> outcome A.

Definition mret {A : Type} (a : A) : M A := fun w => Ret A a w.

Definition bind {A C : Type} (m : M A) (k : A -> M C) : M C :=
  fun w =>
    match m w with
    | Ret _ a w' => k a w'
    | Undef _ w' => Undef C w'
    | Diverge _ w' => Diverge C w'
    end.

Definition undefined {A : Type} : M A := fun w => Undef A w.
Definition diverge {A : Type} : M A := fun w => Diverge A w.

Definition get_obj : M OV5640_Object_t := fun w => Ret _ (obj w) w.

Definition set_obj (o : OV5640_Object_t) : M unit :=
  fun w => Ret _ tt {| obj := o; env := env w; trace := trace w |}.

(** The register writes of a log, in order: (address, byte). *)
Fixpoint writes_of (t : list Event) : list (Z * Z) :=
  match t with
  | [] => []
  | EvWrite r d _ :: t' => (r, d) :: writes_of t'
  | _ :: t' => writes_of t'
  end.

(** The addresses of the register reads of a log, in order. *)
Fixpoint reads_of (t : list Event) : list Z :=
  match t with
  | [] => []
  | EvRead r _ _ :: t' => r :: reads_of t'
  | _ :: t' => reads_of t'
  end.
End Types.

Arguments OV5640_IO_t : clear implicits.
Arguments OV5640_Object_t : clear implicits.
Arguments World : clear implicits.
Arguments outcome : clear implicits.
Arguments M : clear implicits.
Arguments Ret {B A} a w.
Arguments Undef {B A} w.
Arguments Diverge {B A} w.

Declare Scope drv_scope.
Delimit Scope drv_scope with drv.
Notation "x <- c1 ;; c2" := (bind c1 (fun x => c2))
  (at level 61, c1 at next level, right associativity) : drv_scope.
Notation "c1 ;;; c2" := (bind c1 (fun _ => c2))
  (at level 61, right associativity) : drv_scope.
Open Scope drv_scope.

(** A handle pointer as the functions that test it against [NULL] see it:
    null, or the handle of the world. *)
Inductive ObjPtr : Type := NULL | pObj.

(** ** The driver *)

Section Driver.
Context {B : Type} {hdr : Header} {rtos : RTOS B}.

Local Abbreviation M := (M B).

(** *** Bus access *)

(** [OV5640_WriteRegWrap], [OV5640_ReadRegWrap]: forward to the bus
    binding of the handle.  [Reg] is a [uint16_t], the buffer a
    [uint8_t]. *)
Definition OV5640_WriteRegWrap (Reg data : Z) : M Z :=
  fun w =>
    let io := IO (obj w) in
    let (st, e) := IO_WriteReg io (IO_Address io) Reg data (env w) in
    Ret st {| obj := obj w; env := e; trace := trace w ++ [EvWrite Reg data st] |}.

Definition OV5640_ReadRegWrap (Reg buf : Z) : M (Z * Z) :=
  fun w =>
    let io := IO (obj w) in
    let '(st, d, e) := IO_ReadReg io (IO_Address io) Reg buf (env w) in
    Ret (st, u8 d)
        {| obj := obj w; env := e; trace := trace w ++ [EvRead Reg st (u8 d)] |}.

(** Modelled from the spec: [ov5640_write_reg] and [ov5640_read_reg] are
    defined in [ov5640_reg.c], which is not among the sources.  The spec
    has every operation "issue register writes/reads through an injected
    bus-I/O callback struct", one single-byte transaction per call: they
    forward to the wrappers that [OV5640_RegisterBusIO] stores in [Ctx]
    and return their status. *)
Definition ov5640_write_reg (Reg data : Z) : M Z :=
  OV5640_WriteRegWrap (u16 Reg) (u8 data).

Definition ov5640_read_reg (Reg buf : Z) : M (Z * Z) :=
  OV5640_ReadRegWrap (u16 Reg) (u8 buf).

(** [pObj->IO.GetTick()], a [uint32_t]. *)
Definition GetTick : M Z :=
  fun w =>
    let (t, e) := IO_GetTick (IO (obj w)) (env w) in
    Ret (u32 t) {| obj := obj w; env := e; trace := trace w |}.

(** [OV5640_Delay]: busy wait on the tick of the bus binding,
    [while ((GetTick() - tickstart) < Delay) {}]. *)
Fixpoint Delay_wait (fuel : nat) (tickstart Delay : Z) : M unit :=
  match fuel with
  | O => diverge
  | S fuel' =>
      t <- GetTick ;;
      if u32 (t - tickstart) <? Delay
      then Delay_wait fuel' tickstart Delay
      else mret tt
  end.

Definition OV5640_Delay (fuel : nat) (Delay : Z) : M Z :=
  tickstart <- GetTick ;;
  Delay_wait fuel tickstart Delay ;;;
  mret OV5640_OK.

(** [vTaskDelay(pdMS_TO_TICKS(ms))]. *)
Definition vTaskDelay_ms (ms : Z) : M unit :=
  fun w =>
    Ret tt {| obj := obj w; env := vTaskDelay ms (env w);
              trace := trace w ++ [EvDelay ms] |}.

(** [tbl[i]] on a C array: undefined outside the array. *)
Definition index {A : Type} (tbl : list A) (i : Z) : M A :=
  fun w =>
    if (0 <=? i) && (i <? Z.of_nat (length tbl))
    then match nth_error tbl (Z.to_nat i) with
         | Some v => Ret v w
         | None => Undef w
         end
    else Undef w.

(** *** Register tables

    The three loop idioms of the driver over a table of (address, value)
    pairs, [for (index = 0; index < sizeof(tbl) / 4U; index++)]. *)

(** Guarded: [if (ret != OV5640_ERROR) { tmp = tbl[index][1];
    if (write(tbl[index][0], tmp) != OV5640_OK) ret = OV5640_ERROR;
    else after; }]. *)
Fixpoint write_table_guarded (after : M unit) (tbl : list (Z * Z)) (ret : Z) : M Z :=
  match tbl with
  | [] => mret ret
  | (r, v) :: tbl' =>
      if negb (ret =? OV5640_ERROR)
      then st <- ov5640_write_reg r v ;;
           if negb (st =? OV5640_OK)
           then write_table_guarded after tbl' OV5640_ERROR
           else after ;;; write_table_guarded after tbl' ret
      else write_table_guarded after tbl' ret
  end.

(** Breaking: [if (write(...) != OV5640_OK) { ret = OV5640_ERROR; break; }]. *)
Fixpoint write_table_break (tbl : list (Z * Z)) (ret : Z) : M Z :=
  match tbl with
  | [] => mret ret
  | (r, v) :: tbl' =>
      st <- ov5640_write_reg r v ;;
      if negb (st =? OV5640_OK)
      then mret OV5640_ERROR
      else write_table_break tbl' ret
  end.

(** Unguarded: [if (write(...) != OV5640_OK) { ret = OV5640_ERROR; }]. *)
Fixpoint write_table_all (tbl : list (Z * Z)) (ret : Z) : M Z :=
  match tbl with
  | [] => mret ret
  | (r, v) :: tbl' =>
      st <- ov5640_write_reg r v ;;
      write_table_all tbl' (if negb (st =? OV5640_OK) then OV5640_ERROR else ret)
  end.

(** *** Registration *)

Definition OV5640_RegisterBusIO (p : ObjPtr) (pIO : OV5640_IO_t B) : M Z :=
  match p with
  | NULL => mret OV5640_ERROR
  | pObj =>
      o <- get_obj ;;
      set_obj {| IO := pIO;
                 IsInitialized := IsInitialized o;
                 Mode := Mode o;
                 VirtualChannelID := VirtualChannelID o;
                 bright := 0x01;
                 saturation := 0x41;
                 contrast := 0x41;
                 huedegree := 0x32 |} ;;;
      match IO_Init pIO with
      | Some init =>
          fun w =>
            let (st, e) := init (env w) in
            Ret st {| obj := obj w; env := e; trace := trace w |}
      | None => mret OV5640_ERROR
      end
  end.

(** *** Interface modes *)

Definition EnableDVPMode_regs : list (Z * Z) :=
  [(reg OV5640_PAD_OUTPUT_ENABLE01, 0xFF);
   (reg OV5640_PAD_OUTPUT_ENABLE02, 0xF3);
   (0x302e, 0x00);
   (0x471c, 0x50);
   (reg OV5640_MIPI_CONTROL00, 0x58);
   (reg OV5640_SC_PLL_CONTRL0, 0x18);
   (reg OV5640_SC_PLL_CONTRL1, 0x41);
   (reg OV5640_SC_PLL_CONTRL2, 0x60);
   (reg OV5640_SC_PLL_CONTRL3, 0x13);
   (reg OV5640_SYSTEM_ROOT_DIVIDER, 0x01)].

Definition OV5640_EnableDVPMode : M Z :=
  write_table_break EnableDVPMode_regs OV5640_OK.

Definition EnableMIPIMode_regs : list (Z * Z) :=
  [(reg OV5640_PAD_OUTPUT_ENABLE01, 0);
   (reg OV5640_PAD_OUTPUT_ENABLE02, 0);
   (0x302e, 0x08);
   (reg OV5640_PCLK_PERIOD, 0x23);
   (reg OV5640_SC_PLL_CONTRL0, 0x18);
   (reg OV5640_SC_PLL_CONTRL1, 0x12);
   (reg OV5640_SC_PLL_CONTRL2, 0x1C);
   (reg OV5640_SC_PLL_CONTRL3, 0x13);
   (reg OV5640_SYSTEM_ROOT_DIVIDER, 0x01);
   (0x4814, 0x2a);
   (reg OV5640_MIPI_CTRL00, 0x24);
   (reg OV5640_PAD_OUTPUT_VALUE00, 0x70);
   (reg OV5640_MIPI_CONTROL00, 0x45);
   (reg OV5640_FRAME_CTRL02, 0x00)].

Definition OV5640_EnableMIPIMode : M Z :=
  write_table_break EnableMIPIMode_regs OV5640_OK.

(** [tmp] is not initialised before the read; its content only matters
    when the read succeeds. *)
Definition OV5640_SetMIPIVirtualChannel (vchannel : Z) : M Z :=
  rd <- ov5640_read_reg 0x4814 0 ;;
  if negb (fst rd =? OV5640_OK)
  then mret OV5640_ERROR
  else
    let tmp := u8 (Z.land (snd rd) (Z.lnot (Z.shiftl 3 6))) in
    let tmp := u8 (Z.lor tmp (u32 (Z.shiftl vchannel 6))) in
    st <- ov5640_write_reg 0x4814 tmp ;;
    if negb (st =? OV5640_OK) then mret OV5640_ERROR else mret OV5640_OK.

(** *** Resolution, pixel format, polarities *)

Definition OV5640_WVGA : list (Z * Z) :=
  [(reg OV5640_TIMING_DVPHO_HIGH, 0x03); (reg OV5640_TIMING_DVPHO_LOW, 0x20);
   (reg OV5640_TIMING_DVPVO_HIGH, 0x01); (reg OV5640_TIMING_DVPVO_LOW, 0xE0)].

Definition OV5640_VGA : list (Z * Z) :=
  [(reg OV5640_TIMING_DVPHO_HIGH, 0x02); (reg OV5640_TIMING_DVPHO_LOW, 0x80);
   (reg OV5640_TIMING_DVPVO_HIGH, 0x01); (reg OV5640_TIMING_DVPVO_LOW, 0xE0)].

Definition OV5640_480x272 : list (Z * Z) :=
  [(reg OV5640_TIMING_DVPHO_HIGH, 0x01); (reg OV5640_TIMING_DVPHO_LOW, 0xE0);
   (reg OV5640_TIMING_DVPVO_HIGH, 0x01); (reg OV5640_TIMING_DVPVO_LOW, 0x10)].

Definition OV5640_QVGA : list (Z * Z) :=
  [(reg OV5640_TIMING_DVPHO_HIGH, 0x01); (reg OV5640_TIMING_DVPHO_LOW, 0x40);
   (reg OV5640_TIMING_DVPVO_HIGH, 0x00); (reg OV5640_TIMING_DVPVO_LOW, 0xF0)].

Definition OV5640_QQVGA : list (Z * Z) :=
  [(reg OV5640_TIMING_DVPHO_HIGH, 0x00); (reg OV5640_TIMING_DVPHO_LOW, 0xA0);
   (reg OV5640_TIMING_DVPVO_HIGH, 0x00); (reg OV5640_TIMING_DVPVO_LOW, 0x78)].

Definition OV5640_SetResolution (Resolution : Z) : M Z :=
  if Resolution >? OV5640_R800x480
  then mret OV5640_ERROR
  else if Resolution =? OV5640_R160x120
  then write_table_guarded (mret tt) OV5640_QQVGA OV5640_OK
  else if Resolution =? OV5640_R320x240
  then write_table_guarded (mret tt) OV5640_QVGA OV5640_OK
  else if Resolution =? OV5640_R480x272
  then write_table_guarded (mret tt) OV5640_480x272 OV5640_OK
  else if Resolution =? OV5640_R640x480
  then write_table_guarded (mret tt) OV5640_VGA OV5640_OK
  else if Resolution =? OV5640_R800x480
  then write_table_guarded (mret tt) OV5640_WVGA OV5640_OK
  else mret OV5640_ERROR.

Definition OV5640_PF_RGB565 : list (Z * Z) :=
  [(reg OV5640_FORMAT_CTRL00, 0x6F); (reg OV5640_FORMAT_MUX_CTRL, 0x01)].

Definition OV5640_PF_YUV422 : list (Z * Z) :=
  [(reg OV5640_FORMAT_CTRL00, 0x30); (reg OV5640_FORMAT_MUX_CTRL, 0x00)].

Definition OV5640_PF_RGB888 : list (Z * Z) :=
  [(reg OV5640_FORMAT_CTRL00, 0x23); (reg OV5640_FORMAT_MUX_CTRL, 0x01)].

Definition OV5640_PF_Y8 : list (Z * Z) :=
  [(reg OV5640_FORMAT_CTRL00, 0x10); (reg OV5640_FORMAT_MUX_CTRL, 0x00)].

Definition OV5640_PF_JPEG : list (Z * Z) :=
  [(reg OV5640_FORMAT_CTRL00, 0x30); (reg OV5640_FORMAT_MUX_CTRL, 0x00)].

Definition pixel_format_supported (PixelFormat : Z) : bool :=
  negb ((negb (PixelFormat =? OV5640_RGB565)) && (negb (PixelFormat =? OV5640_YUV422)) &&
        (negb (PixelFormat =? OV5640_RGB888)) && (negb (PixelFormat =? OV5640_Y8)) &&
        (negb (PixelFormat =? OV5640_JPEG))).

(** The guarded table loop of [OV5640_SetPixelFormat], with the content
    of [tmp] when the loop ends: [tmp] takes the value of every entry
    that passes the guard, before the write, and keeps it afterwards. *)
Fixpoint write_table_guarded_tmp (after : M unit) (tbl : list (Z * Z)) (ret tmp : Z)
  : M (Z * Z) :=
  match tbl with
  | [] => mret (ret, tmp)
  | (r, v) :: tbl' =>
      if negb (ret =? OV5640_ERROR)
      then st <- ov5640_write_reg r v ;;
           if negb (st =? OV5640_OK)
           then write_table_guarded_tmp after tbl' OV5640_ERROR (u8 v)
           else after ;;; write_table_guarded_tmp after tbl' ret (u8 v)
      else write_table_guarded_tmp after tbl' ret tmp
  end.

(** The three read-modify-write patches that follow the table when the
    format is JPEG; they run whatever the table loop left in [ret], and
    the first read is handed [tmp] as the table loop left it. *)
Definition SetPixelFormat_jpeg_patch (ret tmp : Z) : M Z :=
  rd <- ov5640_read_reg (reg OV5640_TIMING_TC_REG21) tmp ;;
  if negb (fst rd =? OV5640_OK) then mret OV5640_ERROR
  else
    st <- ov5640_write_reg (reg OV5640_TIMING_TC_REG21)
                           (u8 (Z.lor (snd rd) (Z.shiftl 1 5))) ;;
    if negb (st =? OV5640_OK) then mret OV5640_ERROR
    else
      rd <- ov5640_read_reg (reg OV5640_SYSREM_RESET02)
                            (u8 (Z.lor (snd rd) (Z.shiftl 1 5))) ;;
      if negb (fst rd =? OV5640_OK) then mret OV5640_ERROR
      else
        let tmp :=
          u8 (Z.land (snd rd)
                     (Z.lnot (Z.lor (Z.lor (Z.shiftl 1 4) (Z.shiftl 1 3)) (Z.shiftl 1 2)))) in
        st <- ov5640_write_reg (reg OV5640_SYSREM_RESET02) tmp ;;
        if negb (st =? OV5640_OK) then mret OV5640_ERROR
        else
          rd <- ov5640_read_reg (reg OV5640_CLOCK_ENABLE02) tmp ;;
          if negb (fst rd =? OV5640_OK) then mret OV5640_ERROR
          else
            st <- ov5640_write_reg (reg OV5640_CLOCK_ENABLE02)
                                   (u8 (Z.lor (snd rd) (Z.lor (Z.shiftl 1 5) (Z.shiftl 1 3)))) ;;
            if negb (st =? OV5640_OK) then mret OV5640_ERROR else mret ret.

(** [tmp] is not initialised before the table loop; the first iteration
    assigns it unless the two status codes coincide. *)
Definition OV5640_SetPixelFormat (fuel : nat) (PixelFormat : Z) : M Z :=
  if negb (pixel_format_supported PixelFormat)
  then mret OV5640_ERROR
  else
    let delay1 := (OV5640_Delay fuel 1 ;;; mret tt) in
    rt <- (if PixelFormat =? OV5640_YUV422
           then write_table_guarded_tmp delay1 OV5640_PF_YUV422 OV5640_OK 0
           else if PixelFormat =? OV5640_RGB888
           then write_table_guarded_tmp delay1 OV5640_PF_RGB888 OV5640_OK 0
           else if PixelFormat =? OV5640_Y8
           then write_table_guarded_tmp delay1 OV5640_PF_Y8 OV5640_OK 0
           else if PixelFormat =? OV5640_JPEG
           then write_table_guarded_tmp delay1 OV5640_PF_JPEG OV5640_OK 0
           else write_table_guarded_tmp delay1 OV5640_PF_RGB565 OV5640_OK 0) ;;
    if PixelFormat =? OV5640_JPEG
    then SetPixelFormat_jpeg_patch (fst rt) (snd rt)
    else mret (fst rt).

Definition polarities_rejected (p : ObjPtr) (PclkPolarity HrefPolarity VsyncPolarity : Z) : bool :=
  match p with NULL => true | pObj => false end
  || (negb (PclkPolarity =? OV5640_POLARITY_PCLK_LOW) &&
      negb (PclkPolarity =? OV5640_POLARITY_PCLK_HIGH))
  || (negb (HrefPolarity =? OV5640_POLARITY_HREF_LOW) &&
      negb (HrefPolarity =? OV5640_POLARITY_HREF_HIGH))
  || (negb (VsyncPolarity =? OV5640_POLARITY_VSYNC_LOW) &&
      negb (VsyncPolarity =? OV5640_POLARITY_VSYNC_HIGH)).

(** [tmp = (uint8_t)(PclkPolarity << 5U) | (HrefPolarity << 1U) | VsyncPolarity;]
    the cast binds to the first shift only, and the assignment to the
    [uint8_t] truncates the whole. *)
Definition OV5640_SetPolarities (p : ObjPtr) (PclkPolarity HrefPolarity VsyncPolarity : Z) : M Z :=
  if polarities_rejected p PclkPolarity HrefPolarity VsyncPolarity
  then mret OV5640_ERROR
  else
    let tmp := u8 (Z.lor (Z.lor (u8 (u32 (Z.shiftl PclkPolarity 5)))
                                (u32 (Z.shiftl HrefPolarity 1)))
                         VsyncPolarity) in
    st <- ov5640_write_reg (reg OV5640_POLARITY_CTRL) tmp ;;
    if negb (st =? OV5640_OK) then mret OV5640_ERROR else mret OV5640_OK.

(** *** Initialisation *)

Definition OV5640_Common : list (Z * Z) :=
  [
   (reg OV5640_SCCB_SYSTEM_CTRL1, 0x11); (reg OV5640_SYSTEM_CTROL0, 0x82); (reg OV5640_SCCB_SYSTEM_CTRL1, 0x03);
   (0x3630, 0x36); (0x3631, 0x0E); (0x3632, 0xE2);
   (0x3633, 0x12); (0x3621, 0xE0); (0x3704, 0xA0);
   (0x3703, 0x5A); (0x3715, 0x78); (0x3717, 0x01);
   (0x370B, 0x60); (0x3705, 0x1A); (0x3905, 0x02);
   (0x3906, 0x10); (0x3901, 0x0A); (0x3731, 0x12);
   (0x3600, 0x08); (0x3601, 0x33); (0x302D, 0x60);
   (0x3620, 0x52); (0x371B, 0x20); (0x471C, 0x50);
   (reg OV5640_AEC_CTRL13, 0x43); (reg OV5640_AEC_GAIN_CEILING_HIGH, 0x00); (reg OV5640_AEC_GAIN_CEILING_LOW, 0xF8);
   (0x3635, 0x13); (0x3636, 0x03); (0x3634, 0x40);
   (0x3622, 0x01); (reg OV5640_5060HZ_CTRL01, 0x34); (reg OV5640_5060HZ_CTRL04, 0x28);
   (reg OV5640_5060HZ_CTRL05, 0x98); (reg OV5640_LIGHTMETER1_TH_HIGH, 0x00); (reg OV5640_LIGHTMETER1_TH_LOW, 0x00);
   (reg OV5640_LIGHTMETER2_TH_HIGH, 0x01); (reg OV5640_LIGHTMETER2_TH_LOW, 0x2C); (reg OV5640_SAMPLE_NUMBER_HIGH, 0x9C);
   (reg OV5640_SAMPLE_NUMBER_LOW, 0x40); (reg OV5640_TIMING_TC_REG20, 0x06); (reg OV5640_TIMING_TC_REG21, 0x00);
   (reg OV5640_TIMING_X_INC, 0x31); (reg OV5640_TIMING_Y_INC, 0x31); (reg OV5640_TIMING_HS_HIGH, 0x00);
   (reg OV5640_TIMING_HS_LOW, 0x00); (reg OV5640_TIMING_VS_HIGH, 0x00); (reg OV5640_TIMING_VS_LOW, 0x04);
   (reg OV5640_TIMING_HW_HIGH, 0x0A); (reg OV5640_TIMING_HW_LOW, 0x3F); (reg OV5640_TIMING_VH_HIGH, 0x07);
   (reg OV5640_TIMING_VH_LOW, 0x9B); (reg OV5640_TIMING_DVPHO_HIGH, 0x03); (reg OV5640_TIMING_DVPHO_LOW, 0x20);
   (reg OV5640_TIMING_DVPVO_HIGH, 0x02); (reg OV5640_TIMING_DVPVO_LOW, 0x58); (reg OV5640_TIMING_HTS_HIGH, 0x07);
   (reg OV5640_TIMING_HTS_LOW, 0x90); (reg OV5640_TIMING_VTS_HIGH, 0x04); (reg OV5640_TIMING_VTS_LOW, 0x40);
   (reg OV5640_TIMING_HOFFSET_HIGH, 0x00); (reg OV5640_TIMING_HOFFSET_LOW, 0x10); (reg OV5640_TIMING_VOFFSET_HIGH, 0x00);
   (reg OV5640_TIMING_VOFFSET_LOW, 0x06); (0x3618, 0x00); (0x3612, 0x29);
   (0x3708, 0x64); (0x3709, 0x52); (0x370C, 0x03);
   (reg OV5640_AEC_CTRL02, 0x03); (reg OV5640_AEC_CTRL03, 0xD8); (reg OV5640_AEC_B50_STEP_HIGH, 0x01);
   (reg OV5640_AEC_B50_STEP_LOW, 0x27); (reg OV5640_AEC_B60_STEP_HIGH, 0x00); (reg OV5640_AEC_B60_STEP_LOW, 0xF6);
   (reg OV5640_AEC_CTRL0E, 0x03); (reg OV5640_AEC_CTRL0D, 0x04); (reg OV5640_AEC_MAX_EXPO_HIGH, 0x03);
   (reg OV5640_AEC_MAX_EXPO_LOW, 0xD8); (reg OV5640_BLC_CTRL01, 0x02); (reg OV5640_BLC_CTRL04, 0x02);
   (reg OV5640_SYSREM_RESET00, 0x00); (reg OV5640_SYSREM_RESET02, 0x1C); (reg OV5640_CLOCK_ENABLE00, 0xFF);
   (reg OV5640_CLOCK_ENABLE02, 0xC3); (reg OV5640_MIPI_CONTROL00, 0x58); (0x302E, 0x00);
   (reg OV5640_POLARITY_CTRL, 0x22); (reg OV5640_FORMAT_CTRL00, 0x6F); (reg OV5640_FORMAT_MUX_CTRL, 0x01);
   (reg OV5640_JPG_MODE_SELECT, 0x03); (reg OV5640_JPEG_CTRL07, 0x04); (0x440E, 0x00);
   (0x460B, 0x35); (0x460C, 0x23); (reg OV5640_PCLK_PERIOD, 0x22);
   (0x3824, 0x02); (reg OV5640_ISP_CONTROL00, 0xA7); (reg OV5640_ISP_CONTROL01, 0xA3);
   (reg OV5640_AWB_CTRL00, 0xFF); (reg OV5640_AWB_CTRL01, 0xF2); (reg OV5640_AWB_CTRL02, 0x00);
   (reg OV5640_AWB_CTRL03, 0x14); (reg OV5640_AWB_CTRL04, 0x25); (reg OV5640_AWB_CTRL05, 0x24);
   (reg OV5640_AWB_CTRL06, 0x09); (reg OV5640_AWB_CTRL07, 0x09); (reg OV5640_AWB_CTRL08, 0x09);
   (reg OV5640_AWB_CTRL09, 0x75); (reg OV5640_AWB_CTRL10, 0x54); (reg OV5640_AWB_CTRL11, 0xE0);
   (reg OV5640_AWB_CTRL12, 0xB2); (reg OV5640_AWB_CTRL13, 0x42); (reg OV5640_AWB_CTRL14, 0x3D);
   (reg OV5640_AWB_CTRL15, 0x56); (reg OV5640_AWB_CTRL16, 0x46); (reg OV5640_AWB_CTRL17, 0xF8);
   (reg OV5640_AWB_CTRL18, 0x04); (reg OV5640_AWB_CTRL19, 0x70); (reg OV5640_AWB_CTRL20, 0xF0);
   (reg OV5640_AWB_CTRL21, 0xF0); (reg OV5640_AWB_CTRL22, 0x03); (reg OV5640_AWB_CTRL23, 0x01);
   (reg OV5640_AWB_CTRL24, 0x04); (reg OV5640_AWB_CTRL25, 0x12); (reg OV5640_AWB_CTRL26, 0x04);
   (reg OV5640_AWB_CTRL27, 0x00); (reg OV5640_AWB_CTRL28, 0x06); (reg OV5640_AWB_CTRL29, 0x82);
   (reg OV5640_AWB_CTRL30, 0x38); (reg OV5640_CMX1, 0x1E); (reg OV5640_CMX2, 0x5B);
   (reg OV5640_CMX3, 0x08); (reg OV5640_CMX4, 0x0A); (reg OV5640_CMX5, 0x7E);
   (reg OV5640_CMX6, 0x88); (reg OV5640_CMX7, 0x7C); (reg OV5640_CMX8, 0x6C);
   (reg OV5640_CMX9, 0x10); (reg OV5640_CMXSIGN_HIGH, 0x01); (reg OV5640_CMXSIGN_LOW, 0x98);
   (reg OV5640_CIP_SHARPENMT_TH1, 0x08); (reg OV5640_CIP_SHARPENMT_TH2, 0x30); (reg OV5640_CIP_SHARPENMT_OFFSET1, 0x10);
   (reg OV5640_CIP_SHARPENMT_OFFSET2, 0x00); (reg OV5640_CIP_DNS_TH1, 0x08); (reg OV5640_CIP_DNS_TH2, 0x30);
   (reg OV5640_CIP_DNS_OFFSET1, 0x08); (reg OV5640_CIP_DNS_OFFSET2, 0x16); (reg OV5640_CIP_CTRL, 0x08);
   (reg OV5640_CIP_SHARPENTH_TH1, 0x30); (reg OV5640_CIP_SHARPENTH_TH2, 0x04); (reg OV5640_CIP_SHARPENTH_OFFSET1, 0x06);
   (reg OV5640_GAMMA_CTRL00, 0x01); (reg OV5640_GAMMA_YST00, 0x08); (reg OV5640_GAMMA_YST01, 0x14);
   (reg OV5640_GAMMA_YST02, 0x28); (reg OV5640_GAMMA_YST03, 0x51); (reg OV5640_GAMMA_YST04, 0x65);
   (reg OV5640_GAMMA_YST05, 0x71); (reg OV5640_GAMMA_YST06, 0x7D); (reg OV5640_GAMMA_YST07, 0x87);
   (reg OV5640_GAMMA_YST08, 0x91); (reg OV5640_GAMMA_YST09, 0x9A); (reg OV5640_GAMMA_YST0A, 0xAA);
   (reg OV5640_GAMMA_YST0B, 0xB8); (reg OV5640_GAMMA_YST0C, 0xCD); (reg OV5640_GAMMA_YST0D, 0xDD);
   (reg OV5640_GAMMA_YST0E, 0xEA); (reg OV5640_GAMMA_YST0F, 0x1D); (reg OV5640_SDE_CTRL0, 0x02);
   (reg OV5640_SDE_CTRL3, 0x40); (reg OV5640_SDE_CTRL4, 0x10); (reg OV5640_SDE_CTRL9, 0x10);
   (reg OV5640_SDE_CTRL10, 0x00); (reg OV5640_SDE_CTRL11, 0xF8); (reg OV5640_GMTRX00, 0x23);
   (reg OV5640_GMTRX01, 0x14); (reg OV5640_GMTRX02, 0x0F); (reg OV5640_GMTRX03, 0x0F);
   (reg OV5640_GMTRX04, 0x12); (reg OV5640_GMTRX05, 0x26); (reg OV5640_GMTRX10, 0x0C);
   (reg OV5640_GMTRX11, 0x08); (reg OV5640_GMTRX12, 0x05); (reg OV5640_GMTRX13, 0x05);
   (reg OV5640_GMTRX14, 0x08); (reg OV5640_GMTRX15, 0x0D); (reg OV5640_GMTRX20, 0x08);
   (reg OV5640_GMTRX21, 0x03); (reg OV5640_GMTRX22, 0x00); (reg OV5640_GMTRX23, 0x00);
   (reg OV5640_GMTRX24, 0x03); (reg OV5640_GMTRX25, 0x09); (reg OV5640_GMTRX30, 0x07);
   (reg OV5640_GMTRX31, 0x03); (reg OV5640_GMTRX32, 0x00); (reg OV5640_GMTRX33, 0x01);
   (reg OV5640_GMTRX34, 0x03); (reg OV5640_GMTRX35, 0x08); (reg OV5640_GMTRX40, 0x0D);
   (reg OV5640_GMTRX41, 0x08); (reg OV5640_GMTRX42, 0x05); (reg OV5640_GMTRX43, 0x06);
   (reg OV5640_GMTRX44, 0x08); (reg OV5640_GMTRX45, 0x0E); (reg OV5640_GMTRX50, 0x29);
   (reg OV5640_GMTRX51, 0x17); (reg OV5640_GMTRX52, 0x11); (reg OV5640_GMTRX53, 0x11);
   (reg OV5640_GMTRX54, 0x15); (reg OV5640_GMTRX55, 0x28); (reg OV5640_BRMATRX00, 0x46);
   (reg OV5640_BRMATRX01, 0x26); (reg OV5640_BRMATRX02, 0x08); (reg OV5640_BRMATRX03, 0x26);
   (reg OV5640_BRMATRX04, 0x64); (reg OV5640_BRMATRX05, 0x26); (reg OV5640_BRMATRX06, 0x24);
   (reg OV5640_BRMATRX07, 0x22); (reg OV5640_BRMATRX08, 0x24); (reg OV5640_BRMATRX09, 0x24);
   (reg OV5640_BRMATRX20, 0x06); (reg OV5640_BRMATRX21, 0x22); (reg OV5640_BRMATRX22, 0x40);
   (reg OV5640_BRMATRX23, 0x42); (reg OV5640_BRMATRX24, 0x24); (reg OV5640_BRMATRX30, 0x26);
   (reg OV5640_BRMATRX31, 0x24); (reg OV5640_BRMATRX32, 0x22); (reg OV5640_BRMATRX33, 0x22);
   (reg OV5640_BRMATRX34, 0x26); (reg OV5640_BRMATRX40, 0x44); (reg OV5640_BRMATRX41, 0x24);
   (reg OV5640_BRMATRX42, 0x26); (reg OV5640_BRMATRX43, 0x28); (reg OV5640_BRMATRX44, 0x42);
   (reg OV5640_LENC_BR_OFFSET, 0xCE); (0x5025, 0x00); (reg OV5640_AEC_CTRL0F, 0x30);
   (reg OV5640_AEC_CTRL10, 0x28); (reg OV5640_AEC_CTRL1B, 0x30); (reg OV5640_AEC_CTRL1E, 0x26);
   (reg OV5640_AEC_CTRL11, 0x60); (reg OV5640_AEC_CTRL1F, 0x14); (reg OV5640_SYSTEM_CTROL0, 0x02)
  ].

Definition OV5640_Init (fuel : nat) (Resolution PixelFormat : Z) : M Z :=
  o <- get_obj ;;
  if IsInitialized o =? 0
  then
    if (Resolution >? OV5640_R800x480) || negb (pixel_format_supported PixelFormat)
    then mret OV5640_ERROR
    else
      ret <- write_table_guarded (mret tt) OV5640_Common OV5640_OK ;;
      ret <- (if ret =? OV5640_OK
              then
                if Mode o =? SERIAL_MODE
                then
                  st <- OV5640_EnableMIPIMode ;;
                  if negb (st =? OV5640_OK) then mret OV5640_ERROR
                  else
                    st <- OV5640_SetMIPIVirtualChannel (VirtualChannelID o) ;;
                    if negb (st =? OV5640_OK) then mret OV5640_ERROR else mret ret
                else
                  st <- OV5640_EnableDVPMode ;;
                  if negb (st =? OV5640_OK) then mret OV5640_ERROR else mret OV5640_OK
              else mret ret) ;;
      if ret =? OV5640_OK
      then
        st <- OV5640_SetResolution Resolution ;;
        if negb (st =? OV5640_OK) then mret OV5640_ERROR
        else
          st <- OV5640_SetPixelFormat fuel PixelFormat ;;
          if negb (st =? OV5640_OK) then mret OV5640_ERROR
          else
            st <- OV5640_SetPolarities pObj OV5640_POLARITY_PCLK_HIGH
                                       OV5640_POLARITY_HREF_HIGH
                                       OV5640_POLARITY_VSYNC_HIGH ;;
            if negb (st =? OV5640_OK) then mret OV5640_ERROR
            else
              o' <- get_obj ;;
              set_obj {| IO := IO o';
                         IsInitialized := 1;
                         Mode := Mode o';
                         VirtualChannelID := VirtualChannelID o';
                         bright := bright o';
                         saturation := saturation o';
                         contrast := contrast o';
                         huedegree := huedegree o' |} ;;;
              mret ret
      else mret ret
  else mret OV5640_OK.

Definition OV5640_DeInit : M Z :=
  o <- get_obj ;;
  (if IsInitialized o =? 1
   then set_obj {| IO := IO o;
                   IsInitialized := 0;
                   Mode := Mode o;
                   VirtualChannelID := VirtualChannelID o;
                   bright := bright o;
                   saturation := saturation o;
                   contrast := contrast o;
                   huedegree := huedegree o |}
   else mret tt) ;;;
  mret OV5640_OK.

(** *** Image tuning *)

Definition set_bright (v : Z) : M unit :=
  o <- get_obj ;;
  set_obj {| IO := IO o; IsInitialized := IsInitialized o; Mode := Mode o;
             VirtualChannelID := VirtualChannelID o;
             bright := v; saturation := saturation o;
             contrast := contrast o; huedegree := huedegree o |}.

Definition set_saturation (v : Z) : M unit :=
  o <- get_obj ;;
  set_obj {| IO := IO o; IsInitialized := IsInitialized o; Mode := Mode o;
             VirtualChannelID := VirtualChannelID o;
             bright := bright o; saturation := v;
             contrast := contrast o; huedegree := huedegree o |}.

Definition set_contrast (v : Z) : M unit :=
  o <- get_obj ;;
  set_obj {| IO := IO o; IsInitialized := IsInitialized o; Mode := Mode o;
             VirtualChannelID := VirtualChannelID o;
             bright := bright o; saturation := saturation o;
             contrast := v; huedegree := huedegree o |}.

Definition set_huedegree (v : Z) : M unit :=
  o <- get_obj ;;
  set_obj {| IO := IO o; IsInitialized := IsInitialized o; Mode := Mode o;
             VirtualChannelID := VirtualChannelID o;
             bright := bright o; saturation := saturation o;
             contrast := contrast o; huedegree := v |}.

(** [pObj->contrast | pObj->bright | pObj->huedegree | pObj->saturation]. *)
Definition composite (o : OV5640_Object_t B) : Z :=
  Z.lor (Z.lor (Z.lor (contrast o) (bright o)) (huedegree o)) (saturation o).

(** [tmp = composite; write(OV5640_SDE_CTRL8, tmp)]. *)
Definition write_composite : M Z :=
  o <- get_obj ;;
  ov5640_write_reg (reg OV5640_SDE_CTRL8) (composite o).

Definition brightness_level : list Z :=
  [0x40; 0x30; 0x20; 0x10; 0x00; 0x10; 0x20; 0x30; 0x40].

Definition OV5640_SetBrightness (Level : Z) : M Z :=
  ret <- ov5640_write_reg (reg OV5640_ISP_CONTROL01) 0xFF ;;
  ret <- (if ret =? OV5640_OK
          then tmp <- index brightness_level (Level + 4) ;;
               ov5640_write_reg (reg OV5640_SDE_CTRL7) tmp
          else mret ret) ;;
  ret <- (if ret =? OV5640_OK
          then ov5640_write_reg (reg OV5640_SDE_CTRL0) 0x07
          else mret ret) ;;
  if ret =? OV5640_OK
  then
    if Level <? 0
    then
      set_bright 0x01 ;;;
      st <- write_composite ;;
      if negb (st =? OV5640_OK) then mret OV5640_ERROR else mret ret
    else
      set_bright 0x09 ;;;
      st <- write_composite ;;
      if negb (st =? OV5640_OK) then mret OV5640_ERROR else mret ret
  else mret ret.

Definition saturation_level : list Z :=
  [0x00; 0x10; 0x20; 0x30; 0x40; 0x50; 0x60; 0x70; 0x80].

(** [tmp] keeps the table value for the second write; it is only read
    there when the first two writes succeeded. *)
Definition OV5640_SetSaturation (Level : Z) : M Z :=
  ret <- ov5640_write_reg (reg OV5640_ISP_CONTROL01) 0xFF ;;
  rt <- (if ret =? OV5640_OK
         then tmp <- index saturation_level (Level + 4) ;;
              ret <- ov5640_write_reg (reg OV5640_SDE_CTRL3) tmp ;;
              mret (ret, tmp)
         else mret (ret, 0xFF)) ;;
  let tmp := snd rt in
  ret <- (if fst rt =? OV5640_OK
          then ov5640_write_reg (reg OV5640_SDE_CTRL4) tmp
          else mret (fst rt)) ;;
  ret <- (if ret =? OV5640_OK
          then ov5640_write_reg (reg OV5640_SDE_CTRL0) 0x07
          else mret ret) ;;
  ret <- (if ret =? OV5640_OK
          then set_saturation 0x41 ;;; write_composite
          else mret ret) ;;
  if negb (ret =? OV5640_OK) then mret OV5640_ERROR else mret ret.

Definition contrast_level : list Z :=
  [0x10; 0x14; 0x18; 0x1C; 0x20; 0x24; 0x28; 0x2C; 0x30].

Definition OV5640_SetContrast (Level : Z) : M Z :=
  ret <- ov5640_write_reg (reg OV5640_ISP_CONTROL01) 0xFF ;;
  ret <- (if ret =? OV5640_OK
          then ov5640_write_reg (reg OV5640_SDE_CTRL0) 0x07
          else mret ret) ;;
  rt <- (if ret =? OV5640_OK
         then tmp <- index contrast_level (Level + 4) ;;
              ret <- ov5640_write_reg (reg OV5640_SDE_CTRL6) tmp ;;
              mret (ret, tmp)
         else mret (ret, 0x07)) ;;
  let tmp := snd rt in
  ret <- (if fst rt =? OV5640_OK
          then ov5640_write_reg (reg OV5640_SDE_CTRL5) tmp
          else mret (fst rt)) ;;
  ret <- (if ret =? OV5640_OK
          then set_contrast 0x41 ;;; write_composite
          else mret ret) ;;
  if negb (ret =? OV5640_OK) then mret OV5640_ERROR else mret ret.

Definition hue_degree_ctrl1 : list Z :=
  [0x80; 0x6F; 0x40; 0x00; 0x40; 0x6F; 0x80; 0x6F; 0x40; 0x00; 0x40; 0x6F].

Definition hue_degree_ctrl2 : list Z :=
  [0x00; 0x40; 0x6F; 0x80; 0x6F; 0x40; 0x00; 0x40; 0x6F; 0x80; 0x6F; 0x40].

Definition hue_degree_ctrl8 : list Z :=
  [0x32; 0x32; 0x32; 0x02; 0x02; 0x02; 0x01; 0x01; 0x01; 0x31; 0x31; 0x31].

Definition OV5640_SetHueDegree (Degree : Z) : M Z :=
  ret <- ov5640_write_reg (reg OV5640_ISP_CONTROL01) 0xFF ;;
  ret <- (if ret =? OV5640_OK
          then ov5640_write_reg (reg OV5640_SDE_CTRL0) 0x07
          else mret ret) ;;
  ret <- (if ret =? OV5640_OK
          then tmp <- index hue_degree_ctrl1 (Degree + 6) ;;
               ov5640_write_reg (reg OV5640_SDE_CTRL1) tmp
          else mret ret) ;;
  ret <- (if ret =? OV5640_OK
          then tmp <- index hue_degree_ctrl2 (Degree + 6) ;;
               ov5640_write_reg (reg OV5640_SDE_CTRL2) tmp
          else mret ret) ;;
  ret <- (if ret =? OV5640_OK
          then code <- index hue_degree_ctrl8 (Degree + 6) ;;
               set_huedegree code ;;;
               write_composite
          else mret ret) ;;
  if negb (ret =? OV5640_OK) then mret OV5640_ERROR else mret ret.

(** *** Mirror and flip *)

(** The two writes that end every case of the [switch]. *)
Definition MirrorFlip_write (tmp3820 tmp3821 : Z) : M Z :=
  st <- ov5640_write_reg (reg OV5640_TIMING_TC_REG20) tmp3820 ;;
  if negb (st =? OV5640_OK) then mret OV5640_ERROR
  else
    st <- ov5640_write_reg (reg OV5640_TIMING_TC_REG21) tmp3821 ;;
    if negb (st =? OV5640_OK) then mret OV5640_ERROR else mret OV5640_OK.

Definition OV5640_MirrorFlipConfig (Config : Z) : M Z :=
  rd <- ov5640_read_reg (reg OV5640_TIMING_TC_REG20) 0 ;;
  if negb (fst rd =? OV5640_OK) then mret OV5640_ERROR
  else
    let tmp3820 := Z.land (snd rd) 0xF9 in
    rd <- ov5640_read_reg (reg OV5640_TIMING_TC_REG21) 0 ;;
    if negb (fst rd =? OV5640_OK) then mret OV5640_ERROR
    else
      let tmp3821 := Z.land (snd rd) 0xF9 in
      if Config =? OV5640_MIRROR
      then MirrorFlip_write tmp3820 (Z.lor tmp3821 0x06)
      else if Config =? OV5640_FLIP
      then MirrorFlip_write (Z.lor tmp3820 0x06) tmp3821
      else if Config =? OV5640_MIRROR_FLIP
      then MirrorFlip_write (Z.lor tmp3820 0x06) (Z.lor tmp3821 0x06)
      else MirrorFlip_write tmp3820 tmp3821.

(** *** Output window and JPEG mode *)

Definition OutSize_Set_datas (offx offy width height : Z) : list (Z * Z) :=
  [(0x3212, 0x03);
   (0x3808, u16 (Z.shiftr (u16 width) 8));
   (0x3809, u16 (Z.land (u16 width) 0xff));
   (0x380a, u16 (Z.shiftr (u16 height) 8));
   (0x380b, u16 (Z.land (u16 height) 0xff));
   (0x3810, u16 (Z.shiftr (u16 offx) 8));
   (0x3811, u16 (Z.land (u16 offx) 0xff));
   (0x3812, u16 (Z.shiftr (u16 offy) 8));
   (0x3813, u16 (Z.land (u16 offy) 0xff));
   (0x3212, 0x13);
   (0x3212, 0xa3)].

Definition OV5640_OutSize_Set (offx offy width height : Z) : M Z :=
  write_table_all (OutSize_Set_datas offx offy width height) OV5640_OK.

Definition OV5640_jpeg_reg_tbl : list (Z * Z) :=
  [
   (0x4300, 0x30); (0x501F, 0x00); (0x3035, 0x21); (0x3036, 0x69); (0x3C07, 0x07);
   (0x3820, 0x46); (0x3821, 0x20); (0x3814, 0x11); (0x3815, 0x11); (0x3800, 0x00);
   (0x3801, 0x00); (0x3802, 0x00); (0x3803, 0x00); (0x3804, 0x0A); (0x3805, 0x3F);
   (0x3806, 0x07); (0x3807, 0x9F); (0x3808, 0x02); (0x3809, 0x80); (0x380A, 0x01);
   (0x380B, 0xE0); (0x380C, 0x0B); (0x380D, 0x1C); (0x380E, 0x07); (0x380F, 0xB0);
   (0x3813, 0x04); (0x3618, 0x04); (0x3612, 0x2B); (0x3709, 0x12); (0x370C, 0x00);
   (0x4004, 0x06); (0x3002, 0x00); (0x3006, 0xFF); (0x4713, 0x03); (0x4407, 0x01);
   (0x460B, 0x35); (0x460C, 0x22); (0x4837, 0x16); (0x3824, 0x02); (0x5001, 0xA3);
   (0x3503, 0x00)
  ].

Definition OV5640_JPEG_Mode : M Z :=
  write_table_all OV5640_jpeg_reg_tbl OV5640_OK.

(** *** Autofocus *)

Definition OV5640_AF_Config : list Z :=
  [
   0x02; 0x0F; 0xD6; 0x02; 0x0A; 0x39; 0xC2; 0x01; 0x22; 0x22; 0x00; 0x02; 0x0F; 0xB2; 0xE5; 0x1F;
   0x70; 0x72; 0xF5; 0x1E; 0xD2; 0x35; 0xFF; 0xEF; 0x25; 0xE0; 0x24; 0x4E; 0xF8; 0xE4; 0xF6; 0x08;
   0xF6; 0x0F; 0xBF; 0x34; 0xF2; 0x90; 0x0E; 0x93; 0xE4; 0x93; 0xFF; 0xE5; 0x4B; 0xC3; 0x9F; 0x50;
   0x04; 0x7F; 0x05; 0x80; 0x02; 0x7F; 0xFB; 0x78; 0xBD; 0xA6; 0x07; 0x12; 0x0F; 0x04; 0x40; 0x04;
   0x7F; 0x03; 0x80; 0x02; 0x7F; 0x30; 0x78; 0xBC; 0xA6; 0x07; 0xE6; 0x18; 0xF6; 0x08; 0xE6; 0x78;
   0xB9; 0xF6; 0x78; 0xBC; 0xE6; 0x78; 0xBA; 0xF6; 0x78; 0xBF; 0x76; 0x33; 0xE4; 0x08; 0xF6; 0x78;
   0xB8; 0x76; 0x01; 0x75; 0x4A; 0x02; 0x78; 0xB6; 0xF6; 0x08; 0xF6; 0x74; 0xFF; 0x78; 0xC1; 0xF6;
   0x08; 0xF6; 0x75; 0x1F; 0x01; 0x78; 0xBC; 0xE6; 0x75; 0xF0; 0x05; 0xA4; 0xF5; 0x4B; 0x12; 0x0A;
   0xFF; 0xC2; 0x37; 0x22; 0x78; 0xB8; 0xE6; 0xD3; 0x94; 0x00; 0x40; 0x02; 0x16; 0x22; 0xE5; 0x1F;
   0xB4; 0x05; 0x23; 0xE4; 0xF5; 0x1F; 0xC2; 0x01; 0x78; 0xB6; 0xE6; 0xFE; 0x08; 0xE6; 0xFF; 0x78;
   0x4E; 0xA6; 0x06; 0x08; 0xA6; 0x07; 0xA2; 0x37; 0xE4; 0x33; 0xF5; 0x3C; 0x90; 0x30; 0x28; 0xF0;
   0x75; 0x1E; 0x10; 0xD2; 0x35; 0x22; 0xE5; 0x4B; 0x75; 0xF0; 0x05; 0x84; 0x78; 0xBC; 0xF6; 0x90;
   0x0E; 0x8C; 0xE4; 0x93; 0xFF; 0x25; 0xE0; 0x24; 0x0A; 0xF8; 0xE6; 0xFC; 0x08; 0xE6; 0xFD; 0x78;
   0xBC; 0xE6; 0x25; 0xE0; 0x24; 0x4E; 0xF8; 0xA6; 0x04; 0x08; 0xA6; 0x05; 0xEF; 0x12; 0x0F; 0x0B;
   0xD3; 0x78; 0xB7; 0x96; 0xEE; 0x18; 0x96; 0x40; 0x0D; 0x78; 0xBC; 0xE6; 0x78; 0xB9; 0xF6; 0x78;
   0xB6; 0xA6; 0x06; 0x08; 0xA6; 0x07; 0x90; 0x0E; 0x8C; 0xE4; 0x93; 0x12; 0x0F; 0x0B; 0xC3; 0x78;
   0xC2; 0x96; 0xEE; 0x18; 0x96; 0x50; 0x0D; 0x78; 0xBC; 0xE6; 0x78; 0xBA; 0xF6; 0x78; 0xC1; 0xA6;
   0x06; 0x08; 0xA6; 0x07; 0x78; 0xB6; 0xE6; 0xFE; 0x08; 0xE6; 0xC3; 0x78; 0xC2; 0x96; 0xFF; 0xEE;
   0x18; 0x96; 0x78; 0xC3; 0xF6; 0x08; 0xA6; 0x07; 0x90; 0x0E; 0x95; 0xE4; 0x18; 0x12; 0x0E; 0xE9;
   0x40; 0x02; 0xD2; 0x37; 0x78; 0xBC; 0xE6; 0x08; 0x26; 0x08; 0xF6; 0xE5; 0x1F; 0x64; 0x01; 0x70;
   0x4A; 0xE6; 0xC3; 0x78; 0xC0; 0x12; 0x0E; 0xDF; 0x40; 0x05; 0x12; 0x0E; 0xDA; 0x40; 0x39; 0x12;
   0x0F; 0x02; 0x40; 0x04; 0x7F; 0xFE; 0x80; 0x02; 0x7F; 0x02; 0x78; 0xBD; 0xA6; 0x07; 0x78; 0xB9;
   0xE6; 0x24; 0x03; 0x78; 0xBF; 0xF6; 0x78; 0xB9; 0xE6; 0x24; 0xFD; 0x78; 0xC0; 0xF6; 0x12; 0x0F;
   0x02; 0x40; 0x06; 0x78; 0xC0; 0xE6; 0xFF; 0x80; 0x04; 0x78; 0xBF; 0xE6; 0xFF; 0x78; 0xBE; 0xA6;
   0x07; 0x75; 0x1F; 0x02; 0x78; 0xB8; 0x76; 0x01; 0x02; 0x02; 0x4A; 0xE5; 0x1F; 0x64; 0x02; 0x60;
   0x03; 0x02; 0x02; 0x2A; 0x78; 0xBE; 0xE6; 0xFF; 0xC3; 0x78; 0xC0; 0x12; 0x0E; 0xE0; 0x40; 0x08;
   0x12; 0x0E; 0xDA; 0x50; 0x03; 0x02; 0x02; 0x28; 0x12; 0x0F; 0x02; 0x40; 0x04; 0x7F; 0xFF; 0x80;
   0x02; 0x7F; 0x01; 0x78; 0xBD; 0xA6; 0x07; 0x78; 0xB9; 0xE6; 0x04; 0x78; 0xBF; 0xF6; 0x78; 0xB9;
   0xE6; 0x14; 0x78; 0xC0; 0xF6; 0x18; 0x12; 0x0F; 0x04; 0x40; 0x04; 0xE6; 0xFF; 0x80; 0x02; 0x7F;
   0x00; 0x78; 0xBF; 0xA6; 0x07; 0xD3; 0x08; 0xE6; 0x64; 0x80; 0x94; 0x80; 0x40; 0x04; 0xE6; 0xFF;
   0x80; 0x02; 0x7F; 0x00; 0x78; 0xC0; 0xA6; 0x07; 0xC3; 0x18; 0xE6; 0x64; 0x80; 0x94; 0xB3; 0x50;
   0x04; 0xE6; 0xFF; 0x80; 0x02; 0x7F; 0x33; 0x78; 0xBF; 0xA6; 0x07; 0xC3; 0x08; 0xE6; 0x64; 0x80;
   0x94; 0xB3; 0x50; 0x04; 0xE6; 0xFF; 0x80; 0x02; 0x7F; 0x33; 0x78; 0xC0; 0xA6; 0x07; 0x12; 0x0F;
   0x02; 0x40; 0x06; 0x78; 0xC0; 0xE6; 0xFF; 0x80; 0x04; 0x78; 0xBF; 0xE6; 0xFF; 0x78; 0xBE; 0xA6;
   0x07; 0x75; 0x1F; 0x03; 0x78; 0xB8; 0x76; 0x01; 0x80; 0x20; 0xE5; 0x1F; 0x64; 0x03; 0x70; 0x26;
   0x78; 0xBE; 0xE6; 0xFF; 0xC3; 0x78; 0xC0; 0x12; 0x0E; 0xE0; 0x40; 0x05; 0x12; 0x0E; 0xDA; 0x40;
   0x09; 0x78; 0xB9; 0xE6; 0x78; 0xBE; 0xF6; 0x75; 0x1F; 0x04; 0x78; 0xBE; 0xE6; 0x75; 0xF0; 0x05;
   0xA4; 0xF5; 0x4B; 0x02; 0x0A; 0xFF; 0xE5; 0x1F; 0xB4; 0x04; 0x10; 0x90; 0x0E; 0x94; 0xE4; 0x78;
   0xC3; 0x12; 0x0E; 0xE9; 0x40; 0x02; 0xD2; 0x37; 0x75; 0x1F; 0x05; 0x22; 0x30; 0x01; 0x03; 0x02;
   0x04; 0xC0; 0x30; 0x02; 0x03; 0x02; 0x04; 0xC0; 0x90; 0x51; 0xA5; 0xE0; 0x78; 0x93; 0xF6; 0xA3;
   0xE0; 0x08; 0xF6; 0xA3; 0xE0; 0x08; 0xF6; 0xE5; 0x1F; 0x70; 0x3C; 0x75; 0x1E; 0x20; 0xD2; 0x35;
   0x12; 0x0C; 0x7A; 0x78; 0x7E; 0xA6; 0x06; 0x08; 0xA6; 0x07; 0x78; 0x8B; 0xA6; 0x09; 0x18; 0x76;
   0x01; 0x12; 0x0C; 0x5B; 0x78; 0x4E; 0xA6; 0x06; 0x08; 0xA6; 0x07; 0x78; 0x8B; 0xE6; 0x78; 0x6E;
   0xF6; 0x75; 0x1F; 0x01; 0x78; 0x93; 0xE6; 0x78; 0x90; 0xF6; 0x78; 0x94; 0xE6; 0x78; 0x91; 0xF6;
   0x78; 0x95; 0xE6; 0x78; 0x92; 0xF6; 0x22; 0x79; 0x90; 0xE7; 0xD3; 0x78; 0x93; 0x96; 0x40; 0x05;
   0xE7; 0x96; 0xFF; 0x80; 0x08; 0xC3; 0x79; 0x93; 0xE7; 0x78; 0x90; 0x96; 0xFF; 0x78; 0x88; 0x76;
   0x00; 0x08; 0xA6; 0x07; 0x79; 0x91; 0xE7; 0xD3; 0x78; 0x94; 0x96; 0x40; 0x05; 0xE7; 0x96; 0xFF;
   0x80; 0x08; 0xC3; 0x79; 0x94; 0xE7; 0x78; 0x91; 0x96; 0xFF; 0x12; 0x0C; 0x8E; 0x79; 0x92; 0xE7;
   0xD3; 0x78; 0x95; 0x96; 0x40; 0x05; 0xE7; 0x96; 0xFF; 0x80; 0x08; 0xC3; 0x79; 0x95; 0xE7; 0x78;
   0x92; 0x96; 0xFF; 0x12; 0x0C; 0x8E; 0x12; 0x0C; 0x5B; 0x78; 0x8A; 0xE6; 0x25; 0xE0; 0x24; 0x4E;
   0xF8; 0xA6; 0x06; 0x08; 0xA6; 0x07; 0x78; 0x8A; 0xE6; 0x24; 0x6E; 0xF8; 0xA6; 0x09; 0x78; 0x8A;
   0xE6; 0x24; 0x01; 0xFF; 0xE4; 0x33; 0xFE; 0xD3; 0xEF; 0x94; 0x0F; 0xEE; 0x64; 0x80; 0x94; 0x80;
   0x40; 0x04; 0x7F; 0x00; 0x80; 0x05; 0x78; 0x8A; 0xE6; 0x04; 0xFF; 0x78; 0x8A; 0xA6; 0x07; 0xE5;
   0x1F; 0xB4; 0x01; 0x0A; 0xE6; 0x60; 0x03; 0x02; 0x04; 0xC0; 0x75; 0x1F; 0x02; 0x22; 0x12; 0x0C;
   0x7A; 0x78; 0x80; 0xA6; 0x06; 0x08; 0xA6; 0x07; 0x12; 0x0C; 0x7A; 0x78; 0x82; 0xA6; 0x06; 0x08;
   0xA6; 0x07; 0x78; 0x6E; 0xE6; 0x78; 0x8C; 0xF6; 0x78; 0x6E; 0xE6; 0x78; 0x8D; 0xF6; 0x7F; 0x01;
   0xEF; 0x25; 0xE0; 0x24; 0x4F; 0xF9; 0xC3; 0x78; 0x81; 0xE6; 0x97; 0x18; 0xE6; 0x19; 0x97; 0x50;
   0x0A; 0x12; 0x0C; 0x82; 0x78; 0x80; 0xA6; 0x04; 0x08; 0xA6; 0x05; 0x74; 0x6E; 0x2F; 0xF9; 0x78;
   0x8C; 0xE6; 0xC3; 0x97; 0x50; 0x08; 0x74; 0x6E; 0x2F; 0xF8; 0xE6; 0x78; 0x8C; 0xF6; 0xEF; 0x25;
   0xE0; 0x24; 0x4F; 0xF9; 0xD3; 0x78; 0x83; 0xE6; 0x97; 0x18; 0xE6; 0x19; 0x97; 0x40; 0x0A; 0x12;
   0x0C; 0x82; 0x78; 0x82; 0xA6; 0x04; 0x08; 0xA6; 0x05; 0x74; 0x6E; 0x2F; 0xF9; 0x78; 0x8D; 0xE6;
   0xD3; 0x97; 0x40; 0x08; 0x74; 0x6E; 0x2F; 0xF8; 0xE6; 0x78; 0x8D; 0xF6; 0x0F; 0xEF; 0x64; 0x10;
   0x70; 0x9E; 0xC3; 0x79; 0x81; 0xE7; 0x78; 0x83; 0x96; 0xFF; 0x19; 0xE7; 0x18; 0x96; 0x78; 0x84;
   0xF6; 0x08; 0xA6; 0x07; 0xC3; 0x79; 0x8C; 0xE7; 0x78; 0x8D; 0x96; 0x08; 0xF6; 0xD3; 0x79; 0x81;
   0xE7; 0x78; 0x7F; 0x96; 0x19; 0xE7; 0x18; 0x96; 0x40; 0x05; 0x09; 0xE7; 0x08; 0x80; 0x06; 0xC3;
   0x79; 0x7F; 0xE7; 0x78; 0x81; 0x96; 0xFF; 0x19; 0xE7; 0x18; 0x96; 0xFE; 0x78; 0x86; 0xA6; 0x06;
   0x08; 0xA6; 0x07; 0x79; 0x8C; 0xE7; 0xD3; 0x78; 0x8B; 0x96; 0x40; 0x05; 0xE7; 0x96; 0xFF; 0x80;
   0x08; 0xC3; 0x79; 0x8B; 0xE7; 0x78; 0x8C; 0x96; 0xFF; 0x78; 0x8F; 0xA6; 0x07; 0xE5; 0x1F; 0x64;
   0x02; 0x70; 0x69; 0x90; 0x0E; 0x91; 0x93; 0xFF; 0x18; 0xE6; 0xC3; 0x9F; 0x50; 0x72; 0x12; 0x0C;
   0x4A; 0x12; 0x0C; 0x2F; 0x90; 0x0E; 0x8E; 0x12; 0x0C; 0x38; 0x78; 0x80; 0x12; 0x0C; 0x6B; 0x7B;
   0x04; 0x12; 0x0C; 0x1D; 0xC3; 0x12; 0x06; 0x45; 0x50; 0x56; 0x90; 0x0E; 0x92; 0xE4; 0x93; 0xFF;
   0x78; 0x8F; 0xE6; 0x9F; 0x40; 0x02; 0x80; 0x11; 0x90; 0x0E; 0x90; 0xE4; 0x93; 0xFF; 0xD3; 0x78;
   0x89; 0xE6; 0x9F; 0x18; 0xE6; 0x94; 0x00; 0x40; 0x03; 0x75; 0x1F; 0x05; 0x12; 0x0C; 0x4A; 0x12;
   0x0C; 0x2F; 0x90; 0x0E; 0x8F; 0x12; 0x0C; 0x38; 0x78; 0x7E; 0x12; 0x0C; 0x6B; 0x7B; 0x40; 0x12;
   0x0C; 0x1D; 0xD3; 0x12; 0x06; 0x45; 0x40; 0x18; 0x75; 0x1F; 0x05; 0x22; 0xE5; 0x1F; 0xB4; 0x05;
   0x0F; 0xD2; 0x01; 0xC2; 0x02; 0xE4; 0xF5; 0x1F; 0xF5; 0x1E; 0xD2; 0x35; 0xD2; 0x33; 0xD2; 0x36;
   0x22; 0xEF; 0x8D; 0xF0; 0xA4; 0xA8; 0xF0; 0xCF; 0x8C; 0xF0; 0xA4; 0x28; 0xCE; 0x8D; 0xF0; 0xA4;
   0x2E; 0xFE; 0x22; 0xBC; 0x00; 0x0B; 0xBE; 0x00; 0x29; 0xEF; 0x8D; 0xF0; 0x84; 0xFF; 0xAD; 0xF0;
   0x22; 0xE4; 0xCC; 0xF8; 0x75; 0xF0; 0x08; 0xEF; 0x2F; 0xFF; 0xEE; 0x33; 0xFE; 0xEC; 0x33; 0xFC;
   0xEE; 0x9D; 0xEC; 0x98; 0x40; 0x05; 0xFC; 0xEE; 0x9D; 0xFE; 0x0F; 0xD5; 0xF0; 0xE9; 0xE4; 0xCE;
   0xFD; 0x22; 0xED; 0xF8; 0xF5; 0xF0; 0xEE; 0x84; 0x20; 0xD2; 0x1C; 0xFE; 0xAD; 0xF0; 0x75; 0xF0;
   0x08; 0xEF; 0x2F; 0xFF; 0xED; 0x33; 0xFD; 0x40; 0x07; 0x98; 0x50; 0x06; 0xD5; 0xF0; 0xF2; 0x22;
   0xC3; 0x98; 0xFD; 0x0F; 0xD5; 0xF0; 0xEA; 0x22; 0xE8; 0x8F; 0xF0; 0xA4; 0xCC; 0x8B; 0xF0; 0xA4;
   0x2C; 0xFC; 0xE9; 0x8E; 0xF0; 0xA4; 0x2C; 0xFC; 0x8A; 0xF0; 0xED; 0xA4; 0x2C; 0xFC; 0xEA; 0x8E;
   0xF0; 0xA4; 0xCD; 0xA8; 0xF0; 0x8B; 0xF0; 0xA4; 0x2D; 0xCC; 0x38; 0x25; 0xF0; 0xFD; 0xE9; 0x8F;
   0xF0; 0xA4; 0x2C; 0xCD; 0x35; 0xF0; 0xFC; 0xEB; 0x8E; 0xF0; 0xA4; 0xFE; 0xA9; 0xF0; 0xEB; 0x8F;
   0xF0; 0xA4; 0xCF; 0xC5; 0xF0; 0x2E; 0xCD; 0x39; 0xFE; 0xE4; 0x3C; 0xFC; 0xEA; 0xA4; 0x2D; 0xCE;
   0x35; 0xF0; 0xFD; 0xE4; 0x3C; 0xFC; 0x22; 0x75; 0xF0; 0x08; 0x75; 0x82; 0x00; 0xEF; 0x2F; 0xFF;
   0xEE; 0x33; 0xFE; 0xCD; 0x33; 0xCD; 0xCC; 0x33; 0xCC; 0xC5; 0x82; 0x33; 0xC5; 0x82; 0x9B; 0xED;
   0x9A; 0xEC; 0x99; 0xE5; 0x82; 0x98; 0x40; 0x0C; 0xF5; 0x82; 0xEE; 0x9B; 0xFE; 0xED; 0x9A; 0xFD;
   0xEC; 0x99; 0xFC; 0x0F; 0xD5; 0xF0; 0xD6; 0xE4; 0xCE; 0xFB; 0xE4; 0xCD; 0xFA; 0xE4; 0xCC; 0xF9;
   0xA8; 0x82; 0x22; 0xB8; 0x00; 0xC1; 0xB9; 0x00; 0x59; 0xBA; 0x00; 0x2D; 0xEC; 0x8B; 0xF0; 0x84;
   0xCF; 0xCE; 0xCD; 0xFC; 0xE5; 0xF0; 0xCB; 0xF9; 0x78; 0x18; 0xEF; 0x2F; 0xFF; 0xEE; 0x33; 0xFE;
   0xED; 0x33; 0xFD; 0xEC; 0x33; 0xFC; 0xEB; 0x33; 0xFB; 0x10; 0xD7; 0x03; 0x99; 0x40; 0x04; 0xEB;
   0x99; 0xFB; 0x0F; 0xD8; 0xE5; 0xE4; 0xF9; 0xFA; 0x22; 0x78; 0x18; 0xEF; 0x2F; 0xFF; 0xEE; 0x33;
   0xFE; 0xED; 0x33; 0xFD; 0xEC; 0x33; 0xFC; 0xC9; 0x33; 0xC9; 0x10; 0xD7; 0x05; 0x9B; 0xE9; 0x9A;
   0x40; 0x07; 0xEC; 0x9B; 0xFC; 0xE9; 0x9A; 0xF9; 0x0F; 0xD8; 0xE0; 0xE4; 0xC9; 0xFA; 0xE4; 0xCC;
   0xFB; 0x22; 0x75; 0xF0; 0x10; 0xEF; 0x2F; 0xFF; 0xEE; 0x33; 0xFE; 0xED; 0x33; 0xFD; 0xCC; 0x33;
   0xCC; 0xC8; 0x33; 0xC8; 0x10; 0xD7; 0x07; 0x9B; 0xEC; 0x9A; 0xE8; 0x99; 0x40; 0x0A; 0xED; 0x9B;
   0xFD; 0xEC; 0x9A; 0xFC; 0xE8; 0x99; 0xF8; 0x0F; 0xD5; 0xF0; 0xDA; 0xE4; 0xCD; 0xFB; 0xE4; 0xCC;
   0xFA; 0xE4; 0xC8; 0xF9; 0x22; 0xEB; 0x9F; 0xF5; 0xF0; 0xEA; 0x9E; 0x42; 0xF0; 0xE9; 0x9D; 0x42;
   0xF0; 0xE8; 0x9C; 0x45; 0xF0; 0x22; 0xE8; 0x60; 0x0F; 0xEC; 0xC3; 0x13; 0xFC; 0xED; 0x13; 0xFD;
   0xEE; 0x13; 0xFE; 0xEF; 0x13; 0xFF; 0xD8; 0xF1; 0x22; 0xE8; 0x60; 0x0F; 0xEF; 0xC3; 0x33; 0xFF;
   0xEE; 0x33; 0xFE; 0xED; 0x33; 0xFD; 0xEC; 0x33; 0xFC; 0xD8; 0xF1; 0x22; 0xE4; 0x93; 0xFC; 0x74;
   0x01; 0x93; 0xFD; 0x74; 0x02; 0x93; 0xFE; 0x74; 0x03; 0x93; 0xFF; 0x22; 0xE6; 0xFB; 0x08; 0xE6;
   0xF9; 0x08; 0xE6; 0xFA; 0x08; 0xE6; 0xCB; 0xF8; 0x22; 0xEC; 0xF6; 0x08; 0xED; 0xF6; 0x08; 0xEE;
   0xF6; 0x08; 0xEF; 0xF6; 0x22; 0xA4; 0x25; 0x82; 0xF5; 0x82; 0xE5; 0xF0; 0x35; 0x83; 0xF5; 0x83;
   0x22; 0xD0; 0x83; 0xD0; 0x82; 0xF8; 0xE4; 0x93; 0x70; 0x12; 0x74; 0x01; 0x93; 0x70; 0x0D; 0xA3;
   0xA3; 0x93; 0xF8; 0x74; 0x01; 0x93; 0xF5; 0x82; 0x88; 0x83; 0xE4; 0x73; 0x74; 0x02; 0x93; 0x68;
   0x60; 0xEF; 0xA3; 0xA3; 0xA3; 0x80; 0xDF; 0x90; 0x38; 0x04; 0x78; 0x52; 0x12; 0x0B; 0xFD; 0x90;
   0x38; 0x00; 0xE0; 0xFE; 0xA3; 0xE0; 0xFD; 0xED; 0xFF; 0xC3; 0x12; 0x0B; 0x9E; 0x90; 0x38; 0x10;
   0x12; 0x0B; 0x92; 0x90; 0x38; 0x06; 0x78; 0x54; 0x12; 0x0B; 0xFD; 0x90; 0x38; 0x02; 0xE0; 0xFE;
   0xA3; 0xE0; 0xFD; 0xED; 0xFF; 0xC3; 0x12; 0x0B; 0x9E; 0x90; 0x38; 0x12; 0x12; 0x0B; 0x92; 0xA3;
   0xE0; 0xB4; 0x31; 0x07; 0x78; 0x52; 0x79; 0x52; 0x12; 0x0C; 0x13; 0x90; 0x38; 0x14; 0xE0; 0xB4;
   0x71; 0x15; 0x78; 0x52; 0xE6; 0xFE; 0x08; 0xE6; 0x78; 0x02; 0xCE; 0xC3; 0x13; 0xCE; 0x13; 0xD8;
   0xF9; 0x79; 0x53; 0xF7; 0xEE; 0x19; 0xF7; 0x90; 0x38; 0x15; 0xE0; 0xB4; 0x31; 0x07; 0x78; 0x54;
   0x79; 0x54; 0x12; 0x0C; 0x13; 0x90; 0x38; 0x15; 0xE0; 0xB4; 0x71; 0x15; 0x78; 0x54; 0xE6; 0xFE;
   0x08; 0xE6; 0x78; 0x02; 0xCE; 0xC3; 0x13; 0xCE; 0x13; 0xD8; 0xF9; 0x79; 0x55; 0xF7; 0xEE; 0x19;
   0xF7; 0x79; 0x52; 0x12; 0x0B; 0xD9; 0x09; 0x12; 0x0B; 0xD9; 0xAF; 0x47; 0x12; 0x0B; 0xB2; 0xE5;
   0x44; 0xFB; 0x7A; 0x00; 0xFD; 0x7C; 0x00; 0x12; 0x04; 0xD3; 0x78; 0x5A; 0xA6; 0x06; 0x08; 0xA6;
   0x07; 0xAF; 0x45; 0x12; 0x0B; 0xB2; 0xAD; 0x03; 0x7C; 0x00; 0x12; 0x04; 0xD3; 0x78; 0x56; 0xA6;
   0x06; 0x08; 0xA6; 0x07; 0xAF; 0x48; 0x78; 0x54; 0x12; 0x0B; 0xB4; 0xE5; 0x43; 0xFB; 0xFD; 0x7C;
   0x00; 0x12; 0x04; 0xD3; 0x78; 0x5C; 0xA6; 0x06; 0x08; 0xA6; 0x07; 0xAF; 0x46; 0x7E; 0x00; 0x78;
   0x54; 0x12; 0x0B; 0xB6; 0xAD; 0x03; 0x7C; 0x00; 0x12; 0x04; 0xD3; 0x78; 0x58; 0xA6; 0x06; 0x08;
   0xA6; 0x07; 0xC3; 0x78; 0x5B; 0xE6; 0x94; 0x08; 0x18; 0xE6; 0x94; 0x00; 0x50; 0x05; 0x76; 0x00;
   0x08; 0x76; 0x08; 0xC3; 0x78; 0x5D; 0xE6; 0x94; 0x08; 0x18; 0xE6; 0x94; 0x00; 0x50; 0x05; 0x76;
   0x00; 0x08; 0x76; 0x08; 0x78; 0x5A; 0x12; 0x0B; 0xC6; 0xFF; 0xD3; 0x78; 0x57; 0xE6; 0x9F; 0x18;
   0xE6; 0x9E; 0x40; 0x0E; 0x78; 0x5A; 0xE6; 0x13; 0xFE; 0x08; 0xE6; 0x78; 0x57; 0x12; 0x0C; 0x08;
   0x80; 0x04; 0x7E; 0x00; 0x7F; 0x00; 0x78; 0x5E; 0x12; 0x0B; 0xBE; 0xFF; 0xD3; 0x78; 0x59; 0xE6;
   0x9F; 0x18; 0xE6; 0x9E; 0x40; 0x0E; 0x78; 0x5C; 0xE6; 0x13; 0xFE; 0x08; 0xE6; 0x78; 0x59; 0x12;
   0x0C; 0x08; 0x80; 0x04; 0x7E; 0x00; 0x7F; 0x00; 0xE4; 0xFC; 0xFD; 0x78; 0x62; 0x12; 0x06; 0x99;
   0x78; 0x5A; 0x12; 0x0B; 0xC6; 0x78; 0x57; 0x26; 0xFF; 0xEE; 0x18; 0x36; 0xFE; 0x78; 0x66; 0x12;
   0x0B; 0xBE; 0x78; 0x59; 0x26; 0xFF; 0xEE; 0x18; 0x36; 0xFE; 0xE4; 0xFC; 0xFD; 0x78; 0x6A; 0x12;
   0x06; 0x99; 0x12; 0x0B; 0xCE; 0x78; 0x66; 0x12; 0x06; 0x8C; 0xD3; 0x12; 0x06; 0x45; 0x40; 0x08;
   0x12; 0x0B; 0xCE; 0x78; 0x66; 0x12; 0x06; 0x99; 0x78; 0x54; 0x12; 0x0B; 0xD0; 0x78; 0x6A; 0x12;
   0x06; 0x8C; 0xD3; 0x12; 0x06; 0x45; 0x40; 0x0A; 0x78; 0x54; 0x12; 0x0B; 0xD0; 0x78; 0x6A; 0x12;
   0x06; 0x99; 0x78; 0x61; 0xE6; 0x90; 0x60; 0x01; 0xF0; 0x78; 0x65; 0xE6; 0xA3; 0xF0; 0x78; 0x69;
   0xE6; 0xA3; 0xF0; 0x78; 0x55; 0xE6; 0xA3; 0xF0; 0x7D; 0x01; 0x78; 0x61; 0x12; 0x0B; 0xE9; 0x24;
   0x01; 0x12; 0x0B; 0xA6; 0x78; 0x65; 0x12; 0x0B; 0xE9; 0x24; 0x02; 0x12; 0x0B; 0xA6; 0x78; 0x69;
   0x12; 0x0B; 0xE9; 0x24; 0x03; 0x12; 0x0B; 0xA6; 0x78; 0x6D; 0x12; 0x0B; 0xE9; 0x24; 0x04; 0x12;
   0x0B; 0xA6; 0x0D; 0xBD; 0x05; 0xD4; 0xC2; 0x0E; 0xC2; 0x06; 0x22; 0x85; 0x08; 0x41; 0x90; 0x30;
   0x24; 0xE0; 0xF5; 0x3D; 0xA3; 0xE0; 0xF5; 0x3E; 0xA3; 0xE0; 0xF5; 0x3F; 0xA3; 0xE0; 0xF5; 0x40;
   0xA3; 0xE0; 0xF5; 0x3C; 0xD2; 0x34; 0xE5; 0x41; 0x12; 0x06; 0xB1; 0x09; 0x31; 0x03; 0x09; 0x35;
   0x04; 0x09; 0x3B; 0x05; 0x09; 0x3E; 0x06; 0x09; 0x41; 0x07; 0x09; 0x4A; 0x08; 0x09; 0x5B; 0x12;
   0x09; 0x73; 0x18; 0x09; 0x89; 0x19; 0x09; 0x5E; 0x1A; 0x09; 0x6A; 0x1B; 0x09; 0xAD; 0x80; 0x09;
   0xB2; 0x81; 0x0A; 0x1D; 0x8F; 0x0A; 0x09; 0x90; 0x0A; 0x1D; 0x91; 0x0A; 0x1D; 0x92; 0x0A; 0x1D;
   0x93; 0x0A; 0x1D; 0x94; 0x0A; 0x1D; 0x98; 0x0A; 0x17; 0x9F; 0x0A; 0x1A; 0xEC; 0x00; 0x00; 0x0A;
   0x38; 0x12; 0x0F; 0x74; 0x22; 0x12; 0x0F; 0x74; 0xD2; 0x03; 0x22; 0xD2; 0x03; 0x22; 0xC2; 0x03;
   0x22; 0xA2; 0x37; 0xE4; 0x33; 0xF5; 0x3C; 0x02; 0x0A; 0x1D; 0xC2; 0x01; 0xC2; 0x02; 0xC2; 0x03;
   0x12; 0x0D; 0x0D; 0x75; 0x1E; 0x70; 0xD2; 0x35; 0x02; 0x0A; 0x1D; 0x02; 0x0A; 0x04; 0x85; 0x40;
   0x4A; 0x85; 0x3C; 0x4B; 0x12; 0x0A; 0xFF; 0x02; 0x0A; 0x1D; 0x85; 0x4A; 0x40; 0x85; 0x4B; 0x3C;
   0x02; 0x0A; 0x1D; 0xE4; 0xF5; 0x22; 0xF5; 0x23; 0x85; 0x40; 0x31; 0x85; 0x3F; 0x30; 0x85; 0x3E;
   0x2F; 0x85; 0x3D; 0x2E; 0x12; 0x0F; 0x46; 0x80; 0x1F; 0x75; 0x22; 0x00; 0x75; 0x23; 0x01; 0x74;
   0xFF; 0xF5; 0x2D; 0xF5; 0x2C; 0xF5; 0x2B; 0xF5; 0x2A; 0x12; 0x0F; 0x46; 0x85; 0x2D; 0x40; 0x85;
   0x2C; 0x3F; 0x85; 0x2B; 0x3E; 0x85; 0x2A; 0x3D; 0xE4; 0xF5; 0x3C; 0x80; 0x70; 0x12; 0x0F; 0x16;
   0x80; 0x6B; 0x85; 0x3D; 0x45; 0x85; 0x3E; 0x46; 0xE5; 0x47; 0xC3; 0x13; 0xFF; 0xE5; 0x45; 0xC3;
   0x9F; 0x50; 0x02; 0x8F; 0x45; 0xE5; 0x48; 0xC3; 0x13; 0xFF; 0xE5; 0x46; 0xC3; 0x9F; 0x50; 0x02;
   0x8F; 0x46; 0xE5; 0x47; 0xC3; 0x13; 0xFF; 0xFD; 0xE5; 0x45; 0x2D; 0xFD; 0xE4; 0x33; 0xFC; 0xE5;
   0x44; 0x12; 0x0F; 0x90; 0x40; 0x05; 0xE5; 0x44; 0x9F; 0xF5; 0x45; 0xE5; 0x48; 0xC3; 0x13; 0xFF;
   0xFD; 0xE5; 0x46; 0x2D; 0xFD; 0xE4; 0x33; 0xFC; 0xE5; 0x43; 0x12; 0x0F; 0x90; 0x40; 0x05; 0xE5;
   0x43; 0x9F; 0xF5; 0x46; 0x12; 0x06; 0xD7; 0x80; 0x14; 0x85; 0x40; 0x48; 0x85; 0x3F; 0x47; 0x85;
   0x3E; 0x46; 0x85; 0x3D; 0x45; 0x80; 0x06; 0x02; 0x06; 0xD7; 0x12; 0x0D; 0x7E; 0x90; 0x30; 0x24;
   0xE5; 0x3D; 0xF0; 0xA3; 0xE5; 0x3E; 0xF0; 0xA3; 0xE5; 0x3F; 0xF0; 0xA3; 0xE5; 0x40; 0xF0; 0xA3;
   0xE5; 0x3C; 0xF0; 0x90; 0x30; 0x23; 0xE4; 0xF0; 0x22; 0xC0; 0xE0; 0xC0; 0x83; 0xC0; 0x82; 0xC0;
   0xD0; 0x90; 0x3F; 0x0C; 0xE0; 0xF5; 0x32; 0xE5; 0x32; 0x30; 0xE3; 0x74; 0x30; 0x36; 0x66; 0x90;
   0x60; 0x19; 0xE0; 0xF5; 0x0A; 0xA3; 0xE0; 0xF5; 0x0B; 0x90; 0x60; 0x1D; 0xE0; 0xF5; 0x14; 0xA3;
   0xE0; 0xF5; 0x15; 0x90; 0x60; 0x21; 0xE0; 0xF5; 0x0C; 0xA3; 0xE0; 0xF5; 0x0D; 0x90; 0x60; 0x29;
   0xE0; 0xF5; 0x0E; 0xA3; 0xE0; 0xF5; 0x0F; 0x90; 0x60; 0x31; 0xE0; 0xF5; 0x10; 0xA3; 0xE0; 0xF5;
   0x11; 0x90; 0x60; 0x39; 0xE0; 0xF5; 0x12; 0xA3; 0xE0; 0xF5; 0x13; 0x30; 0x01; 0x06; 0x30; 0x33;
   0x03; 0xD3; 0x80; 0x01; 0xC3; 0x92; 0x09; 0x30; 0x02; 0x06; 0x30; 0x33; 0x03; 0xD3; 0x80; 0x01;
   0xC3; 0x92; 0x0A; 0x30; 0x33; 0x0C; 0x30; 0x03; 0x09; 0x20; 0x02; 0x06; 0x20; 0x01; 0x03; 0xD3;
   0x80; 0x01; 0xC3; 0x92; 0x0B; 0x90; 0x30; 0x01; 0xE0; 0x44; 0x40; 0xF0; 0xE0; 0x54; 0xBF; 0xF0;
   0xE5; 0x32; 0x30; 0xE1; 0x14; 0x30; 0x34; 0x11; 0x90; 0x30; 0x22; 0xE0; 0xF5; 0x08; 0xE4; 0xF0;
   0x30; 0x00; 0x03; 0xD3; 0x80; 0x01; 0xC3; 0x92; 0x08; 0xE5; 0x32; 0x30; 0xE5; 0x12; 0x90; 0x56;
   0xA1; 0xE0; 0xF5; 0x09; 0x30; 0x31; 0x09; 0x30; 0x05; 0x03; 0xD3; 0x80; 0x01; 0xC3; 0x92; 0x0D;
   0x90; 0x3F; 0x0C; 0xE5; 0x32; 0xF0; 0xD0; 0xD0; 0xD0; 0x82; 0xD0; 0x83; 0xD0; 0xE0; 0x32; 0x90;
   0x0E; 0x7E; 0xE4; 0x93; 0xFE; 0x74; 0x01; 0x93; 0xFF; 0xC3; 0x90; 0x0E; 0x7C; 0x74; 0x01; 0x93;
   0x9F; 0xFF; 0xE4; 0x93; 0x9E; 0xFE; 0xE4; 0x8F; 0x3B; 0x8E; 0x3A; 0xF5; 0x39; 0xF5; 0x38; 0xAB;
   0x3B; 0xAA; 0x3A; 0xA9; 0x39; 0xA8; 0x38; 0xAF; 0x4B; 0xFC; 0xFD; 0xFE; 0x12; 0x05; 0x28; 0x12;
   0x0D; 0xE1; 0xE4; 0x7B; 0xFF; 0xFA; 0xF9; 0xF8; 0x12; 0x05; 0xB3; 0x12; 0x0D; 0xE1; 0x90; 0x0E;
   0x69; 0xE4; 0x12; 0x0D; 0xF6; 0x12; 0x0D; 0xE1; 0xE4; 0x85; 0x4A; 0x37; 0xF5; 0x36; 0xF5; 0x35;
   0xF5; 0x34; 0xAF; 0x37; 0xAE; 0x36; 0xAD; 0x35; 0xAC; 0x34; 0xA3; 0x12; 0x0D; 0xF6; 0x8F; 0x37;
   0x8E; 0x36; 0x8D; 0x35; 0x8C; 0x34; 0xE5; 0x3B; 0x45; 0x37; 0xF5; 0x3B; 0xE5; 0x3A; 0x45; 0x36;
   0xF5; 0x3A; 0xE5; 0x39; 0x45; 0x35; 0xF5; 0x39; 0xE5; 0x38; 0x45; 0x34; 0xF5; 0x38; 0xE4; 0xF5;
   0x22; 0xF5; 0x23; 0x85; 0x3B; 0x31; 0x85; 0x3A; 0x30; 0x85; 0x39; 0x2F; 0x85; 0x38; 0x2E; 0x02;
   0x0F; 0x46; 0xE0; 0xA3; 0xE0; 0x75; 0xF0; 0x02; 0xA4; 0xFF; 0xAE; 0xF0; 0xC3; 0x08; 0xE6; 0x9F;
   0xF6; 0x18; 0xE6; 0x9E; 0xF6; 0x22; 0xFF; 0xE5; 0xF0; 0x34; 0x60; 0x8F; 0x82; 0xF5; 0x83; 0xEC;
   0xF0; 0x22; 0x78; 0x52; 0x7E; 0x00; 0xE6; 0xFC; 0x08; 0xE6; 0xFD; 0x02; 0x04; 0xC1; 0xE4; 0xFC;
   0xFD; 0x12; 0x06; 0x99; 0x78; 0x5C; 0xE6; 0xC3; 0x13; 0xFE; 0x08; 0xE6; 0x13; 0x22; 0x78; 0x52;
   0xE6; 0xFE; 0x08; 0xE6; 0xFF; 0xE4; 0xFC; 0xFD; 0x22; 0xE7; 0xC4; 0xF8; 0x54; 0xF0; 0xC8; 0x68;
   0xF7; 0x09; 0xE7; 0xC4; 0x54; 0x0F; 0x48; 0xF7; 0x22; 0xE6; 0xFC; 0xED; 0x75; 0xF0; 0x04; 0xA4;
   0x22; 0x12; 0x06; 0x7C; 0x8F; 0x48; 0x8E; 0x47; 0x8D; 0x46; 0x8C; 0x45; 0x22; 0xE0; 0xFE; 0xA3;
   0xE0; 0xFD; 0xEE; 0xF6; 0xED; 0x08; 0xF6; 0x22; 0x13; 0xFF; 0xC3; 0xE6; 0x9F; 0xFF; 0x18; 0xE6;
   0x9E; 0xFE; 0x22; 0xE6; 0xC3; 0x13; 0xF7; 0x08; 0xE6; 0x13; 0x09; 0xF7; 0x22; 0xAD; 0x39; 0xAC;
   0x38; 0xFA; 0xF9; 0xF8; 0x12; 0x05; 0x28; 0x8F; 0x3B; 0x8E; 0x3A; 0x8D; 0x39; 0x8C; 0x38; 0xAB;
   0x37; 0xAA; 0x36; 0xA9; 0x35; 0xA8; 0x34; 0x22; 0x93; 0xFF; 0xE4; 0xFC; 0xFD; 0xFE; 0x12; 0x05;
   0x28; 0x8F; 0x37; 0x8E; 0x36; 0x8D; 0x35; 0x8C; 0x34; 0x22; 0x78; 0x84; 0xE6; 0xFE; 0x08; 0xE6;
   0xFF; 0xE4; 0x8F; 0x37; 0x8E; 0x36; 0xF5; 0x35; 0xF5; 0x34; 0x22; 0x90; 0x0E; 0x8C; 0xE4; 0x93;
   0x25; 0xE0; 0x24; 0x0A; 0xF8; 0xE6; 0xFE; 0x08; 0xE6; 0xFF; 0x22; 0xE6; 0xFE; 0x08; 0xE6; 0xFF;
   0xE4; 0x8F; 0x3B; 0x8E; 0x3A; 0xF5; 0x39; 0xF5; 0x38; 0x22; 0x78; 0x4E; 0xE6; 0xFE; 0x08; 0xE6;
   0xFF; 0x22; 0xEF; 0x25; 0xE0; 0x24; 0x4E; 0xF8; 0xE6; 0xFC; 0x08; 0xE6; 0xFD; 0x22; 0x78; 0x89;
   0xEF; 0x26; 0xF6; 0x18; 0xE4; 0x36; 0xF6; 0x22; 0x75; 0x89; 0x03; 0x75; 0xA8; 0x01; 0x75; 0xB8;
   0x04; 0x75; 0x34; 0xFF; 0x75; 0x35; 0x0E; 0x75; 0x36; 0x15; 0x75; 0x37; 0x0D; 0x12; 0x0E; 0x9A;
   0x12; 0x00; 0x09; 0x12; 0x0F; 0x16; 0x12; 0x00; 0x06; 0xD2; 0x00; 0xD2; 0x34; 0xD2; 0xAF; 0x75;
   0x34; 0xFF; 0x75; 0x35; 0x0E; 0x75; 0x36; 0x49; 0x75; 0x37; 0x03; 0x12; 0x0E; 0x9A; 0x30; 0x08;
   0x09; 0xC2; 0x34; 0x12; 0x08; 0xCB; 0xC2; 0x08; 0xD2; 0x34; 0x30; 0x0B; 0x09; 0xC2; 0x36; 0x12;
   0x02; 0x6C; 0xC2; 0x0B; 0xD2; 0x36; 0x30; 0x09; 0x09; 0xC2; 0x36; 0x12; 0x00; 0x0E; 0xC2; 0x09;
   0xD2; 0x36; 0x30; 0x0E; 0x03; 0x12; 0x06; 0xD7; 0x30; 0x35; 0xD3; 0x90; 0x30; 0x29; 0xE5; 0x1E;
   0xF0; 0xB4; 0x10; 0x05; 0x90; 0x30; 0x23; 0xE4; 0xF0; 0xC2; 0x35; 0x80; 0xC1; 0xE4; 0xF5; 0x4B;
   0x90; 0x0E; 0x7A; 0x93; 0xFF; 0xE4; 0x8F; 0x37; 0xF5; 0x36; 0xF5; 0x35; 0xF5; 0x34; 0xAF; 0x37;
   0xAE; 0x36; 0xAD; 0x35; 0xAC; 0x34; 0x90; 0x0E; 0x6A; 0x12; 0x0D; 0xF6; 0x8F; 0x37; 0x8E; 0x36;
   0x8D; 0x35; 0x8C; 0x34; 0x90; 0x0E; 0x72; 0x12; 0x06; 0x7C; 0xEF; 0x45; 0x37; 0xF5; 0x37; 0xEE;
   0x45; 0x36; 0xF5; 0x36; 0xED; 0x45; 0x35; 0xF5; 0x35; 0xEC; 0x45; 0x34; 0xF5; 0x34; 0xE4; 0xF5;
   0x22; 0xF5; 0x23; 0x85; 0x37; 0x31; 0x85; 0x36; 0x30; 0x85; 0x35; 0x2F; 0x85; 0x34; 0x2E; 0x12;
   0x0F; 0x46; 0xE4; 0xF5; 0x22; 0xF5; 0x23; 0x90; 0x0E; 0x72; 0x12; 0x0D; 0xEA; 0x12; 0x0F; 0x46;
   0xE4; 0xF5; 0x22; 0xF5; 0x23; 0x90; 0x0E; 0x6E; 0x12; 0x0D; 0xEA; 0x02; 0x0F; 0x46; 0xE5; 0x40;
   0x24; 0xF2; 0xF5; 0x37; 0xE5; 0x3F; 0x34; 0x43; 0xF5; 0x36; 0xE5; 0x3E; 0x34; 0xA2; 0xF5; 0x35;
   0xE5; 0x3D; 0x34; 0x28; 0xF5; 0x34; 0xE5; 0x37; 0xFF; 0xE4; 0xFE; 0xFD; 0xFC; 0x78; 0x18; 0x12;
   0x06; 0x69; 0x8F; 0x40; 0x8E; 0x3F; 0x8D; 0x3E; 0x8C; 0x3D; 0xE5; 0x37; 0x54; 0xA0; 0xFF; 0xE5;
   0x36; 0xFE; 0xE4; 0xFD; 0xFC; 0x78; 0x07; 0x12; 0x06; 0x56; 0x78; 0x10; 0x12; 0x0F; 0x9A; 0xE4;
   0xFF; 0xFE; 0xE5; 0x35; 0xFD; 0xE4; 0xFC; 0x78; 0x0E; 0x12; 0x06; 0x56; 0x12; 0x0F; 0x9D; 0xE4;
   0xFF; 0xFE; 0xFD; 0xE5; 0x34; 0xFC; 0x78; 0x18; 0x12; 0x06; 0x56; 0x78; 0x08; 0x12; 0x0F; 0x9A;
   0x22; 0x8F; 0x3B; 0x8E; 0x3A; 0x8D; 0x39; 0x8C; 0x38; 0x22; 0x12; 0x06; 0x7C; 0x8F; 0x31; 0x8E;
   0x30; 0x8D; 0x2F; 0x8C; 0x2E; 0x22; 0x93; 0xF9; 0xF8; 0x02; 0x06; 0x69; 0x00; 0x00; 0x00; 0x00;
   0x12; 0x01; 0x17; 0x08; 0x31; 0x15; 0x53; 0x54; 0x44; 0x20; 0x20; 0x20; 0x20; 0x20; 0x13; 0x01;
   0x10; 0x01; 0x56; 0x40; 0x1A; 0x30; 0x29; 0x7E; 0x00; 0x30; 0x04; 0x20; 0xDF; 0x30; 0x05; 0x40;
   0xBF; 0x50; 0x03; 0x00; 0xFD; 0x50; 0x27; 0x01; 0xFE; 0x60; 0x00; 0x11; 0x00; 0x3F; 0x05; 0x30;
   0x00; 0x3F; 0x06; 0x22; 0x00; 0x3F; 0x01; 0x2A; 0x00; 0x3F; 0x02; 0x00; 0x00; 0x36; 0x06; 0x07;
   0x00; 0x3F; 0x0B; 0x0F; 0xF0; 0x00; 0x00; 0x00; 0x00; 0x30; 0x01; 0x40; 0xBF; 0x30; 0x01; 0x00;
   0xBF; 0x30; 0x29; 0x70; 0x00; 0x3A; 0x00; 0x00; 0xFF; 0x3A; 0x00; 0x00; 0xFF; 0x36; 0x03; 0x36;
   0x02; 0x41; 0x44; 0x58; 0x20; 0x18; 0x10; 0x0A; 0x04; 0x04; 0x00; 0x03; 0xFF; 0x64; 0x00; 0x00;
   0x80; 0x00; 0x00; 0x00; 0x00; 0x00; 0x00; 0x02; 0x04; 0x06; 0x06; 0x00; 0x03; 0x51; 0x00; 0x7A;
   0x50; 0x3C; 0x28; 0x1E; 0x10; 0x10; 0x50; 0x2D; 0x28; 0x16; 0x10; 0x10; 0x02; 0x00; 0x10; 0x0C;
   0x10; 0x04; 0x0C; 0x6E; 0x06; 0x05; 0x00; 0xA5; 0x5A; 0x00; 0xAE; 0x35; 0xAF; 0x36; 0xE4; 0xFD;
   0xED; 0xC3; 0x95; 0x37; 0x50; 0x33; 0x12; 0x0F; 0xE2; 0xE4; 0x93; 0xF5; 0x38; 0x74; 0x01; 0x93;
   0xF5; 0x39; 0x45; 0x38; 0x60; 0x23; 0x85; 0x39; 0x82; 0x85; 0x38; 0x83; 0xE0; 0xFC; 0x12; 0x0F;
   0xE2; 0x74; 0x03; 0x93; 0x52; 0x04; 0x12; 0x0F; 0xE2; 0x74; 0x02; 0x93; 0x42; 0x04; 0x85; 0x39;
   0x82; 0x85; 0x38; 0x83; 0xEC; 0xF0; 0x0D; 0x80; 0xC7; 0x22; 0x78; 0xBE; 0xE6; 0xD3; 0x08; 0xFF;
   0xE6; 0x64; 0x80; 0xF8; 0xEF; 0x64; 0x80; 0x98; 0x22; 0x93; 0xFF; 0x7E; 0x00; 0xE6; 0xFC; 0x08;
   0xE6; 0xFD; 0x12; 0x04; 0xC1; 0x78; 0xC1; 0xE6; 0xFC; 0x08; 0xE6; 0xFD; 0xD3; 0xEF; 0x9D; 0xEE;
   0x9C; 0x22; 0x78; 0xBD; 0xD3; 0xE6; 0x64; 0x80; 0x94; 0x80; 0x22; 0x25; 0xE0; 0x24; 0x0A; 0xF8;
   0xE6; 0xFE; 0x08; 0xE6; 0xFF; 0x22; 0xE5; 0x3C; 0xD3; 0x94; 0x00; 0x40; 0x0B; 0x90; 0x0E; 0x88;
   0x12; 0x0B; 0xF1; 0x90; 0x0E; 0x86; 0x80; 0x09; 0x90; 0x0E; 0x82; 0x12; 0x0B; 0xF1; 0x90; 0x0E;
   0x80; 0xE4; 0x93; 0xF5; 0x44; 0xA3; 0xE4; 0x93; 0xF5; 0x43; 0xD2; 0x06; 0x30; 0x06; 0x03; 0xD3;
   0x80; 0x01; 0xC3; 0x92; 0x0E; 0x22; 0xA2; 0xAF; 0x92; 0x32; 0xC2; 0xAF; 0xE5; 0x23; 0x45; 0x22;
   0x90; 0x0E; 0x5D; 0x60; 0x0E; 0x12; 0x0F; 0xCB; 0xE0; 0xF5; 0x2C; 0x12; 0x0F; 0xC8; 0xE0; 0xF5;
   0x2D; 0x80; 0x0C; 0x12; 0x0F; 0xCB; 0xE5; 0x30; 0xF0; 0x12; 0x0F; 0xC8; 0xE5; 0x31; 0xF0; 0xA2;
   0x32; 0x92; 0xAF; 0x22; 0xD2; 0x01; 0xC2; 0x02; 0xE4; 0xF5; 0x1F; 0xF5; 0x1E; 0xD2; 0x35; 0xD2;
   0x33; 0xD2; 0x36; 0xD2; 0x01; 0xC2; 0x02; 0xF5; 0x1F; 0xF5; 0x1E; 0xD2; 0x35; 0xD2; 0x33; 0x22;
   0xFB; 0xD3; 0xED; 0x9B; 0x74; 0x80; 0xF8; 0x6C; 0x98; 0x22; 0x12; 0x06; 0x69; 0xE5; 0x40; 0x2F;
   0xF5; 0x40; 0xE5; 0x3F; 0x3E; 0xF5; 0x3F; 0xE5; 0x3E; 0x3D; 0xF5; 0x3E; 0xE5; 0x3D; 0x3C; 0xF5;
   0x3D; 0x22; 0xC0; 0xE0; 0xC0; 0x83; 0xC0; 0x82; 0x90; 0x3F; 0x0D; 0xE0; 0xF5; 0x33; 0xE5; 0x33;
   0xF0; 0xD0; 0x82; 0xD0; 0x83; 0xD0; 0xE0; 0x32; 0x90; 0x0E; 0x5F; 0xE4; 0x93; 0xFE; 0x74; 0x01;
   0x93; 0xF5; 0x82; 0x8E; 0x83; 0x22; 0x78; 0x7F; 0xE4; 0xF6; 0xD8; 0xFD; 0x75; 0x81; 0xCD; 0x02;
   0x0C; 0x98; 0x8F; 0x82; 0x8E; 0x83; 0x75; 0xF0; 0x04; 0xED; 0x02; 0x06; 0xA5
  ].

Definition Focus_Init_datas : list (Z * Z) := [(0x3000, 0x20)].

Definition Focus_Init_datas2 : list (Z * Z) :=
  [(0x3022, 0x00); (0x3023, 0x00); (0x3024, 0x00); (0x3025, 0x00);
   (0x3026, 0x00); (0x3027, 0x00); (0x3028, 0x00); (0x3029, 0x7f);
   (0x3000, 0x00)].

(** [for (i = 0; i < sizeof(OV5640_AF_Config); i++) { tmp = OV5640_AF_Config[i];
    write(addr, tmp); addr++; }] with [addr] a [uint16_t]; the status of
    the writes is dropped. *)
Fixpoint Focus_Init_upload (blob : list Z) (addr : Z) : M unit :=
  match blob with
  | [] => mret tt
  | b :: blob' =>
      ov5640_write_reg addr b ;;;
      Focus_Init_upload blob' (u16 (addr + 1))
  end.

(** [for (index = 0; index < sizeof(datas2) / 4U; index++) { tmp = datas[index][1];
    if (write(datas[index][0], tmp) != OV5640_OK) ret = OV5640_ERROR; }]:
    the bound is taken from [datas2], the entries from [datas]. *)
Fixpoint Focus_Init_release (n : nat) (idx : Z) (ret : Z) : M Z :=
  match n with
  | O => mret ret
  | S n' =>
      e <- index Focus_Init_datas idx ;;
      st <- ov5640_write_reg (fst e) (snd e) ;;
      Focus_Init_release n' (idx + 1)
                         (if negb (st =? OV5640_OK) then OV5640_ERROR else ret)
  end.

(** [do { read(0x3029, &tmp); vTaskDelay(5 ms); i++; if (i > 1000) return 1; }
    while (tmp != 0x70);] *)
Fixpoint Focus_Init_poll (fuel : nat) (i tmp ret : Z) : M Z :=
  match fuel with
  | O => diverge
  | S fuel' =>
      rd <- ov5640_read_reg 0x3029 tmp ;;
      vTaskDelay_ms 5 ;;;
      if i + 1 >? 1000 then mret 1
      else if negb (snd rd =? 0x70)
      then Focus_Init_poll fuel' (i + 1) (snd rd) ret
      else mret ret
  end.

Definition OV5640_Focus_Init (fuel : nat) : M Z :=
  e <- index Focus_Init_datas 0 ;;
  ov5640_write_reg (fst e) (snd e) ;;;
  Focus_Init_upload OV5640_AF_Config 0x8000 ;;;
  ret <- Focus_Init_release (length Focus_Init_datas2) 0 OV5640_OK ;;
  Focus_Init_poll fuel 0 0x8F ret.

(** [while (1) { retry++; read(0x3029, &temp); if (temp == 0x10) break;
    vTaskDelay(5 ms); if (retry > 200) return OV5640_ERROR; }] with [retry]
    a [uint16_t]. *)
Fixpoint Focus_Single_poll (fuel : nat) (retry temp : Z) : M Z :=
  match fuel with
  | O => diverge
  | S fuel' =>
      rd <- ov5640_read_reg 0x3029 temp ;;
      if snd rd =? 0x10 then mret OV5640_OK
      else
        vTaskDelay_ms 5 ;;;
        if u16 (retry + 1) >? 200 then mret OV5640_ERROR
        else Focus_Single_poll fuel' (u16 (retry + 1)) (snd rd)
  end.

Definition OV5640_Focus_Single (fuel : nat) : M Z :=
  ov5640_write_reg 0x3022 0x03 ;;;
  Focus_Single_poll fuel 0 0x03.

(** [do { read(0x3023, &temp); retry++; if (retry > 200) return OV5640_ERROR;
    vTaskDelay(5 ms); } while (temp != 0x00);]  The result is [false] when
    the function returns from inside the loop, [true] when the loop ends. *)
Fixpoint Focus_Constant_poll (fuel : nat) (retry temp : Z) : M bool :=
  match fuel with
  | O => diverge
  | S fuel' =>
      rd <- ov5640_read_reg 0x3023 temp ;;
      if u16 (retry + 1) >? 200 then mret false
      else
        vTaskDelay_ms 5 ;;;
        if negb (snd rd =? 0x00)
        then Focus_Constant_poll fuel' (u16 (retry + 1)) (snd rd)
        else mret true
  end.

Definition OV5640_Focus_Constant (fuel : nat) : M Z :=
  ov5640_write_reg 0x3023 0x01 ;;;
  ov5640_write_reg 0x3022 0x08 ;;;
  ok <- Focus_Constant_poll fuel 0 0x08 ;;
  if negb ok then mret OV5640_ERROR
  else
    ov5640_write_reg 0x3023 0x01 ;;;
    ov5640_write_reg 0x3022 0x04 ;;;
    ok <- Focus_Constant_poll fuel 0 0x04 ;;
    if negb ok then mret OV5640_ERROR else mret OV5640_OK.

Definition OV5640_Focus_Send_Single : M Z :=
  ov5640_write_reg 0x3022 0x03 ;;;
  mret OV5640_OK.

Definition OV5640_Focus_Send_Constant_IDLE : M Z :=
  ov5640_write_reg 0x3023 0x01 ;;;
  ov5640_write_reg 0x3022 0x08 ;;;
  mret OV5640_OK.

Definition OV5640_Focus_Send_Constant_Focus : M Z :=
  ov5640_write_reg 0x3023 0x01 ;;;
  ov5640_write_reg 0x3022 0x04 ;;;
  mret OV5640_OK.
End Driver.

Arguments index {B A} tbl i w.
Arguments composite {B} o : simpl never.

(** ** Concrete headers and buses, to run the model *)

(** A header to run the model on, with status codes, enumerators and
    register addresses in the style of the ST camera drivers and the
    register map of the sensor.  Every theorem below is stated for an
    arbitrary header, so nothing depends on these values. *)
Definition sample_reg (r : RegName) : Z :=
  match r with
  | OV5640_SYSREM_RESET00 => 0x3000 | OV5640_SYSREM_RESET02 => 0x3002
  | OV5640_CLOCK_ENABLE00 => 0x3004 | OV5640_CLOCK_ENABLE02 => 0x3006
  | OV5640_SYSTEM_CTROL0 => 0x3008 | OV5640_MIPI_CONTROL00 => 0x300E
  | OV5640_PAD_OUTPUT_ENABLE01 => 0x3017 | OV5640_PAD_OUTPUT_ENABLE02 => 0x3018
  | OV5640_PAD_OUTPUT_VALUE00 => 0x3019 | OV5640_SC_PLL_CONTRL0 => 0x3034
  | OV5640_SC_PLL_CONTRL1 => 0x3035 | OV5640_SC_PLL_CONTRL2 => 0x3036
  | OV5640_SC_PLL_CONTRL3 => 0x3037 | OV5640_SCCB_SYSTEM_CTRL1 => 0x3103
  | OV5640_SYSTEM_ROOT_DIVIDER => 0x3108 | OV5640_TIMING_HS_HIGH => 0x3800
  | OV5640_TIMING_HS_LOW => 0x3801 | OV5640_TIMING_VS_HIGH => 0x3802
  | OV5640_TIMING_VS_LOW => 0x3803 | OV5640_TIMING_HW_HIGH => 0x3804
  | OV5640_TIMING_HW_LOW => 0x3805 | OV5640_TIMING_VH_HIGH => 0x3806
  | OV5640_TIMING_VH_LOW => 0x3807 | OV5640_TIMING_DVPHO_HIGH => 0x3808
  | OV5640_TIMING_DVPHO_LOW => 0x3809 | OV5640_TIMING_DVPVO_HIGH => 0x380A
  | OV5640_TIMING_DVPVO_LOW => 0x380B | OV5640_TIMING_HTS_HIGH => 0x380C
  | OV5640_TIMING_HTS_LOW => 0x380D | OV5640_TIMING_VTS_HIGH => 0x380E
  | OV5640_TIMING_VTS_LOW => 0x380F | OV5640_TIMING_HOFFSET_HIGH => 0x3810
  | OV5640_TIMING_HOFFSET_LOW => 0x3811 | OV5640_TIMING_VOFFSET_HIGH => 0x3812
  | OV5640_TIMING_VOFFSET_LOW => 0x3813 | OV5640_TIMING_X_INC => 0x3814
  | OV5640_TIMING_Y_INC => 0x3815 | OV5640_TIMING_TC_REG20 => 0x3820
  | OV5640_TIMING_TC_REG21 => 0x3821 | OV5640_AEC_CTRL02 => 0x3A02
  | OV5640_AEC_CTRL03 => 0x3A03 | OV5640_AEC_B50_STEP_HIGH => 0x3A08
  | OV5640_AEC_B50_STEP_LOW => 0x3A09 | OV5640_AEC_B60_STEP_HIGH => 0x3A0A
  | OV5640_AEC_B60_STEP_LOW => 0x3A0B | OV5640_AEC_CTRL0D => 0x3A0D
  | OV5640_AEC_CTRL0E => 0x3A0E | OV5640_AEC_CTRL0F => 0x3A0F
  | OV5640_AEC_CTRL10 => 0x3A10 | OV5640_AEC_CTRL11 => 0x3A11
  | OV5640_AEC_CTRL13 => 0x3A13 | OV5640_AEC_MAX_EXPO_HIGH => 0x3A14
  | OV5640_AEC_MAX_EXPO_LOW => 0x3A15 | OV5640_AEC_GAIN_CEILING_HIGH => 0x3A18
  | OV5640_AEC_GAIN_CEILING_LOW => 0x3A19 | OV5640_AEC_CTRL1B => 0x3A1B
  | OV5640_AEC_CTRL1E => 0x3A1E | OV5640_AEC_CTRL1F => 0x3A1F
  | OV5640_5060HZ_CTRL01 => 0x3C01 | OV5640_5060HZ_CTRL04 => 0x3C04
  | OV5640_5060HZ_CTRL05 => 0x3C05 | OV5640_LIGHTMETER1_TH_HIGH => 0x3C06
  | OV5640_LIGHTMETER1_TH_LOW => 0x3C07 | OV5640_LIGHTMETER2_TH_HIGH => 0x3C08
  | OV5640_LIGHTMETER2_TH_LOW => 0x3C09 | OV5640_SAMPLE_NUMBER_HIGH => 0x3C0A
  | OV5640_SAMPLE_NUMBER_LOW => 0x3C0B | OV5640_BLC_CTRL01 => 0x4001
  | OV5640_BLC_CTRL04 => 0x4004 | OV5640_FRAME_CTRL02 => 0x4202
  | OV5640_FORMAT_CTRL00 => 0x4300 | OV5640_JPEG_CTRL07 => 0x4407
  | OV5640_JPG_MODE_SELECT => 0x4713 | OV5640_POLARITY_CTRL => 0x4740
  | OV5640_MIPI_CTRL00 => 0x4800 | OV5640_PCLK_PERIOD => 0x4837
  | OV5640_ISP_CONTROL00 => 0x5000 | OV5640_ISP_CONTROL01 => 0x5001
  | OV5640_FORMAT_MUX_CTRL => 0x501F | OV5640_AWB_CTRL00 => 0x5180
  | OV5640_AWB_CTRL01 => 0x5181 | OV5640_AWB_CTRL02 => 0x5182
  | OV5640_AWB_CTRL03 => 0x5183 | OV5640_AWB_CTRL04 => 0x5184
  | OV5640_AWB_CTRL05 => 0x5185 | OV5640_AWB_CTRL06 => 0x5186
  | OV5640_AWB_CTRL07 => 0x5187 | OV5640_AWB_CTRL08 => 0x5188
  | OV5640_AWB_CTRL09 => 0x5189 | OV5640_AWB_CTRL10 => 0x518A
  | OV5640_AWB_CTRL11 => 0x518B | OV5640_AWB_CTRL12 => 0x518C
  | OV5640_AWB_CTRL13 => 0x518D | OV5640_AWB_CTRL14 => 0x518E
  | OV5640_AWB_CTRL15 => 0x518F | OV5640_AWB_CTRL16 => 0x5190
  | OV5640_AWB_CTRL17 => 0x5191 | OV5640_AWB_CTRL18 => 0x5192
  | OV5640_AWB_CTRL19 => 0x5193 | OV5640_AWB_CTRL20 => 0x5194
  | OV5640_AWB_CTRL21 => 0x5195 | OV5640_AWB_CTRL22 => 0x5196
  | OV5640_AWB_CTRL23 => 0x5197 | OV5640_AWB_CTRL24 => 0x5198
  | OV5640_AWB_CTRL25 => 0x5199 | OV5640_AWB_CTRL26 => 0x519A
  | OV5640_AWB_CTRL27 => 0x519B | OV5640_AWB_CTRL28 => 0x519C
  | OV5640_AWB_CTRL29 => 0x519D | OV5640_AWB_CTRL30 => 0x519E
  | OV5640_CIP_SHARPENMT_TH1 => 0x5300 | OV5640_CIP_SHARPENMT_TH2 => 0x5301
  | OV5640_CIP_SHARPENMT_OFFSET1 => 0x5302 | OV5640_CIP_SHARPENMT_OFFSET2 => 0x5303
  | OV5640_CIP_DNS_TH1 => 0x5304 | OV5640_CIP_DNS_TH2 => 0x5305
  | OV5640_CIP_DNS_OFFSET1 => 0x5306 | OV5640_CIP_DNS_OFFSET2 => 0x5307
  | OV5640_CIP_CTRL => 0x5308 | OV5640_CIP_SHARPENTH_TH1 => 0x5309
  | OV5640_CIP_SHARPENTH_TH2 => 0x530A | OV5640_CIP_SHARPENTH_OFFSET1 => 0x530B
  | OV5640_CMX1 => 0x5381 | OV5640_CMX2 => 0x5382
  | OV5640_CMX3 => 0x5383 | OV5640_CMX4 => 0x5384
  | OV5640_CMX5 => 0x5385 | OV5640_CMX6 => 0x5386
  | OV5640_CMX7 => 0x5387 | OV5640_CMX8 => 0x5388
  | OV5640_CMX9 => 0x5389 | OV5640_CMXSIGN_HIGH => 0x538A
  | OV5640_CMXSIGN_LOW => 0x538B | OV5640_GAMMA_CTRL00 => 0x5480
  | OV5640_GAMMA_YST00 => 0x5481 | OV5640_GAMMA_YST01 => 0x5482
  | OV5640_GAMMA_YST02 => 0x5483 | OV5640_GAMMA_YST03 => 0x5484
  | OV5640_GAMMA_YST04 => 0x5485 | OV5640_GAMMA_YST05 => 0x5486
  | OV5640_GAMMA_YST06 => 0x5487 | OV5640_GAMMA_YST07 => 0x5488
  | OV5640_GAMMA_YST08 => 0x5489 | OV5640_GAMMA_YST09 => 0x548A
  | OV5640_GAMMA_YST0A => 0x548B | OV5640_GAMMA_YST0B => 0x548C
  | OV5640_GAMMA_YST0C => 0x548D | OV5640_GAMMA_YST0D => 0x548E
  | OV5640_GAMMA_YST0E => 0x548F | OV5640_GAMMA_YST0F => 0x5490
  | OV5640_SDE_CTRL0 => 0x5580 | OV5640_SDE_CTRL1 => 0x5581
  | OV5640_SDE_CTRL2 => 0x5582 | OV5640_SDE_CTRL3 => 0x5583
  | OV5640_SDE_CTRL4 => 0x5584 | OV5640_SDE_CTRL5 => 0x5585
  | OV5640_SDE_CTRL6 => 0x5586 | OV5640_SDE_CTRL7 => 0x5587
  | OV5640_SDE_CTRL8 => 0x5588 | OV5640_SDE_CTRL9 => 0x5589
  | OV5640_SDE_CTRL10 => 0x558A | OV5640_SDE_CTRL11 => 0x558B
  | OV5640_GMTRX00 => 0x5800 | OV5640_GMTRX01 => 0x5801
  | OV5640_GMTRX02 => 0x5802 | OV5640_GMTRX03 => 0x5803
  | OV5640_GMTRX04 => 0x5804 | OV5640_GMTRX05 => 0x5805
  | OV5640_GMTRX10 => 0x5806 | OV5640_GMTRX11 => 0x5807
  | OV5640_GMTRX12 => 0x5808 | OV5640_GMTRX13 => 0x5809
  | OV5640_GMTRX14 => 0x580A | OV5640_GMTRX15 => 0x580B
  | OV5640_GMTRX20 => 0x580C | OV5640_GMTRX21 => 0x580D
  | OV5640_GMTRX22 => 0x580E | OV5640_GMTRX23 => 0x580F
  | OV5640_GMTRX24 => 0x5810 | OV5640_GMTRX25 => 0x5811
  | OV5640_GMTRX30 => 0x5812 | OV5640_GMTRX31 => 0x5813
  | OV5640_GMTRX32 => 0x5814 | OV5640_GMTRX33 => 0x5815
  | OV5640_GMTRX34 => 0x5816 | OV5640_GMTRX35 => 0x5817
  | OV5640_GMTRX40 => 0x5818 | OV5640_GMTRX41 => 0x5819
  | OV5640_GMTRX42 => 0x581A | OV5640_GMTRX43 => 0x581B
  | OV5640_GMTRX44 => 0x581C | OV5640_GMTRX45 => 0x581D
  | OV5640_GMTRX50 => 0x581E | OV5640_GMTRX51 => 0x581F
  | OV5640_GMTRX52 => 0x5820 | OV5640_GMTRX53 => 0x5821
  | OV5640_GMTRX54 => 0x5822 | OV5640_GMTRX55 => 0x5823
  | OV5640_BRMATRX00 => 0x5824 | OV5640_BRMATRX01 => 0x5825
  | OV5640_BRMATRX02 => 0x5826 | OV5640_BRMATRX03 => 0x5827
  | OV5640_BRMATRX04 => 0x5828 | OV5640_BRMATRX05 => 0x5829
  | OV5640_BRMATRX06 => 0x582A | OV5640_BRMATRX07 => 0x582B
  | OV5640_BRMATRX08 => 0x582C | OV5640_BRMATRX09 => 0x582D
  | OV5640_BRMATRX20 => 0x582E | OV5640_BRMATRX21 => 0x582F
  | OV5640_BRMATRX22 => 0x5830 | OV5640_BRMATRX23 => 0x5831
  | OV5640_BRMATRX24 => 0x5832 | OV5640_BRMATRX30 => 0x5833
  | OV5640_BRMATRX31 => 0x5834 | OV5640_BRMATRX32 => 0x5835
  | OV5640_BRMATRX33 => 0x5836 | OV5640_BRMATRX34 => 0x5837
  | OV5640_BRMATRX40 => 0x5838 | OV5640_BRMATRX41 => 0x5839
  | OV5640_BRMATRX42 => 0x583A | OV5640_BRMATRX43 => 0x583B
  | OV5640_BRMATRX44 => 0x583C | OV5640_LENC_BR_OFFSET => 0x583D
  end.

Definition sample_header : Header :=
  {| reg := sample_reg;
     OV5640_OK := 0;
     OV5640_ERROR := -1;
     OV5640_R160x120 := 0;
     OV5640_R320x240 := 1;
     OV5640_R480x272 := 2;
     OV5640_R640x480 := 3;
     OV5640_R800x480 := 4;
     OV5640_RGB565 := 0;
     OV5640_RGB888 := 1;
     OV5640_YUV422 := 2;
     OV5640_Y8 := 7;
     OV5640_JPEG := 8;
     OV5640_POLARITY_PCLK_LOW := 0;
     OV5640_POLARITY_PCLK_HIGH := 1;
     OV5640_POLARITY_HREF_LOW := 0;
     OV5640_POLARITY_HREF_HIGH := 1;
     OV5640_POLARITY_VSYNC_LOW := 1;
     OV5640_POLARITY_VSYNC_HIGH := 0;
     OV5640_MIRROR_FLIP_NONE := 0;
     OV5640_FLIP := 1;
     OV5640_MIRROR := 2;
     OV5640_MIRROR_FLIP := 3;
     SERIAL_MODE := 1 |}.

(** A sensor as a register file with a millisecond tick. *)
Record Sensor : Type := {
  regs : Z -> Z;
  ticks : Z
}.

Definition store (s : Sensor) (r d : Z) : Sensor :=
  {| regs := fun a => if a =? r then d else regs s a; ticks := ticks s |}.

Definition tick (s : Sensor) : Z * Sensor :=
  (ticks s, {| regs := regs s; ticks := ticks s + 1 |}).

#[export] Instance sensor_rtos : RTOS Sensor :=
  {| vTaskDelay := fun ms s => {| regs := regs s; ticks := ticks s + ms |} |}.

(** A bus on which every transaction succeeds: a write stores the byte, a
    read returns the stored byte. *)
Definition regfile_io {hdr : Header} : OV5640_IO_t Sensor :=
  {| IO_Init := Some (fun s => (OV5640_OK, s));
     IO_DeInit := Some (fun s => (OV5640_OK, s));
     IO_Address := 0x78;
     IO_WriteReg := fun _ r d s => (OV5640_OK, store s r d);
     IO_ReadReg := fun _ r _ s => ((OV5640_OK, regs s r), s);
     IO_GetTick := tick |}.

(** A bus on which every transaction fails and nothing is stored. *)
Definition dead_io {hdr : Header} : OV5640_IO_t Sensor :=
  {| IO_Init := Some (fun s => (OV5640_ERROR, s));
     IO_DeInit := Some (fun s => (OV5640_ERROR, s));
     IO_Address := 0x78;
     IO_WriteReg := fun _ _ _ s => (OV5640_ERROR, s);
     IO_ReadReg := fun _ _ buf s => ((OV5640_ERROR, buf), s);
     IO_GetTick := tick |}.

(** A handle as [OV5640_RegisterBusIO] leaves it, in parallel mode. *)
Definition registered {B : Type} (io : OV5640_IO_t B) : OV5640_Object_t B :=
  {| IO := io; IsInitialized := 0; Mode := 0; VirtualChannelID := 0;
     bright := 0x01; saturation := 0x41; contrast := 0x41; huedegree := 0x32 |}.

Definition blank : Sensor := {| regs := fun _ => 0; ticks := 0 |}.

Definition world0 {B : Type} (io : OV5640_IO_t B) (e : B) : World B :=
  {| obj := registered io; env := e; trace := [] |}.

(** The worlds the examples start from: a registered handle on a blank
    sensor, with the bus that works and with the bus that fails. *)
Definition sample_world : World Sensor :=
  world0 (regfile_io (hdr := sample_header)) blank.

Definition dead_world : World Sensor :=
  world0 (dead_io (hdr := sample_header)) blank.

(** A sensor of which only the answers to status reads matter: the
    environment counts the reads done so far, and the [j]-th read (from 1)
    returns [script j]. *)
#[export] Instance poll_rtos : RTOS nat :=
  {| vTaskDelay := fun _ n => n |}.

Definition poll_io {hdr : Header} (script : nat -> Z) : OV5640_IO_t nat :=
  {| IO_Init := Some (fun n => (OV5640_OK, n));
     IO_DeInit := Some (fun n => (OV5640_OK, n));
     IO_Address := 0x78;
     IO_WriteReg := fun _ _ _ n => (OV5640_OK, n);
     IO_ReadReg := fun _ _ _ n => ((OV5640_OK, script (S n)), S n);
     IO_GetTick := fun n => (0, n) |}.

(** [script] answers [v] at read [k] and [other] at every other read. *)
Definition answer_at (k : nat) (v other : Z) : nat -> Z :=
  fun j => if Nat.eqb j k then v else other.

(** [script] answers 0x00 at reads 200 and 400 and 0x01 at every other
    read. *)
Definition two_hits : nat -> Z :=
  fun j => if Nat.eqb j 200 then 0x00 else if Nat.eqb j 400 then 0x00 else 0x01.

Definition poll_world (script : nat -> Z) : World nat :=
  world0 (poll_io (hdr := sample_header) script) 0%nat.

(** ** Vocabulary of the statements *)

Section Vocabulary.
Context {B : Type} {hdr : Header} {rtos : RTOS B}.

(** The world in which a computation ended, however it ended. *)
Definition final {A : Type} (r : outcome B A) : World B :=
  match r with
  | Ret _ w => w
  | Undef w => w
  | Diverge w => w
  end.

(** [w'] comes after [w] by bus traffic alone: the handle is the same and
    the log has only grown. *)
Definition after_bus (w w' : World B) : Prop :=
  obj w' = obj w /\ exists evs, trace w' = trace w ++ evs.

(** A computation that only talks to the bus. *)
Definition bus_only {A : Type} (m : M B A) : Prop :=
  forall w, after_bus w (final (m w)).

(** A computation that returns on every world whose handle is bound to
    [io]. *)
Definition returns {A : Type} (io : OV5640_IO_t B) (m : M B A) : Prop :=
  forall w, IO (obj w) = io -> exists a w', m w = Ret a w'.

(** What holds of the result of [m] on [w] when [m] returns. *)
Definition post {A : Type} (m : M B A) (w : World B) (Q : A -> World B -> Prop) : Prop :=
  forall a w', m w = Ret a w' -> Q a w'.

(** The four tuning codes of a handle fit in a byte, as the byte constants
    the driver stores there do. *)
Definition tuning_bytes (o : OV5640_Object_t B) : Prop :=
  (0 <= bright o < 256) /\ (0 <= saturation o < 256) /\
  (0 <= contrast o < 256) /\ (0 <= huedegree o < 256).

(** Between [w] and [w'] the log grew, and the first new entry is a write
    of [d] to address [a]. *)
Definition wrote_first (a d : Z) (w w' : World B) : Prop :=
  exists st evs, trace w' = trace w ++ EvWrite a d st :: evs.

(** The last entry of the log of [w] is a successful write to
    [OV5640_SDE_CTRL8] of the OR of the four tuning codes that the handle
    of [w] holds. *)
Definition composite_written (w : World B) : Prop :=
  exists t,
    trace w = t ++ [EvWrite (u16 (reg OV5640_SDE_CTRL8)) (composite (obj w)) OV5640_OK].

(** The number of register reads in the log of [w]. *)
Definition nreads (w : World B) : nat := length (reads_of (trace w)).

(** Every write on the bus binding [io] succeeds. *)
Definition writes_succeed (io : OV5640_IO_t B) : Prop :=
  forall a r d e, fst (IO_WriteReg io a r d e) = OV5640_OK.

(** The register writes a table asks for, as they appear on the bus. *)
Definition table_writes (tbl : list (Z * Z)) : list (Z * Z) :=
  map (fun e => (u16 (fst e), u8 (snd e))) tbl.

(** The log of a table loop that honours the rule "in table order, one
    write per entry, nothing after the first write that fails". *)
Inductive stops_at_failure : list (Z * Z) -> list Event -> Prop :=
| stops_end : stops_at_failure [] []
| stops_ok (r v : Z) (tbl : list (Z * Z)) (evs : list Event) :
    stops_at_failure tbl evs ->
    stops_at_failure ((r, v) :: tbl) (EvWrite (u16 r) (u8 v) OV5640_OK :: evs)
| stops_failed (r v st : Z) (tbl : list (Z * Z)) :
    st <> OV5640_OK ->
    stops_at_failure ((r, v) :: tbl) [EvWrite (u16 r) (u8 v) st].

(** The writes of the firmware upload loop, as the loop computes them. *)
Fixpoint upload_writes (blob : list Z) (addr : Z) : list (Z * Z) :=
  match blob with
  | [] => []
  | b :: blob' => (u16 addr, u8 b) :: upload_writes blob' (u16 (addr + 1))
  end.

(** The firmware window: byte [i] of [OV5640_AF_Config] at address
    [0x8000 + i]. *)
Definition af_window : list (Z * Z) :=
  combine (map (fun i => 0x8000 + Z.of_nat i) (seq 0 (length OV5640_AF_Config)))
          OV5640_AF_Config.

(** The bits that [OV5640_MirrorFlipConfig] ORs into registers
    [OV5640_TIMING_TC_REG20] and [OV5640_TIMING_TC_REG21] for a
    configuration, case by case as its [switch] has them. *)
Definition mirror_flip_bits (Config : Z) : Z * Z :=
  if Config =? OV5640_MIRROR then (0, 0x06)
  else if Config =? OV5640_FLIP then (0x06, 0)
  else if Config =? OV5640_MIRROR_FLIP then (0x06, 0x06)
  else (0, 0).

(** A register value with bits 2:1 masked off and [bits] ORed in. *)
Definition patched (x bits : Z) : Z := Z.lor (Z.land (u8 x) 0xF9) bits.
End Vocabulary.



(** * More of the driver

    The functions of [ov5640.c] that the part above leaves out, in the same
    embedding.  They need more macros of the two headers, taken as a second
    parameter. *)

(** ** More header constants *)

Inductive RegName2 : Type :=
  | OV5640_CHIP_ID_HIGH_BYTE | OV5640_CHIP_ID_LOW_BYTE
  | OV5640_PAD_SELECT01 | OV5640_PAD_SELECT02
  | OV5640_SC_PLL_CONTRL4 | OV5640_SC_PLL_CONTRL5
  | OV5640_AWB_R_GAIN_MSB | OV5640_AWB_R_GAIN_LSB
  | OV5640_AWB_G_GAIN_MSB | OV5640_AWB_G_GAIN_LSB
  | OV5640_AWB_B_GAIN_MSB | OV5640_AWB_B_GAIN_LSB
  | OV5640_AWB_MANUAL_CONTROL | OV5640_AEC_CTRL00
  | OV5640_656_DUMMY_LINE | OV5640_CCIR656_CTRL00
  | OV5640_CCIR656_FS | OV5640_CCIR656_FE
  | OV5640_CCIR656_LS | OV5640_CCIR656_LE
  | OV5640_PRE_ISP_TEST_SETTING1
  | OV5640_SCALE_CTRL0 | OV5640_SCALE_CTRL1.

Class HeaderMore : Type := {
  reg2 : RegName2 -> Z;
  OV5640_R2592x1944 : Z;
  OV5640_LIGHT_AUTO : Z;
  OV5640_LIGHT_SUNNY : Z;
  OV5640_LIGHT_OFFICE : Z;
  OV5640_LIGHT_HOME : Z;
  OV5640_LIGHT_CLOUDY : Z;
  OV5640_COLOR_EFFECT_NONE : Z;
  OV5640_COLOR_EFFECT_BLUE : Z;
  OV5640_COLOR_EFFECT_RED : Z;
  OV5640_COLOR_EFFECT_GREEN : Z;
  OV5640_COLOR_EFFECT_BW : Z;
  OV5640_COLOR_EFFECT_SEPIA : Z;
  OV5640_COLOR_EFFECT_NEGATIVE : Z;
  OV5640_ZOOM_x1 : Z;
  NIGHT_MODE_ENABLE : Z;
  COLORBAR_MODE_ENABLE : Z;
  COLORBAR_MODE_GRADUALV : Z;
  OV5640_PCLK_7M : Z;
  OV5640_PCLK_8M : Z;
  OV5640_PCLK_9M : Z;
  OV5640_PCLK_12M : Z;
  OV5640_PCLK_24M : Z;
  OV5640_PCLK_48M : Z
}.

(** A pointer to a [uint32_t] result cell: null, or a cell with its
    content. *)
Definition cell : Type := option Z.

Section DriverMore.
Context {B : Type} {hdr : Header} {hdr2 : HeaderMore} {rtos : RTOS B}.

Local Abbreviation M := (M B).

(** *** Status idioms *)

(** [if (ret == OV5640_OK) { tmp = v; ret = ov5640_write_reg(r, &tmp); }],
    once per entry, in order. *)
Fixpoint write_chain (ws : list (Z * Z)) (ret : Z) : M Z :=
  match ws with
  | [] => mret ret
  | (r, v) :: ws' =>
      ret <- (if ret =? OV5640_OK then ov5640_write_reg r v else mret ret) ;;
      write_chain ws' ret
  end.

(** [if (ret != OV5640_OK) { ret = OV5640_ERROR; }]. *)
Definition normalise (ret : Z) : M Z :=
  if negb (ret =? OV5640_OK) then mret OV5640_ERROR else mret ret.

(** [a + b] on [int32_t]: overflow is undefined. *)
Definition int32_add (a b : Z) : M Z :=
  if (-2147483648 <=? a + b) && (a + b <=? 2147483647)
  then mret (a + b)
  else undefined.

(** *** De-initialisation and start/stop *)

Definition OV5640_Start : M Z :=
  ov5640_write_reg (reg OV5640_SYSTEM_CTROL0) 0x2.

Definition OV5640_Stop : M Z :=
  ov5640_write_reg (reg OV5640_SYSTEM_CTROL0) 0x42.

Definition DisablePADOutput_regs : list (Z * Z) :=
  [(reg OV5640_PAD_OUTPUT_ENABLE01, 0x00);
   (reg OV5640_PAD_OUTPUT_ENABLE02, 0x00);
   (reg2 OV5640_PAD_SELECT01, 0);
   (reg2 OV5640_PAD_SELECT02, 0)].

Definition OV5640_DisablePADOutput : M Z :=
  write_table_break DisablePADOutput_regs OV5640_OK.

(** *** Read-back *)

(** [OV5640_GetPixelFormat]: not implemented. *)
Definition OV5640_GetPixelFormat : M Z := mret OV5640_ERROR.

(** [OV5640_GetResolution].  [Resolution] is the content of the result cell
    before the call; the result is the status and the content after it.
    [tmp] is not initialised before the first read; its content only
    matters when a read succeeds. *)
Definition OV5640_GetResolution (Resolution : Z) : M (Z * Z) :=
  rd <- ov5640_read_reg (reg OV5640_TIMING_DVPHO_HIGH) 0 ;;
  if negb (fst rd =? OV5640_OK) then mret (OV5640_ERROR, Resolution)
  else
    let x_size := u16 (Z.shiftl (snd rd) 8) in
    rd <- ov5640_read_reg (reg OV5640_TIMING_DVPHO_LOW) (snd rd) ;;
    if negb (fst rd =? OV5640_OK) then mret (OV5640_ERROR, Resolution)
    else
      let x_size := u16 (Z.lor x_size (snd rd)) in
      rd <- ov5640_read_reg (reg OV5640_TIMING_DVPVO_HIGH) (snd rd) ;;
      if negb (fst rd =? OV5640_OK) then mret (OV5640_ERROR, Resolution)
      else
        let y_size := u16 (Z.shiftl (snd rd) 8) in
        rd <- ov5640_read_reg (reg OV5640_TIMING_DVPVO_LOW) (snd rd) ;;
        if negb (fst rd =? OV5640_OK) then mret (OV5640_ERROR, Resolution)
        else
          let y_size := u16 (Z.lor y_size (snd rd)) in
          if (x_size =? 800) && (y_size =? 480)
          then mret (OV5640_OK, OV5640_R800x480)
          else if (x_size =? 640) && (y_size =? 480)
          then mret (OV5640_OK, OV5640_R640x480)
          else if (x_size =? 480) && (y_size =? 272)
          then mret (OV5640_OK, OV5640_R480x272)
          else if (x_size =? 320) && (y_size =? 240)
          then mret (OV5640_OK, OV5640_R320x240)
          else if (x_size =? 160) && (y_size =? 120)
          then mret (OV5640_OK, OV5640_R160x120)
          else mret (OV5640_ERROR, Resolution).

(** [OV5640_GetPolarities].  The three result pointers come in as cells and
    go out as cells; they are written only when the read succeeds. *)
Definition OV5640_GetPolarities (p : ObjPtr) (PclkPolarity HrefPolarity VsyncPolarity : cell)
  : M (Z * (cell * cell * cell)) :=
  match p, PclkPolarity, HrefPolarity, VsyncPolarity with
  | pObj, Some _, Some _, Some _ =>
      rd <- ov5640_read_reg (reg OV5640_POLARITY_CTRL) 0 ;;
      if negb (fst rd =? OV5640_OK)
      then mret (OV5640_ERROR, (PclkPolarity, HrefPolarity, VsyncPolarity))
      else
        let tmp := snd rd in
        mret (OV5640_OK,
              (Some (Z.land (Z.shiftr tmp 5) 0x01),
               Some (Z.land (Z.shiftr tmp 1) 0x01),
               Some (Z.land tmp 0x01)))
  | _, _, _, _ => mret (OV5640_ERROR, (PclkPolarity, HrefPolarity, VsyncPolarity))
  end.

(** [pObj->IO.Init();] with the status dropped: calling a null pointer is
    undefined. *)
Definition call_IO_Init : M unit :=
  fun w =>
    match IO_Init (IO (obj w)) with
    | Some init =>
        let (_, e) := init (env w) in
        Ret tt {| obj := obj w; env := e; trace := trace w |}
    | None => Undef w
    end.

(** [OV5640_ReadID].  [Id] is the content of the result cell before the
    call; the result is the status and the content after it. *)
Definition OV5640_ReadID (fuel : nat) (Id : Z) : M (Z * Z) :=
  call_IO_Init ;;;
  st <- ov5640_write_reg (reg OV5640_SYSTEM_CTROL0) 0x80 ;;
  if negb (st =? OV5640_OK) then mret (OV5640_ERROR, Id)
  else
    OV5640_Delay fuel 500 ;;;
    rd <- ov5640_read_reg (reg2 OV5640_CHIP_ID_HIGH_BYTE) 0x80 ;;
    if negb (fst rd =? OV5640_OK) then mret (OV5640_ERROR, Id)
    else
      let Id := u32 (Z.shiftl (snd rd) 8) in
      rd <- ov5640_read_reg (reg2 OV5640_CHIP_ID_LOW_BYTE) (snd rd) ;;
      if negb (fst rd =? OV5640_OK) then mret (OV5640_ERROR, Id)
      else mret (OV5640_OK, u32 (Z.lor Id (snd rd))).

(** *** Light mode and colour effects *)

Definition OV5640_LightModeAuto : list (Z * Z) :=
  [(reg2 OV5640_AWB_MANUAL_CONTROL, 0x00);
   (reg2 OV5640_AWB_R_GAIN_MSB, 0x04); (reg2 OV5640_AWB_R_GAIN_LSB, 0x00);
   (reg2 OV5640_AWB_G_GAIN_MSB, 0x04); (reg2 OV5640_AWB_G_GAIN_LSB, 0x00);
   (reg2 OV5640_AWB_B_GAIN_MSB, 0x04); (reg2 OV5640_AWB_B_GAIN_LSB, 0x00)].

Definition OV5640_LightModeCloudy : list (Z * Z) :=
  [(reg2 OV5640_AWB_MANUAL_CONTROL, 0x01);
   (reg2 OV5640_AWB_R_GAIN_MSB, 0x06); (reg2 OV5640_AWB_R_GAIN_LSB, 0x48);
   (reg2 OV5640_AWB_G_GAIN_MSB, 0x04); (reg2 OV5640_AWB_G_GAIN_LSB, 0x00);
   (reg2 OV5640_AWB_B_GAIN_MSB, 0x04); (reg2 OV5640_AWB_B_GAIN_LSB, 0xD3)].

Definition OV5640_LightModeOffice : list (Z * Z) :=
  [(reg2 OV5640_AWB_MANUAL_CONTROL, 0x01);
   (reg2 OV5640_AWB_R_GAIN_MSB, 0x05); (reg2 OV5640_AWB_R_GAIN_LSB, 0x48);
   (reg2 OV5640_AWB_G_GAIN_MSB, 0x04); (reg2 OV5640_AWB_G_GAIN_LSB, 0x00);
   (reg2 OV5640_AWB_B_GAIN_MSB, 0x07); (reg2 OV5640_AWB_B_GAIN_LSB, 0xCF)].

Definition OV5640_LightModeHome : list (Z * Z) :=
  [(reg2 OV5640_AWB_MANUAL_CONTROL, 0x01);
   (reg2 OV5640_AWB_R_GAIN_MSB, 0x04); (reg2 OV5640_AWB_R_GAIN_LSB, 0x10);
   (reg2 OV5640_AWB_G_GAIN_MSB, 0x04); (reg2 OV5640_AWB_G_GAIN_LSB, 0x00);
   (reg2 OV5640_AWB_B_GAIN_MSB, 0x08); (reg2 OV5640_AWB_B_GAIN_LSB, 0xB6)].

Definition OV5640_LightModeSunny : list (Z * Z) :=
  [(reg2 OV5640_AWB_MANUAL_CONTROL, 0x01);
   (reg2 OV5640_AWB_R_GAIN_MSB, 0x06); (reg2 OV5640_AWB_R_GAIN_LSB, 0x1C);
   (reg2 OV5640_AWB_G_GAIN_MSB, 0x04); (reg2 OV5640_AWB_G_GAIN_LSB, 0x00);
   (reg2 OV5640_AWB_B_GAIN_MSB, 0x04); (reg2 OV5640_AWB_B_GAIN_LSB, 0xF3)].

(** The table a light mode selects: the cases of the [switch], in its
    order, with [OV5640_LIGHT_AUTO] and everything else last. *)
Definition light_mode_table (LightMode : Z) : list (Z * Z) :=
  if LightMode =? OV5640_LIGHT_SUNNY then OV5640_LightModeSunny
  else if LightMode =? OV5640_LIGHT_OFFICE then OV5640_LightModeOffice
  else if LightMode =? OV5640_LIGHT_CLOUDY then OV5640_LightModeCloudy
  else if LightMode =? OV5640_LIGHT_HOME then OV5640_LightModeHome
  else OV5640_LightModeAuto.

Definition SetLightMode_prefix : list (Z * Z) :=
  [(reg OV5640_AWB_CTRL16, 0x46);
   (reg OV5640_AWB_CTRL17, 0xF8);
   (reg OV5640_AWB_CTRL18, 0x04)].

Definition OV5640_SetLightMode (LightMode : Z) : M Z :=
  ret <- ov5640_write_reg (reg2 OV5640_AWB_MANUAL_CONTROL) 0x00 ;;
  ret <- write_chain SetLightMode_prefix ret ;;
  if ret =? OV5640_OK
  then write_table_guarded (mret tt) (light_mode_table LightMode) ret
  else mret ret.

(** The writes of a colour effect after the first one, to
    [OV5640_ISP_CONTROL01]: the cases of the [switch], in its order. *)
Definition color_effect_writes (Effect : Z) : Z * list (Z * Z) :=
  if Effect =? OV5640_COLOR_EFFECT_BLUE
  then (0xFF, [(reg OV5640_SDE_CTRL0, Z.lor 0x18 0x07);
               (reg OV5640_SDE_CTRL3, 0xA0); (reg OV5640_SDE_CTRL4, 0x40)])
  else if Effect =? OV5640_COLOR_EFFECT_RED
  then (0xFF, [(reg OV5640_SDE_CTRL0, Z.lor 0x18 0x07);
               (reg OV5640_SDE_CTRL3, 0x80); (reg OV5640_SDE_CTRL4, 0xC0)])
  else if Effect =? OV5640_COLOR_EFFECT_GREEN
  then (0xFF, [(reg OV5640_SDE_CTRL0, 0x18);
               (reg OV5640_SDE_CTRL3, 0x60); (reg OV5640_SDE_CTRL4, 0x60)])
  else if Effect =? OV5640_COLOR_EFFECT_BW
  then (0xFF, [(reg OV5640_SDE_CTRL0, Z.lor 0x18 0x07);
               (reg OV5640_SDE_CTRL3, 0x80); (reg OV5640_SDE_CTRL4, 0x80)])
  else if Effect =? OV5640_COLOR_EFFECT_SEPIA
  then (0xFF, [(reg OV5640_SDE_CTRL0, Z.lor 0x18 0x07);
               (reg OV5640_SDE_CTRL3, 0x40); (reg OV5640_SDE_CTRL4, 0xA0)])
  else if Effect =? OV5640_COLOR_EFFECT_NEGATIVE
  then (0xFF, [(reg OV5640_SDE_CTRL0, 0x47)])
  else (0x7F, [(reg OV5640_SDE_CTRL0, 0x07)]).

Definition OV5640_SetColorEffect (Effect : Z) : M Z :=
  let ws := color_effect_writes Effect in
  ret <- ov5640_write_reg (reg OV5640_ISP_CONTROL01) (fst ws) ;;
  ret <- write_chain (snd ws) ret ;;
  normalise ret.

(** *** Zoom, night mode, colour bar, pixel clock *)

Definition OV5640_ZoomConfig (Zoom : Z) : M Z :=
  gr <- OV5640_GetResolution 0 ;;
  if negb (fst gr =? OV5640_OK) then mret OV5640_ERROR
  else
    let res := snd gr in
    if Zoom =? OV5640_ZOOM_x1
    then
      st <- ov5640_write_reg (reg2 OV5640_SCALE_CTRL0) 0x10 ;;
      if negb (st =? OV5640_OK) then mret OV5640_ERROR else mret OV5640_OK
    else
      let zoom :=
        if (res =? OV5640_R320x240) || (res =? OV5640_R480x272)
        then Z.shiftr Zoom 1
        else if res =? OV5640_R640x480
        then Z.shiftr Zoom 2
        else Zoom in
      st <- ov5640_write_reg (reg2 OV5640_SCALE_CTRL0) 0x00 ;;
      if negb (st =? OV5640_OK) then mret OV5640_ERROR
      else
        st <- ov5640_write_reg (reg2 OV5640_SCALE_CTRL1) zoom ;;
        if negb (st =? OV5640_OK) then mret OV5640_ERROR else mret OV5640_OK.

(** The writes of the enable branch after the first; [tmp] keeps 0 for
    [OV5640_SC_PLL_CONTRL5] and 0x04 for [OV5640_AEC_CTRL0E]. *)
Definition NightMode_enable_writes : list (Z * Z) :=
  [(reg2 OV5640_SC_PLL_CONTRL5, 0);
   (reg2 OV5640_AEC_CTRL00, 0x7C);
   (reg OV5640_AEC_B50_STEP_HIGH, 0x01);
   (reg OV5640_AEC_B50_STEP_LOW, 0x27);
   (reg OV5640_AEC_B60_STEP_HIGH, 0x00);
   (reg OV5640_AEC_B60_STEP_LOW, 0xF6);
   (reg OV5640_AEC_CTRL0D, 0x04);
   (reg OV5640_AEC_CTRL0E, 0x04);
   (reg OV5640_AEC_CTRL02, 0x0B);
   (reg OV5640_AEC_CTRL03, 0x88);
   (reg OV5640_AEC_MAX_EXPO_HIGH, 0x0B);
   (reg OV5640_AEC_MAX_EXPO_LOW, 0x88)].

Definition OV5640_NightModeConfig (Cmd : Z) : M Z :=
  if Cmd =? NIGHT_MODE_ENABLE
  then
    ret <- ov5640_write_reg (reg2 OV5640_SC_PLL_CONTRL4) 0 ;;
    ret <- write_chain NightMode_enable_writes ret ;;
    normalise ret
  else
    rd <- ov5640_read_reg (reg2 OV5640_AEC_CTRL00) 0 ;;
    if negb (fst rd =? OV5640_OK) then mret OV5640_ERROR
    else
      st <- ov5640_write_reg (reg2 OV5640_AEC_CTRL00) (Z.land (snd rd) 0xFB) ;;
      if negb (st =? OV5640_OK) then mret OV5640_ERROR else mret OV5640_OK.

(** [OV5640_EmbeddedSynchroConfig], with the four codes of [*pSyncCodes]. *)
Definition OV5640_EmbeddedSynchroConfig
    (FrameStartCode FrameEndCode LineStartCode LineEndCode : Z) : M Z :=
  st <- ov5640_write_reg (reg2 OV5640_CCIR656_CTRL00) 0x83 ;;
  early <-
    (if st =? OV5640_OK
     then
       st <- ov5640_write_reg (reg2 OV5640_CCIR656_FS) FrameStartCode ;;
       if st =? OV5640_OK
       then
         st <- ov5640_write_reg (reg2 OV5640_CCIR656_FE) FrameEndCode ;;
         if negb (st =? OV5640_OK) then mret (true, OV5640_ERROR)
         else
           st <- ov5640_write_reg (reg2 OV5640_CCIR656_LS) LineStartCode ;;
           if st =? OV5640_OK
           then
             st <- ov5640_write_reg (reg2 OV5640_CCIR656_LE) LineEndCode ;;
             if st =? OV5640_OK
             then
               st <- ov5640_write_reg (reg2 OV5640_656_DUMMY_LINE) 0x01 ;;
               if st =? OV5640_OK then mret (false, OV5640_OK)
               else mret (false, OV5640_ERROR)
             else mret (false, OV5640_ERROR)
           else mret (false, OV5640_ERROR)
       else mret (false, OV5640_ERROR)
     else mret (false, OV5640_ERROR)) ;;
  if (fst early : bool) then mret (snd early)
  else write_chain [(0x4302, 0x2); (0x4306, 0x2); (0x430A, 0x2)] (snd early).

Definition OV5640_ColorbarModeConfig (Cmd : Z) : M Z :=
  if (Cmd =? COLORBAR_MODE_ENABLE) || (Cmd =? COLORBAR_MODE_GRADUALV)
  then
    ret <- ov5640_write_reg (reg OV5640_SDE_CTRL4) 0x40 ;;
    ret <- write_chain [(reg2 OV5640_PRE_ISP_TEST_SETTING1,
                         if Cmd =? COLORBAR_MODE_GRADUALV then 0x8c else 0x80)] ret ;;
    normalise ret
  else
    ret <- ov5640_write_reg (reg OV5640_SDE_CTRL4) 0x10 ;;
    ret <- write_chain [(reg2 OV5640_PRE_ISP_TEST_SETTING1, 0x00)] ret ;;
    normalise ret.

(** The values a clock selects for [OV5640_SC_PLL_CONTRL2] and
    [OV5640_SC_PLL_CONTRL3]: the cases of the [switch], in its order. *)
Definition pclk_values (ClockValue : Z) : Z * Z :=
  if ClockValue =? OV5640_PCLK_7M then (0x38, 0x16)
  else if ClockValue =? OV5640_PCLK_8M then (0x40, 0x16)
  else if ClockValue =? OV5640_PCLK_9M then (0x60, 0x18)
  else if ClockValue =? OV5640_PCLK_12M then (0x60, 0x16)
  else if ClockValue =? OV5640_PCLK_48M then (0x60, 0x03)
  else (0x60, 0x13).

(** [ret = write(CONTRL2); ret += write(CONTRL3);] *)
Definition OV5640_SetPCLK (ClockValue : Z) : M Z :=
  let vs := pclk_values ClockValue in
  ret <- ov5640_write_reg (reg OV5640_SC_PLL_CONTRL2) (fst vs) ;;
  st <- ov5640_write_reg (reg OV5640_SC_PLL_CONTRL3) (snd vs) ;;
  ret <- int32_add ret st ;;
  normalise ret.

(** *** Windows and general-mode initialisation *)

Definition ImageWin_Set_datas (offx offy width height : Z) : list (Z * Z) :=
  let xst := u16 offx in
  let yst := u16 offy in
  let xend := u16 (u16 offx + u16 width - 1) in
  let yend := u16 (u16 offy + u16 height - 1) in
  [(0x3212, 0x03);
   (0x3800, u16 (Z.shiftr xst 8));
   (0x3801, u16 (Z.land xst 0xFF));
   (0x3802, u16 (Z.shiftr yst 8));
   (0x3803, u16 (Z.land yst 0xFF));
   (0x3804, u16 (Z.shiftr xend 8));
   (0x3805, u16 (Z.land xend 0xFF));
   (0x3806, u16 (Z.shiftr yend 8));
   (0x3807, u16 (Z.land yend 0xFF));
   (0x3212, 0x13);
   (0x3212, 0xa3)].

Definition OV5640_ImageWin_Set (offx offy width height : Z) : M Z :=
  write_table_all (ImageWin_Set_datas offx offy width height) OV5640_OK.

Definition ov5640_rgb565_reg_tbl : list (Z * Z) :=
  [
   (0x4300, 0x6F); (0x501F, 0x01); (0x3035, 0x41); (0x3036, 0x69); (0x3C07, 0x07);
   (0x3820, 0x46); (0x3821, 0x00); (0x3814, 0x31); (0x3815, 0x31); (0x3800, 0x00);
   (0x3801, 0x00); (0x3802, 0x00); (0x3803, 0x00); (0x3804, 0x0A); (0x3805, 0x3F);
   (0x3806, 0x06); (0x3807, 0xA9); (0x3808, 0x05); (0x3809, 0x00); (0x380A, 0x02);
   (0x380B, 0xD0); (0x380C, 0x05); (0x380D, 0xF8); (0x380E, 0x03); (0x380F, 0x84);
   (0x3813, 0x04); (0x3618, 0x00); (0x3612, 0x29); (0x3709, 0x52); (0x370C, 0x03);
   (0x3A02, 0x02); (0x3A03, 0xE0); (0x3A14, 0x02); (0x3A15, 0xE0); (0x4004, 0x02);
   (0x3002, 0x1C); (0x3006, 0xC3); (0x4713, 0x03); (0x4407, 0x04); (0x460B, 0x37);
   (0x460C, 0x20); (0x4837, 0x16); (0x3824, 0x04); (0x5001, 0xA3); (0x3503, 0x00)
  ].

Definition ov5640_uxga_init_reg_tbl : list (Z * Z) :=
  [
   (0x3008, 0x42); (0x3103, 0x03); (0x3017, 0xFF); (0x3018, 0xFF); (0x3034, 0x1A);
   (0x3037, 0x13); (0x3108, 0x01); (0x3630, 0x36); (0x3631, 0x0E); (0x3632, 0xE2);
   (0x3633, 0x12); (0x3621, 0xE0); (0x3704, 0xA0); (0x3703, 0x5A); (0x3715, 0x78);
   (0x3717, 0x01); (0x370B, 0x60); (0x3705, 0x1A); (0x3905, 0x02); (0x3906, 0x10);
   (0x3901, 0x0A); (0x3731, 0x12); (0x3600, 0x08); (0x3601, 0x33); (0x302D, 0x60);
   (0x3620, 0x52); (0x371B, 0x20); (0x471C, 0x50); (0x3A13, 0x43); (0x3A18, 0x00);
   (0x3A19, 0xF8); (0x3635, 0x13); (0x3636, 0x03); (0x3634, 0x40); (0x3622, 0x01);
   (0x3C01, 0x34); (0x3C04, 0x28); (0x3C05, 0x98); (0x3C06, 0x00); (0x3C07, 0x08);
   (0x3C08, 0x00); (0x3C09, 0x1C); (0x3C0A, 0x9C); (0x3C0B, 0x40); (0x3810, 0x00);
   (0x3811, 0x10); (0x3812, 0x00); (0x3708, 0x64); (0x4001, 0x02); (0x4005, 0x1A);
   (0x3000, 0x00); (0x3004, 0xFF); (0x300E, 0x58); (0x302E, 0x00); (0x4300, 0x30);
   (0x501F, 0x00); (0x440E, 0x00); (0x5000, 0xA7); (0x3A0F, 0x30); (0x3A10, 0x28);
   (0x3A1B, 0x30); (0x3A1E, 0x26); (0x3A11, 0x60); (0x3A1F, 0x14); (0x5800, 0x23);
   (0x5801, 0x14); (0x5802, 0x0F); (0x5803, 0x0F); (0x5804, 0x12); (0x5805, 0x26);
   (0x5806, 0x0C); (0x5807, 0x08); (0x5808, 0x05); (0x5809, 0x05); (0x580A, 0x08);
   (0x580B, 0x0D); (0x580C, 0x08); (0x580D, 0x03); (0x580E, 0x00); (0x580F, 0x00);
   (0x5810, 0x03); (0x5811, 0x09); (0x5812, 0x07); (0x5813, 0x03); (0x5814, 0x00);
   (0x5815, 0x01); (0x5816, 0x03); (0x5817, 0x08); (0x5818, 0x0D); (0x5819, 0x08);
   (0x581A, 0x05); (0x581B, 0x06); (0x581C, 0x08); (0x581D, 0x0E); (0x581E, 0x29);
   (0x581F, 0x17); (0x5820, 0x11); (0x5821, 0x11); (0x5822, 0x15); (0x5823, 0x28);
   (0x5824, 0x46); (0x5825, 0x26); (0x5826, 0x08); (0x5827, 0x26); (0x5828, 0x64);
   (0x5829, 0x26); (0x582A, 0x24); (0x582B, 0x22); (0x582C, 0x24); (0x582D, 0x24);
   (0x582E, 0x06); (0x582F, 0x22); (0x5830, 0x40); (0x5831, 0x42); (0x5832, 0x24);
   (0x5833, 0x26); (0x5834, 0x24); (0x5835, 0x22); (0x5836, 0x22); (0x5837, 0x26);
   (0x5838, 0x44); (0x5839, 0x24); (0x583A, 0x26); (0x583B, 0x28); (0x583C, 0x42);
   (0x583D, 0xCE); (0x5180, 0xFF); (0x5181, 0xF2); (0x5182, 0x00); (0x5183, 0x14);
   (0x5184, 0x25); (0x5185, 0x24); (0x5186, 0x09); (0x5187, 0x09); (0x5188, 0x09);
   (0x5189, 0x75); (0x518A, 0x54); (0x518B, 0xE0); (0x518C, 0xB2); (0x518D, 0x42);
   (0x518E, 0x3D); (0x518F, 0x56); (0x5190, 0x46); (0x5191, 0xF8); (0x5192, 0x04);
   (0x5193, 0x70); (0x5194, 0xF0); (0x5195, 0xF0); (0x5196, 0x03); (0x5197, 0x01);
   (0x5198, 0x04); (0x5199, 0x12); (0x519A, 0x04); (0x519B, 0x00); (0x519C, 0x06);
   (0x519D, 0x82); (0x519E, 0x38); (0x5480, 0x01); (0x5481, 0x08); (0x5482, 0x14);
   (0x5483, 0x28); (0x5484, 0x51); (0x5485, 0x65); (0x5486, 0x71); (0x5487, 0x7D);
   (0x5488, 0x87); (0x5489, 0x91); (0x548A, 0x9A); (0x548B, 0xAA); (0x548C, 0xB8);
   (0x548D, 0xCD); (0x548E, 0xDD); (0x548F, 0xEA); (0x5490, 0x1D); (0x5381, 0x1E);
   (0x5382, 0x5B); (0x5383, 0x08); (0x5384, 0x0A); (0x5385, 0x7E); (0x5386, 0x88);
   (0x5387, 0x7C); (0x5388, 0x6C); (0x5389, 0x10); (0x538A, 0x01); (0x538B, 0x98);
   (0x5580, 0x06); (0x5583, 0x40); (0x5584, 0x10); (0x5589, 0x10); (0x558A, 0x00);
   (0x558B, 0xF8); (0x501D, 0x40); (0x5300, 0x08); (0x5301, 0x30); (0x5302, 0x10);
   (0x5303, 0x00); (0x5304, 0x08); (0x5305, 0x30); (0x5306, 0x08); (0x5307, 0x16);
   (0x5309, 0x08); (0x530A, 0x30); (0x530B, 0x04); (0x530C, 0x06); (0x5025, 0x00);
   (0x3008, 0x02); (0x4740, 0x21)
  ].

Definition solution_table : list (Z * Z) :=
  [
   (160, 120); (320, 240); (480, 272); (640, 480); (800, 480);
   (800, 600); (1024, 768); (1280, 800); (1440, 900); (1280, 1024);
   (1600, 1200); (1920, 1080); (2048, 1536); (2100, 1575)
  ].

Definition OV5640_RGB565_Mode : M Z :=
  write_table_all ov5640_rgb565_reg_tbl OV5640_OK.

Definition OV5640_Set_Solution_More (solution : Z) : M Z :=
  e <- index solution_table solution ;;
  OV5640_OutSize_Set 4 0 (fst e) (snd e).

(** [OV5640_Init_General_Mode]: the two format branches have the same
    shape and differ in the mode function; [OV5640_Focus_Init] is called at
    the end of each, whatever [ret] holds, and its status is dropped. *)
Definition General_Mode_branch (fuel : nat) (mode : M Z) (Resolution ret : Z) : M Z :=
  st <- mode ;;
  ret <- (if negb (st =? OV5640_OK) then mret OV5640_ERROR
          else
            st <- OV5640_Set_Solution_More Resolution ;;
            if negb (st =? OV5640_OK) then mret OV5640_ERROR
            else
              st <- OV5640_SetPolarities pObj OV5640_POLARITY_PCLK_HIGH
                                         OV5640_POLARITY_HREF_HIGH
                                         OV5640_POLARITY_VSYNC_HIGH ;;
              if negb (st =? OV5640_OK) then mret OV5640_ERROR else mret ret) ;;
  OV5640_Focus_Init fuel ;;;
  mret ret.

Definition OV5640_Init_General_Mode (fuel : nat) (Resolution PixelFormat : Z) : M Z :=
  o <- get_obj ;;
  if IsInitialized o =? 0
  then
    if (Resolution >? OV5640_R2592x1944) ||
       (negb (PixelFormat =? OV5640_RGB565) && negb (PixelFormat =? OV5640_JPEG))
    then mret OV5640_ERROR
    else
      ret <- write_table_guarded (mret tt) ov5640_uxga_init_reg_tbl OV5640_OK ;;
      if ret =? OV5640_OK
      then
        if PixelFormat =? OV5640_RGB565
        then General_Mode_branch fuel OV5640_RGB565_Mode Resolution ret
        else if PixelFormat =? OV5640_JPEG
        then General_Mode_branch fuel OV5640_JPEG_Mode Resolution ret
        else mret ret
      else mret ret
  else mret OV5640_OK.

(** *** Procedural tuning *)

Definition OV5640_SATURATION_TBL : list (list Z) :=
  [[0x0C; 0x30; 0x3D; 0x3E; 0x3D; 0x01];
   [0x10; 0x3D; 0x4D; 0x4E; 0x4D; 0x01];
   [0x15; 0x52; 0x66; 0x68; 0x66; 0x02];
   [0x1A; 0x66; 0x80; 0x82; 0x80; 0x02];
   [0x1F; 0x7A; 0x9A; 0x9C; 0x9A; 0x02];
   [0x24; 0x8F; 0xB3; 0xB6; 0xB3; 0x03];
   [0x2B; 0xAB; 0xD6; 0xDA; 0xD6; 0x04]].

(** [for (i = 0; i < 6; i++) { temp = OV5640_SATURATION_TBL[sat][i];
    write(0x5384, temp); }]: every value goes to the same address. *)
Fixpoint Color_Saturation_loop (n : nat) (sat i : Z) : M unit :=
  match n with
  | O => mret tt
  | S n' =>
      row <- index OV5640_SATURATION_TBL sat ;;
      temp <- index row i ;;
      ov5640_write_reg 0x5384 temp ;;;
      Color_Saturation_loop n' sat (i + 1)
  end.

(** [OV5640_Color_Saturation], with [sat] a [uint8_t]; the statuses of the
    writes are dropped. *)
Definition OV5640_Color_Saturation (sat : Z) : M unit :=
  ov5640_write_reg 0x3212 0x03 ;;;
  ov5640_write_reg 0x5381 0x1c ;;;
  ov5640_write_reg 0x5382 0x5a ;;;
  ov5640_write_reg 0x5383 0x06 ;;;
  Color_Saturation_loop 6 (u8 sat) 0 ;;;
  ov5640_write_reg 0x538b 0x98 ;;;
  ov5640_write_reg 0x538a 0x01 ;;;
  ov5640_write_reg 0x3212 0x13 ;;;
  ov5640_write_reg 0x3212 0xa3 ;;;
  mret tt.

(** The two register values of a contrast level: the cases of the
    [switch]; level 3 and every level without a case keep the initial
    values. *)
Definition contrast_values (contrast : Z) : Z * Z :=
  if contrast =? 0 then (0x14, 0x14)
  else if contrast =? 1 then (0x18, 0x18)
  else if contrast =? 2 then (0x1C, 0x1C)
  else if contrast =? 4 then (0x10, 0x24)
  else if contrast =? 5 then (0x18, 0x28)
  else if contrast =? 6 then (0x1C, 0x2C)
  else (0x00, 0x20).

Definition OV5640_Contrast (contrast : Z) : M unit :=
  let vs := contrast_values (u8 contrast) in
  ov5640_write_reg 0x3212 0x03 ;;;
  ov5640_write_reg 0x5585 (fst vs) ;;;
  ov5640_write_reg 0x5586 (snd vs) ;;;
  ov5640_write_reg 0x3212 0x13 ;;;
  ov5640_write_reg 0x3212 0xa3 ;;;
  mret tt.

Definition OV5640_Sharpness (sharp : Z) : M unit :=
  if u8 sharp <? 33
  then
    ov5640_write_reg 0x5308 0x65 ;;;
    ov5640_write_reg 0x5302 (u8 sharp) ;;;
    mret tt
  else
    ov5640_write_reg 0x5308 0x25 ;;;
    ov5640_write_reg 0x5300 0x08 ;;;
    ov5640_write_reg 0x5301 0x30 ;;;
    ov5640_write_reg 0x5302 0x10 ;;;
    ov5640_write_reg 0x5303 0x00 ;;;
    ov5640_write_reg 0x5309 0x08 ;;;
    ov5640_write_reg 0x530a 0x30 ;;;
    ov5640_write_reg 0x530b 0x04 ;;;
    ov5640_write_reg 0x530c 0x06 ;;;
    mret tt.

Definition OV5640_StartGroup : M unit :=
  ov5640_write_reg 0x3212 0x03 ;;;
  mret tt.

Definition OV5640_UseGroup : M unit :=
  ov5640_write_reg 0x3212 0x13 ;;;
  ov5640_write_reg 0x3212 0xa3 ;;;
  mret tt.
End DriverMore.

(** ** A concrete second header *)

Definition sample_reg2 (r : RegName2) : Z :=
  match r with
  | OV5640_CHIP_ID_HIGH_BYTE => 0x300A
  | OV5640_CHIP_ID_LOW_BYTE => 0x300B
  | OV5640_PAD_SELECT01 => 0x301D
  | OV5640_PAD_SELECT02 => 0x301E
  | OV5640_SC_PLL_CONTRL4 => 0x3038
  | OV5640_SC_PLL_CONTRL5 => 0x3039
  | OV5640_AWB_R_GAIN_MSB => 0x3400
  | OV5640_AWB_R_GAIN_LSB => 0x3401
  | OV5640_AWB_G_GAIN_MSB => 0x3402
  | OV5640_AWB_G_GAIN_LSB => 0x3403
  | OV5640_AWB_B_GAIN_MSB => 0x3404
  | OV5640_AWB_B_GAIN_LSB => 0x3405
  | OV5640_AWB_MANUAL_CONTROL => 0x3406
  | OV5640_AEC_CTRL00 => 0x3A00
  | OV5640_656_DUMMY_LINE => 0x4720
  | OV5640_CCIR656_CTRL00 => 0x4730
  | OV5640_CCIR656_FS => 0x4732
  | OV5640_CCIR656_FE => 0x4733
  | OV5640_CCIR656_LS => 0x4734
  | OV5640_CCIR656_LE => 0x4735
  | OV5640_PRE_ISP_TEST_SETTING1 => 0x503D
  | OV5640_SCALE_CTRL0 => 0x5600
  | OV5640_SCALE_CTRL1 => 0x5601
  end.

Definition sample_header_more : HeaderMore :=
  {| reg2 := sample_reg2;
     OV5640_R2592x1944 := 13;
     OV5640_LIGHT_AUTO := 0;
     OV5640_LIGHT_SUNNY := 1;
     OV5640_LIGHT_OFFICE := 2;
     OV5640_LIGHT_HOME := 4;
     OV5640_LIGHT_CLOUDY := 8;
     OV5640_COLOR_EFFECT_NONE := 0;
     OV5640_COLOR_EFFECT_BLUE := 1;
     OV5640_COLOR_EFFECT_RED := 2;
     OV5640_COLOR_EFFECT_GREEN := 4;
     OV5640_COLOR_EFFECT_BW := 8;
     OV5640_COLOR_EFFECT_SEPIA := 16;
     OV5640_COLOR_EFFECT_NEGATIVE := 32;
     OV5640_ZOOM_x1 := 0x44;
     NIGHT_MODE_ENABLE := 1;
     COLORBAR_MODE_ENABLE := 1;
     COLORBAR_MODE_GRADUALV := 2;
     OV5640_PCLK_7M := 0;
     OV5640_PCLK_8M := 1;
     OV5640_PCLK_9M := 2;
     OV5640_PCLK_12M := 4;
     OV5640_PCLK_24M := 8;
     OV5640_PCLK_48M := 9 |}.

(** A bus that fails every write with [first], then [second], then
    [first] again and so on; the environment counts the writes. *)
Definition alternating_io {hdr : Header} (first second : Z) : OV5640_IO_t nat :=
  {| IO_Init := Some (fun n => (OV5640_OK, n));
     IO_DeInit := Some (fun n => (OV5640_OK, n));
     IO_Address := 0x78;
     IO_WriteReg := fun _ _ _ n => (if Nat.even n then first else second, S n);
     IO_ReadReg := fun _ _ buf n => ((OV5640_OK, buf), n);
     IO_GetTick := fun n => (0, n) |}.

(** A bus binding of which the [Init] pointer is null. *)
Definition no_init_io {hdr : Header} : OV5640_IO_t Sensor :=
  {| IO_Init := None;
     IO_DeInit := None;
     IO_Address := 0x78;
     IO_WriteReg := fun _ r d s => (OV5640_OK, store s r d);
     IO_ReadReg := fun _ r _ s => ((OV5640_OK, regs s r), s);
     IO_GetTick := tick |}.

(** A register file whose output-size registers hold 640x480, and whose
    tick is two below the 32-bit wrap. *)
Definition vga_sensor : Sensor :=
  {| regs := fun a => if a =? 0x3808 then 0x02 else if a =? 0x3809 then 0x80
                      else if a =? 0x380A then 0x01 else if a =? 0x380B then 0xE0
                      else 0;
     ticks := 4294967294 |}.

Definition vga_world : World Sensor :=
  world0 (regfile_io (hdr := sample_header)) vga_sensor.

(** A handle that [OV5640_Init] has marked as initialised. *)
Definition initialised_world : World Sensor :=
  {| obj := {| IO := regfile_io (hdr := sample_header);
               IsInitialized := 1; Mode := 0; VirtualChannelID := 0;
               bright := 0x01; saturation := 0x41; contrast := 0x41;
               huedegree := 0x32 |};
     env := blank; trace := [] |}.

(** ** More vocabulary *)

Section VocabularyMore.
Context {B : Type} {hdr : Header} {hdr2 : HeaderMore} {rtos : RTOS B}.

(** The status of a bus transaction in the log. *)
Definition status_of (e : Event) : Z :=
  match e with
  | EvWrite _ _ st => st
  | EvRead _ st _ => st
  | EvDelay _ => OV5640_OK
  end.

(** The status of the last transaction of a log; [OV5640_OK] when the log
    is empty. *)
Definition last_status (evs : list Event) : Z :=
  last (map status_of evs) OV5640_OK.

(** Between [w] and [w'] the log has grown, and when [b] holds every
    transaction that was added succeeded. *)
Definition log_ok (b : Prop) (w w' : World B) : Prop :=
  exists evs,
    trace w' = trace w ++ evs /\
    (b -> Forall (fun e => status_of e = OV5640_OK) evs).

(** [m] tells failures: whenever it returns, the log has grown, and it
    returns [OV5640_OK] only if every transaction it issued succeeded. *)
Definition tells_failures (m : M B Z) : Prop :=
  forall w r w', m w = Ret r w' -> log_ok (r = OV5640_OK) w w'.

(** [if (ret != OV5640_OK) ret = OV5640_ERROR], as a function. *)
Definition normalised (st : Z) : Z :=
  if st =? OV5640_OK then OV5640_OK else OV5640_ERROR.

(** The log of a table each of whose writes succeeds. *)
Definition ok_writes (tbl : list (Z * Z)) : list Event :=
  map (fun e => EvWrite (u16 (fst e)) (u8 (snd e)) OV5640_OK) tbl.

(** The log of a table written with the statuses [sts], entry by entry. *)
Fixpoint writes_with (tbl : list (Z * Z)) (sts : list Z) : list Event :=
  match tbl, sts with
  | (r, v) :: tbl', st :: sts' => EvWrite (u16 r) (u8 v) st :: writes_with tbl' sts'
  | _, _ => []
  end.

(** The size that the four output-size registers of a sensor hold. *)
Definition sensor_size (s : Sensor) : Z * Z :=
  (u16 (Z.lor (u16 (Z.shiftl (u8 (regs s (u16 (reg OV5640_TIMING_DVPHO_HIGH)))) 8))
              (u8 (regs s (u16 (reg OV5640_TIMING_DVPHO_LOW))))),
   u16 (Z.lor (u16 (Z.shiftl (u8 (regs s (u16 (reg OV5640_TIMING_DVPVO_HIGH)))) 8))
              (u8 (regs s (u16 (reg OV5640_TIMING_DVPVO_LOW)))))).

(** The size in pixels that a resolution code of [OV5640_GetResolution]
    stands for. *)
Definition size_of_resolution (Resolution : Z) : option (Z * Z) :=
  if Resolution =? OV5640_R800x480 then Some (800, 480)
  else if Resolution =? OV5640_R640x480 then Some (640, 480)
  else if Resolution =? OV5640_R480x272 then Some (480, 272)
  else if Resolution =? OV5640_R320x240 then Some (320, 240)
  else if Resolution =? OV5640_R160x120 then Some (160, 120)
  else None.

(** The five resolution codes are pairwise different, and so are the four
    addresses of the output-size registers. *)
Definition resolutions_distinct : Prop :=
  NoDup [OV5640_R160x120; OV5640_R320x240; OV5640_R480x272;
         OV5640_R640x480; OV5640_R800x480].

Definition size_registers_distinct : Prop :=
  NoDup [u16 (reg OV5640_TIMING_DVPHO_HIGH); u16 (reg OV5640_TIMING_DVPHO_LOW);
         u16 (reg OV5640_TIMING_DVPVO_HIGH); u16 (reg OV5640_TIMING_DVPVO_LOW)].

(** [m] touches nothing but the bus: it writes the entries of [tbl] in
    order, up to and including the first write that fails, and returns [f]
    of the status of the last write it issued. *)
Definition writes_until_failure (m : M B Z) (tbl : list (Z * Z)) (f : Z -> Z) : Prop :=
  forall w, exists r w' evs,
    m w = Ret r w' /\
    obj w' = obj w /\
    trace w' = trace w ++ evs /\
    stops_at_failure tbl evs /\
    r = f (last_status evs).

(** The nine writes of [OV5640_EmbeddedSynchroConfig], in program order. *)
Definition EmbeddedSynchro_writes (FS FE LS LE : Z) : list (Z * Z) :=
  [(reg2 OV5640_CCIR656_CTRL00, 0x83);
   (reg2 OV5640_CCIR656_FS, FS);
   (reg2 OV5640_CCIR656_FE, FE);
   (reg2 OV5640_CCIR656_LS, LS);
   (reg2 OV5640_CCIR656_LE, LE);
   (reg2 OV5640_656_DUMMY_LINE, 0x01);
   (0x4302, 0x2); (0x4306, 0x2); (0x430A, 0x2)].
End VocabularyMore.

(** * Properties *)

(** ** Machine integers *)

Lemma u8_land (x : Z) : u8 x = Z.land x 255.
Proof. unfold u8. change 255 with (Z.ones 8). now rewrite Z.land_ones. Qed.

Lemma u8_small (x : Z) : 0 <= x < 256 -> u8 x = x.
Proof. intros H. unfold u8. now apply Z.mod_small. Qed.

Lemma u8_range (x : Z) : 0 <= u8 x < 256.
Proof. unfold u8. apply Z.mod_pos_bound. lia. Qed.

Lemma u8_idem (x : Z) : u8 (u8 x) = u8 x.
Proof. apply u8_small, u8_range. Qed.

Lemma u8_lor (a b : Z) : u8 (Z.lor a b) = Z.lor (u8 a) (u8 b).
Proof. rewrite !u8_land. apply Z.land_lor_distr_l. Qed.

Lemma u8_u32 (x : Z) : u8 (u32 x) = u8 x.
Proof.
  unfold u8, u32. apply Z.mod_mod_divide.
  exists 16777216. reflexivity.
Qed.

Lemma lor_byte (a b : Z) : 0 <= a < 256 -> 0 <= b < 256 -> 0 <= Z.lor a b < 256.
Proof.
  intros Ha Hb.
  rewrite <- (u8_small a Ha), <- (u8_small b Hb), <- u8_lor.
  apply u8_range.
Qed.

Section Proofs.
Context {B : Type} {hdr : Header} {rtos : RTOS B}.

Implicit Types (w : World B) (o : OV5640_Object_t B).

Local Abbreviation bus_only m := (bus_only (B := B) m).
Local Abbreviation returns io m := (returns (B := B) io m).

(** ** One bus transaction *)

Lemma write_reg_run (r d : Z) w :
  exists st e,
    IO_WriteReg (IO (obj w)) (IO_Address (IO (obj w))) (u16 r) (u8 d) (env w) = (st, e) /\
    ov5640_write_reg r d w =
      Ret st {| obj := obj w; env := e;
                trace := trace w ++ [EvWrite (u16 r) (u8 d) st] |}.
Proof.
  unfold ov5640_write_reg, OV5640_WriteRegWrap.
  destruct (IO_WriteReg _ _ _ _ _) as [st e].
  now exists st, e.
Qed.

Lemma read_reg_run (r buf : Z) w :
  exists st d e,
    IO_ReadReg (IO (obj w)) (IO_Address (IO (obj w))) (u16 r) (u8 buf) (env w) = (st, d, e) /\
    ov5640_read_reg r buf w =
      Ret (st, u8 d) {| obj := obj w; env := e;
                        trace := trace w ++ [EvRead (u16 r) st (u8 d)] |}.
Proof.
  unfold ov5640_read_reg, OV5640_ReadRegWrap.
  destruct (IO_ReadReg _ _ _ _ _) as [[st d] e].
  now exists st, d, e.
Qed.

Lemma writes_of_app (t1 t2 : list Event) :
  writes_of (t1 ++ t2) = writes_of t1 ++ writes_of t2.
Proof.
  induction t1 as [|[r d s|r s d|ms] t1 IH]; simpl; auto.
  now rewrite IH.
Qed.

Lemma reads_of_app (t1 t2 : list Event) :
  reads_of (t1 ++ t2) = reads_of t1 ++ reads_of t2.
Proof.
  induction t1 as [|[r d s|r s d|ms] t1 IH]; simpl; auto.
  now rewrite IH.
Qed.

(** ** Polarities *)

Lemma polarities_rejected_true (p : ObjPtr) (P H V : Z) :
  p = NULL \/
  (P <> OV5640_POLARITY_PCLK_LOW /\ P <> OV5640_POLARITY_PCLK_HIGH) \/
  (H <> OV5640_POLARITY_HREF_LOW /\ H <> OV5640_POLARITY_HREF_HIGH) \/
  (V <> OV5640_POLARITY_VSYNC_LOW /\ V <> OV5640_POLARITY_VSYNC_HIGH) ->
  polarities_rejected p P H V = true.
Proof.
  unfold polarities_rejected.
  intros [-> | [[H1 H2] | [[H1 H2] | [H1 H2]]]]; simpl; auto;
    apply Z.eqb_neq in H1, H2; rewrite H1, H2; simpl;
    repeat rewrite orb_true_r; auto.
Qed.

Lemma polarities_rejected_false (p : ObjPtr) (P H V : Z) :
  p = pObj ->
  P = OV5640_POLARITY_PCLK_LOW \/ P = OV5640_POLARITY_PCLK_HIGH ->
  H = OV5640_POLARITY_HREF_LOW \/ H = OV5640_POLARITY_HREF_HIGH ->
  V = OV5640_POLARITY_VSYNC_LOW \/ V = OV5640_POLARITY_VSYNC_HIGH ->
  polarities_rejected p P H V = false.
Proof.
  unfold polarities_rejected.
  intros -> HP HH HV. simpl.
  assert (E : forall x a b, x = a \/ x = b -> negb (x =? a) && negb (x =? b) = false).
  { intros x a b [-> | ->]; rewrite Z.eqb_refl; simpl; auto using andb_false_r. }
  now rewrite (E _ _ _ HP), (E _ _ _ HH), (E _ _ _ HV).
Qed.

Lemma polarity_byte (P H V : Z) :
  u8 (u8 (Z.lor (Z.lor (u8 (u32 (Z.shiftl P 5))) (u32 (Z.shiftl H 1))) V)) =
  u8 (Z.lor (Z.lor (Z.shiftl P 5) (Z.shiftl H 1)) V).
Proof. now rewrite u8_idem, !u8_lor, u8_idem, !u8_u32. Qed.

(** C9.  [OV5640_SetPolarities] returns [OV5640_ERROR] and leaves the
    world as it was, without any bus transaction, when the handle is null
    or one of the three arguments is neither of the two values accepted for
    its axis.  For accepted arguments it issues exactly one bus write, of the
    byte [(PclkPolarity << 5) | (HrefPolarity << 1) | VsyncPolarity] to
    [OV5640_POLARITY_CTRL], and reports whether that write succeeded; for
    polarity values 0 and 1 the byte is that expression with no
    truncation. *)
Theorem SetPolarities_validates_then_writes_one_byte
    (p : ObjPtr) (P H V : Z) w :
  (p = NULL \/
   (P <> OV5640_POLARITY_PCLK_LOW /\ P <> OV5640_POLARITY_PCLK_HIGH) \/
   (H <> OV5640_POLARITY_HREF_LOW /\ H <> OV5640_POLARITY_HREF_HIGH) \/
   (V <> OV5640_POLARITY_VSYNC_LOW /\ V <> OV5640_POLARITY_VSYNC_HIGH) ->
   OV5640_SetPolarities p P H V w = Ret OV5640_ERROR w) /\
  (p = pObj ->
   P = OV5640_POLARITY_PCLK_LOW \/ P = OV5640_POLARITY_PCLK_HIGH ->
   H = OV5640_POLARITY_HREF_LOW \/ H = OV5640_POLARITY_HREF_HIGH ->
   V = OV5640_POLARITY_VSYNC_LOW \/ V = OV5640_POLARITY_VSYNC_HIGH ->
   let byte := u8 (Z.lor (Z.lor (Z.shiftl P 5) (Z.shiftl H 1)) V) in
   (0 <= P <= 1 -> 0 <= H <= 1 -> 0 <= V <= 1 ->
    byte = Z.lor (Z.lor (Z.shiftl P 5) (Z.shiftl H 1)) V) /\
   exists st e,
     IO_WriteReg (IO (obj w)) (IO_Address (IO (obj w)))
                 (u16 (reg OV5640_POLARITY_CTRL)) byte (env w) = (st, e) /\
     OV5640_SetPolarities p P H V w =
       Ret (if st =? OV5640_OK then OV5640_OK else OV5640_ERROR)
           {| obj := obj w; env := e;
              trace := trace w ++ [EvWrite (u16 (reg OV5640_POLARITY_CTRL)) byte st] |}).
Proof.
  split.
  - intros Hbad. unfold OV5640_SetPolarities.
    now rewrite (polarities_rejected_true _ _ _ _ Hbad).
  - intros Hp HP HH HV byte. split.
    + intros RP RH RV. subst byte.
      assert (P = 0 \/ P = 1) as [-> | ->] by lia;
        assert (H = 0 \/ H = 1) as [-> | ->] by lia;
        assert (V = 0 \/ V = 1) as [-> | ->] by lia; reflexivity.
    + unfold OV5640_SetPolarities.
      rewrite (polarities_rejected_false _ _ _ _ Hp HP HH HV).
      unfold bind.
      destruct (write_reg_run (reg OV5640_POLARITY_CTRL)
                  (u8 (Z.lor (Z.lor (u8 (u32 (Z.shiftl P 5))) (u32 (Z.shiftl H 1))) V)) w)
        as (st & e & Hio & Hrun).
      rewrite polarity_byte in Hio, Hrun. fold byte in Hio, Hrun.
      exists st, e. split; [exact Hio|].
      rewrite Hrun. unfold mret.
      now destruct (st =? OV5640_OK).
Qed.

(** ** Non-blocking autofocus triggers *)

(** C10.  [OV5640_Focus_Send_Single], [OV5640_Focus_Send_Constant_IDLE]
    and [OV5640_Focus_Send_Constant_Focus] return [OV5640_OK] on every bus
    and in every state: the status of their trigger writes, which the log
    shows were issued, never reaches the caller. *)
Theorem Focus_Send_always_OK w :
  (exists w',
      OV5640_Focus_Send_Single w = Ret OV5640_OK w' /\
      writes_of (trace w') = writes_of (trace w) ++ [(0x3022, 0x03)]) /\
  (exists w',
      OV5640_Focus_Send_Constant_IDLE w = Ret OV5640_OK w' /\
      writes_of (trace w') = writes_of (trace w) ++ [(0x3023, 0x01); (0x3022, 0x08)]) /\
  (exists w',
      OV5640_Focus_Send_Constant_Focus w = Ret OV5640_OK w' /\
      writes_of (trace w') = writes_of (trace w) ++ [(0x3023, 0x01); (0x3022, 0x04)]).
Proof.
  unfold OV5640_Focus_Send_Single, OV5640_Focus_Send_Constant_IDLE,
    OV5640_Focus_Send_Constant_Focus, bind, mret.
  repeat split.
  - destruct (write_reg_run 0x3022 0x03 w) as (st & e & _ & ->).
    eexists; split; [reflexivity|]. simpl. now rewrite writes_of_app.
  - destruct (write_reg_run 0x3023 0x01 w) as (st & e & _ & ->).
    match goal with |- context [ov5640_write_reg _ _ ?w1] =>
      destruct (write_reg_run 0x3022 0x08 w1) as (st' & e' & _ & ->) end.
    eexists; split; [reflexivity|]. simpl.
    now rewrite !writes_of_app, <- app_assoc.
  - destruct (write_reg_run 0x3023 0x01 w) as (st & e & _ & ->).
    match goal with |- context [ov5640_write_reg _ _ ?w1] =>
      destruct (write_reg_run 0x3022 0x04 w1) as (st' & e' & _ & ->) end.
    eexists; split; [reflexivity|]. simpl.
    now rewrite !writes_of_app, <- app_assoc.
Qed.

(** ** Computations that only talk to the bus *)

Lemma after_bus_refl w : after_bus w w.
Proof. split; [reflexivity|]. exists []. now rewrite app_nil_r. Qed.

Lemma after_bus_trans w1 w2 w3 :
  after_bus w1 w2 -> after_bus w2 w3 -> after_bus w1 w3.
Proof.
  intros [Ho1 [ev1 Ht1]] [Ho2 [ev2 Ht2]]. split.
  - congruence.
  - exists (ev1 ++ ev2). now rewrite Ht2, Ht1, app_assoc.
Qed.

Lemma bus_only_mret {A : Type} (a : A) : bus_only (mret a).
Proof. intros w. apply after_bus_refl. Qed.

Lemma bus_only_undefined {A : Type} : bus_only (@undefined B A).
Proof. intros w. apply after_bus_refl. Qed.

Lemma bus_only_diverge {A : Type} : bus_only (@diverge B A).
Proof. intros w. apply after_bus_refl. Qed.

Lemma bus_only_bind {A C : Type} (m : M B A) (k : A -> M B C) :
  bus_only m -> (forall a, bus_only (k a)) -> bus_only (bind m k).
Proof.
  intros Hm Hk w. unfold bind.
  specialize (Hm w). destruct (m w) as [a w1|w1|w1]; simpl in *; auto.
  eapply after_bus_trans; [exact Hm|apply Hk].
Qed.

Lemma bus_only_if {A : Type} (b : bool) (m1 m2 : M B A) :
  bus_only m1 -> bus_only m2 -> bus_only (if b then m1 else m2).
Proof. now destruct b. Qed.

Lemma bus_only_get_obj : bus_only get_obj.
Proof. intros w. apply after_bus_refl. Qed.

Lemma bus_only_write (r d : Z) : bus_only (ov5640_write_reg r d).
Proof.
  intros w. destruct (write_reg_run r d w) as (st & e & _ & ->).
  split; simpl; eauto.
Qed.

Lemma bus_only_read (r buf : Z) : bus_only (ov5640_read_reg r buf).
Proof.
  intros w. destruct (read_reg_run r buf w) as (st & d & e & _ & ->).
  split; simpl; eauto.
Qed.

Lemma bus_only_GetTick : bus_only GetTick.
Proof.
  intros w. unfold GetTick. destruct (IO_GetTick _ _) as [t e].
  split; simpl; auto. exists []. now rewrite app_nil_r.
Qed.

Lemma bus_only_vTaskDelay_ms (ms : Z) : bus_only (vTaskDelay_ms ms).
Proof. intros w. split; simpl; eauto. Qed.

Lemma bus_only_index {A : Type} (tbl : list A) (i : Z) : bus_only (index tbl i).
Proof.
  intros w. unfold index.
  destruct (_ && _); [destruct (nth_error _ _)|]; apply after_bus_refl.
Qed.

Lemma bus_only_Delay_wait (fuel : nat) (tickstart Delay : Z) :
  bus_only (Delay_wait fuel tickstart Delay).
Proof.
  induction fuel as [|fuel IH]; simpl.
  - apply bus_only_diverge.
  - apply bus_only_bind; [apply bus_only_GetTick|intro t].
    apply bus_only_if; [exact IH|apply bus_only_mret].
Qed.

Lemma bus_only_Delay (fuel : nat) (Delay : Z) : bus_only (OV5640_Delay fuel Delay).
Proof.
  unfold OV5640_Delay.
  apply bus_only_bind; [apply bus_only_GetTick|intro t].
  apply bus_only_bind; [apply bus_only_Delay_wait|intro u].
  apply bus_only_mret.
Qed.

Ltac bus_only_step :=
  first [ apply bus_only_mret
        | apply bus_only_write
        | apply bus_only_read
        | apply bus_only_Delay
        | apply bus_only_vTaskDelay_ms
        | apply bus_only_index
        | apply bus_only_get_obj
        | apply bus_only_diverge
        | apply bus_only_undefined
        | assumption
        | apply bus_only_if
        | apply bus_only_bind; [|intro] ].

Ltac bus_only_tac := cbv zeta; repeat bus_only_step.

Lemma bus_only_write_table_guarded (after : M B unit) (tbl : list (Z * Z)) :
  bus_only after -> forall ret, bus_only (write_table_guarded after tbl ret).
Proof.
  intros Hafter. induction tbl as [|[r v] tbl IH]; intros ret; simpl;
    bus_only_tac; apply IH.
Qed.

Lemma bus_only_write_table_break (tbl : list (Z * Z)) (ret : Z) :
  bus_only (write_table_break tbl ret).
Proof. induction tbl as [|[r v] tbl IH]; simpl; bus_only_tac. Qed.

Lemma bus_only_write_table_all (tbl : list (Z * Z)) :
  forall ret, bus_only (write_table_all tbl ret).
Proof.
  induction tbl as [|[r v] tbl IH]; intros ret; simpl; bus_only_tac; apply IH.
Qed.

Lemma bus_only_EnableDVPMode : bus_only OV5640_EnableDVPMode.
Proof. apply bus_only_write_table_break. Qed.

Lemma bus_only_EnableMIPIMode : bus_only OV5640_EnableMIPIMode.
Proof. apply bus_only_write_table_break. Qed.

Lemma bus_only_SetMIPIVirtualChannel (vchannel : Z) :
  bus_only (OV5640_SetMIPIVirtualChannel vchannel).
Proof. unfold OV5640_SetMIPIVirtualChannel. bus_only_tac. Qed.

Lemma bus_only_SetResolution (Resolution : Z) :
  bus_only (OV5640_SetResolution Resolution).
Proof.
  unfold OV5640_SetResolution. bus_only_tac;
    apply bus_only_write_table_guarded; apply bus_only_mret.
Qed.

Lemma bus_only_write_table_guarded_tmp (after : M B unit) (tbl : list (Z * Z)) :
  bus_only after -> forall ret tmp, bus_only (write_table_guarded_tmp after tbl ret tmp).
Proof.
  intros Hafter. induction tbl as [|[r v] tbl IH]; intros ret tmp; simpl;
    bus_only_tac; apply IH.
Qed.

Lemma bus_only_SetPixelFormat (fuel : nat) (PixelFormat : Z) :
  bus_only (OV5640_SetPixelFormat fuel PixelFormat).
Proof.
  assert (Hd : bus_only (OV5640_Delay fuel 1 ;;; mret tt)).
  { bus_only_tac. }
  unfold OV5640_SetPixelFormat, SetPixelFormat_jpeg_patch. bus_only_tac;
    apply bus_only_write_table_guarded_tmp; exact Hd.
Qed.

Lemma bus_only_SetPolarities (p : ObjPtr) (P H V : Z) :
  bus_only (OV5640_SetPolarities p P H V).
Proof. unfold OV5640_SetPolarities. bus_only_tac. Qed.

(** ** Results of computations *)

Lemma post_mret {A : Type} (a : A) w (Q : A -> World B -> Prop) :
  Q a w -> post (mret a) w Q.
Proof. intros HQ a' w' E. inversion E; subst. exact HQ. Qed.

Lemma post_bind {A C : Type} (m : M B A) (k : A -> M B C) w
      (Q1 : A -> World B -> Prop) (Q : C -> World B -> Prop) :
  post m w Q1 ->
  (forall a w1, Q1 a w1 -> post (k a) w1 Q) ->
  post (bind m k) w Q.
Proof.
  intros Hm Hk c w' E. unfold bind in E.
  destruct (m w) as [a w1|w1|w1] eqn:Em; try discriminate.
  exact (Hk a w1 (Hm a w1 Em) c w' E).
Qed.

Lemma post_bus_only {A : Type} (m : M B A) w :
  bus_only m -> post m w (fun _ w' => after_bus w w').
Proof. intros Hm a w' E. specialize (Hm w). now rewrite E in Hm. Qed.

Lemma post_weaken {A : Type} (m : M B A) w (Q Q' : A -> World B -> Prop) :
  post m w Q -> (forall a w', Q a w' -> Q' a w') -> post m w Q'.
Proof. intros Hm HQ a w' E. apply HQ, Hm, E. Qed.

(** ** Computations that return *)

Lemma returns_mret {A : Type} io (a : A) : returns io (mret a).
Proof. intros w _. now exists a, w. Qed.

Lemma returns_bind {A C : Type} io (m : M B A) (k : A -> M B C) :
  bus_only m -> returns io m -> (forall a, returns io (k a)) ->
  returns io (bind m k).
Proof.
  intros Hb Hm Hk w Hio. unfold bind.
  destruct (Hm w Hio) as (a & w1 & E).
  specialize (Hb w). rewrite E in *. simpl in Hb.
  apply Hk. destruct Hb as [Ho _]. now rewrite Ho.
Qed.

Lemma returns_if {A : Type} io (b : bool) (m1 m2 : M B A) :
  returns io m1 -> returns io m2 -> returns io (if b then m1 else m2).
Proof. now destruct b. Qed.

Lemma returns_write io (r d : Z) : returns io (ov5640_write_reg r d).
Proof. intros w _. destruct (write_reg_run r d w) as (st & e & _ & ->). eauto. Qed.

Lemma returns_read io (r buf : Z) : returns io (ov5640_read_reg r buf).
Proof.
  intros w _. destruct (read_reg_run r buf w) as (st & d & e & _ & ->). eauto.
Qed.

Ltac returns_step :=
  first [ apply returns_mret
        | apply returns_write
        | apply returns_read
        | assumption
        | apply returns_if
        | apply returns_bind; [bus_only_tac | |intro] ].

Ltac returns_tac := cbv zeta; repeat returns_step.


Lemma returns_write_table_break io (tbl : list (Z * Z)) (ret : Z) :
  returns io (write_table_break tbl ret).
Proof. induction tbl as [|[r v] tbl IH]; simpl; returns_tac. Qed.

Lemma returns_SetMIPIVirtualChannel io (vchannel : Z) :
  returns io (OV5640_SetMIPIVirtualChannel vchannel).
Proof. unfold OV5640_SetMIPIVirtualChannel. returns_tac. Qed.





(** ** Initialisation *)

Lemma post_and {A : Type} (m : M B A) w (Q1 Q2 : A -> World B -> Prop) :
  post m w Q1 -> post m w Q2 -> post m w (fun a w' => Q1 a w' /\ Q2 a w').
Proof. intros H1 H2 a w' E. split; [apply H1|apply H2]; exact E. Qed.

Lemma post_if {A : Type} (b : bool) (m1 m2 : M B A) w (Q : A -> World B -> Prop) :
  (b = true -> post m1 w Q) -> (b = false -> post m2 w Q) ->
  post (if b then m1 else m2) w Q.
Proof. destruct b; auto. Qed.

Lemma post_any {A : Type} (m : M B A) w : post m w (fun _ _ => True).
Proof. intros a w' _. exact I. Qed.

Lemma wrote_first_after (a d : Z) w w1 w2 :
  wrote_first a d w w1 -> after_bus w1 w2 -> wrote_first a d w w2.
Proof.
  intros (st & evs & Ht) [_ [evs' Ht']].
  exists st, (evs ++ evs'). now rewrite Ht', Ht, <- app_assoc.
Qed.

(** A guarded table loop ends with the status it started with or with
    [OV5640_ERROR]. *)
Lemma write_table_guarded_status (after : M B unit) (tbl : list (Z * Z)) :
  forall ret w,
    post (write_table_guarded after tbl ret) w
         (fun r _ => r = ret \/ r = OV5640_ERROR).
Proof.
  induction tbl as [|[r v] tbl IH]; intros ret w; simpl.
  - apply post_mret. now left.
  - apply post_if; intros _; [|apply IH].
    eapply post_bind; [apply post_any|]. intros st w1 _.
    apply post_if; intros _.
    + eapply post_weaken; [apply IH|]. cbv beta. intros a _ [->| ->]; now right.
    + eapply post_bind; [apply post_any|]. intros [] w2 _. apply IH.
Qed.

(** On a header that tells success from failure, a guarded loop that starts
    with [OV5640_OK] issues the write of its first entry. *)
Lemma write_table_guarded_first (after : M B unit) (r v : Z) (tbl : list (Z * Z)) w :
  OV5640_OK <> OV5640_ERROR ->
  bus_only after ->
  post (write_table_guarded after ((r, v) :: tbl) OV5640_OK) w
       (fun _ w1 => obj w1 = obj w /\ wrote_first (u16 r) (u8 v) w w1).
Proof.
  intros Hne Hafter. simpl.
  apply Z.eqb_neq in Hne. rewrite Hne. simpl negb. cbv iota.
  intros a w' E. unfold bind at 1 in E.
  destruct (write_reg_run r v w) as (st & e & _ & Hrun).
  rewrite Hrun in E.
  match type of E with ?k ?w1 = _ =>
    assert (Hb : after_bus w1 w') end.
  { match type of E with ?m ?w1 = _ =>
      assert (Hm : bus_only m) end.
    { bus_only_tac; apply bus_only_write_table_guarded; exact Hafter. }
    match type of E with ?m ?w1 = _ => specialize (Hm w1) end.
    now rewrite E in Hm. }
  destruct Hb as [Ho [evs Ht]]. simpl in Ho, Ht. split; [exact Ho|].
  exists st, evs. now rewrite Ht, <- app_assoc.
Qed.

(** What [OV5640_Init] leaves behind on a handle that was not initialised:
    either [OV5640_OK], the flag set and the common table started, or
    [OV5640_ERROR] and the handle as it was. *)
Lemma Init_post (fuel : nat) (Resolution PixelFormat : Z) w :
  OV5640_OK <> OV5640_ERROR ->
  IsInitialized (obj w) = 0 ->
  post (OV5640_Init fuel Resolution PixelFormat) w
       (fun r w' =>
          (r = OV5640_OK /\ IsInitialized (obj w') = 1 /\
           wrote_first (u16 (reg OV5640_SCCB_SYSTEM_CTRL1)) 0x11 w w') \/
          (r = OV5640_ERROR /\ obj w' = obj w)).
Proof.
  intros Hne H0. unfold OV5640_Init.
  eapply post_bind with (Q1 := fun o w1 => o = obj w /\ w1 = w).
  { intros o w1 E. unfold get_obj in E. inversion E; auto. }
  intros o w0 [-> ->]. rewrite H0. change (0 =? 0) with true. cbv iota.
  apply post_if; intros _; [apply post_mret; now right|].
  eapply post_bind.
  { apply post_and.
    - unfold OV5640_Common.
      apply (write_table_guarded_first (mret tt)); [exact Hne|apply bus_only_mret].
    - apply write_table_guarded_status. }
  cbv beta. intros ret1 w1 [[Ho1 Hw1] Hr1].
  eapply post_bind.
  { apply post_and.
    - apply post_bus_only. bus_only_tac.
    - instantiate (1 := fun r _ => r = OV5640_OK \/ r = OV5640_ERROR).
      apply post_if; intros E1; [|apply post_mret; exact Hr1].
      apply post_if; intros _.
      + eapply post_bind; [apply post_any|]. intros st w2 _.
        apply post_if; intros _; [apply post_mret; now right|].
        eapply post_bind; [apply post_any|]. intros st' w3 _.
        apply post_if; intros _; apply post_mret; [now right|exact Hr1].
      + eapply post_bind; [apply post_any|]. intros st w2 _.
        apply post_if; intros _; apply post_mret; [now right|now left]. }
  cbv beta. intros ret2 w2 [Hb2 Hr2].
  assert (Ho2 : obj w2 = obj w) by (destruct Hb2; congruence).
  assert (Hw2 : wrote_first (u16 (reg OV5640_SCCB_SYSTEM_CTRL1)) 0x11 w w2)
    by (eapply wrote_first_after; eauto).
  apply post_if; intros E2.
  2:{ apply post_mret. right. split; [|exact Ho2].
      destruct Hr2 as [->|]; [|assumption].
      now rewrite Z.eqb_refl in E2. }
  apply Z.eqb_eq in E2. subst ret2.
  eapply post_bind; [apply post_bus_only, bus_only_SetResolution|].
  cbv beta. intros st3 w3 Hb3.
  assert (Hb3' : after_bus w2 w3) by exact Hb3.
  apply post_if; intros _.
  { apply post_mret. right. split; [reflexivity|]. destruct Hb3; congruence. }
  eapply post_bind; [apply post_bus_only, bus_only_SetPixelFormat|].
  cbv beta. intros st4 w4 Hb4.
  apply post_if; intros _.
  { apply post_mret. right. split; [reflexivity|].
    destruct Hb3, Hb4; congruence. }
  eapply post_bind; [apply post_bus_only, bus_only_SetPolarities|].
  cbv beta. intros st5 w5 Hb5.
  apply post_if; intros _.
  { apply post_mret. right. split; [reflexivity|].
    destruct Hb3, Hb4, Hb5; congruence. }
  intros r w' E. unfold bind, get_obj, set_obj, mret in E.
  inversion E; subst; clear E. left. simpl.
  split; [reflexivity|]. split; [reflexivity|].
  assert (Hw5 : wrote_first (u16 (reg OV5640_SCCB_SYSTEM_CTRL1)) 0x11 w w5).
  { eapply wrote_first_after; [|exact Hb5].
    eapply wrote_first_after; [|exact Hb4].
    eapply wrote_first_after; [exact Hw2|exact Hb3]. }
  exact Hw5.
Qed.





(** C3.  On a handle whose [IsInitialized] flag is 1, [OV5640_Init] returns
    [OV5640_OK] and the world is the one it was called in: no bus read, no
    bus write, no change to the handle.  When a call on an uninitialised
    handle succeeds it has written to the bus, starting with the first
    entry of the common table, and every later call is such a no-op. *)
Theorem Init_on_initialized_handle_is_noop
    (fuel : nat) (Resolution PixelFormat : Z) w :
  (IsInitialized (obj w) = 1 ->
   OV5640_Init fuel Resolution PixelFormat w = Ret OV5640_OK w) /\
  (OV5640_OK <> OV5640_ERROR ->
   IsInitialized (obj w) = 0 ->
   forall w1,
     OV5640_Init fuel Resolution PixelFormat w = Ret OV5640_OK w1 ->
     wrote_first (u16 (reg OV5640_SCCB_SYSTEM_CTRL1)) 0x11 w w1 /\
     forall fuel' Resolution' PixelFormat',
       OV5640_Init fuel' Resolution' PixelFormat' w1 = Ret OV5640_OK w1).
Proof.
  assert (Hnoop : forall f R P w0,
             IsInitialized (obj w0) = 1 -> OV5640_Init f R P w0 = Ret OV5640_OK w0).
  { intros f R P w0 H1. unfold OV5640_Init, bind, get_obj. now rewrite H1. }
  split; [apply Hnoop|].
  intros Hne H0 w1 E.
  destruct (Init_post fuel Resolution PixelFormat w Hne H0 _ _ E)
    as [(_ & H1 & Hw) | (Hr & _)]; [|congruence].
  split; [exact Hw|]. intros f R P. now apply Hnoop.
Qed.


(** ** Image tuning *)

Lemma composite_byte o : tuning_bytes o -> u8 (composite o) = composite o.
Proof.
  intros (Hb & Hs & Hc & Hh). apply u8_small. unfold composite.
  repeat apply lor_byte; assumption.
Qed.

Lemma hue_degree_ctrl8_bytes (n : nat) (code : Z) :
  nth_error hue_degree_ctrl8 n = Some code -> 0 <= code < 256.
Proof.
  intros Hn. apply nth_error_In in Hn. unfold hue_degree_ctrl8 in Hn.
  simpl in Hn. intuition lia.
Qed.

(** Unfold a straight-line tuning function in the hypothesis [E] that it
    returned, and split on every bus status and branch. *)
Ltac run_in E :=
  repeat (first
            [ progress
                (cbv beta iota zeta delta
                     [bind mret index set_bright set_saturation set_contrast
                      set_huedegree write_composite get_obj set_obj
                      ov5640_write_reg OV5640_WriteRegWrap] in E;
                 simpl in E)
            | match type of E with
              | context [IO_WriteReg ?io ?a ?r ?d ?e] =>
                  let st := fresh "st" in
                  let e' := fresh "e" in
                  let Hw := fresh "Hw" in
                  destruct (IO_WriteReg io a r d e) as [st e'] eqn:Hw
              | context [if ?c then _ else _] =>
                  let Hc := fresh "Hc" in
                  destruct c eqn:Hc;
                  try match goal with
                      | H : true = false |- _ => discriminate H
                      | H : false = true |- _ => discriminate H
                      end
              | context [match nth_error ?l ?n with _ => _ end] =>
                  let Hn := fresh "Hn" in destruct (nth_error l n) eqn:Hn
              end ];
          try discriminate E).

Ltac status_clash Hne :=
  repeat match goal with
         | H : (?a =? ?a) = false |- _ => rewrite Z.eqb_refl in H; discriminate H
         | H : negb (?a =? ?a) = true |- _ => rewrite Z.eqb_refl in H; discriminate H
         end;
  try (exfalso; apply Hne; congruence).

Ltac bytes_done Hbytes :=
  let H1 := fresh in let H2 := fresh in let H3 := fresh in let H4 := fresh in
  destruct Hbytes as (H1 & H2 & H3 & H4);
  unfold tuning_bytes; simpl; repeat split;
  first [assumption | lia | eapply hue_degree_ctrl8_bytes; eassumption].

Ltac tuning_done Hbytes :=
  repeat match goal with
         | H : negb (?st =? OV5640_OK) = false |- _ =>
             apply negb_false_iff, Z.eqb_eq in H; try subst st
         | H : (?st =? OV5640_OK) = true |- _ =>
             apply Z.eqb_eq in H; try subst st
         end;
  simpl;
  refine (conj _ (conj _ (conj _ (conj _ (conj _ _)))));
  [ first [reflexivity | assumption] ..
  | bytes_done Hbytes
  | unfold composite_written; simpl;
    rewrite composite_byte by bytes_done Hbytes;
    eexists; reflexivity ].

Lemma SetBrightness_composite (Level : Z) w w' :
  OV5640_OK <> OV5640_ERROR ->
  tuning_bytes (obj w) ->
  OV5640_SetBrightness Level w = Ret OV5640_OK w' ->
  bright (obj w') = (if Level <? 0 then 0x01 else 0x09) /\
  saturation (obj w') = saturation (obj w) /\
  contrast (obj w') = contrast (obj w) /\
  huedegree (obj w') = huedegree (obj w) /\
  tuning_bytes (obj w') /\
  composite_written w'.
Proof.
  intros Hne Hbytes E. unfold OV5640_SetBrightness in E.
  run_in E; inversion E; subst; clear E; status_clash Hne;
    rewrite ?Hc1; tuning_done Hbytes.
Qed.

Lemma SetSaturation_composite (Level : Z) w w' :
  OV5640_OK <> OV5640_ERROR ->
  tuning_bytes (obj w) ->
  OV5640_SetSaturation Level w = Ret OV5640_OK w' ->
  saturation (obj w') = 0x41 /\
  bright (obj w') = bright (obj w) /\
  contrast (obj w') = contrast (obj w) /\
  huedegree (obj w') = huedegree (obj w) /\
  tuning_bytes (obj w') /\
  composite_written w'.
Proof.
  intros Hne Hbytes E. unfold OV5640_SetSaturation in E.
  run_in E; inversion E; subst; clear E; status_clash Hne;
    tuning_done Hbytes.
Qed.

Lemma SetContrast_composite (Level : Z) w w' :
  OV5640_OK <> OV5640_ERROR ->
  tuning_bytes (obj w) ->
  OV5640_SetContrast Level w = Ret OV5640_OK w' ->
  contrast (obj w') = 0x41 /\
  bright (obj w') = bright (obj w) /\
  saturation (obj w') = saturation (obj w) /\
  huedegree (obj w') = huedegree (obj w) /\
  tuning_bytes (obj w') /\
  composite_written w'.
Proof.
  intros Hne Hbytes E. unfold OV5640_SetContrast in E.
  run_in E; inversion E; subst; clear E; status_clash Hne;
    tuning_done Hbytes.
Qed.

Lemma SetHueDegree_composite (Degree : Z) w w' :
  OV5640_OK <> OV5640_ERROR ->
  tuning_bytes (obj w) ->
  OV5640_SetHueDegree Degree w = Ret OV5640_OK w' ->
  nth_error hue_degree_ctrl8 (Z.to_nat (Degree + 6)) = Some (huedegree (obj w')) /\
  bright (obj w') = bright (obj w) /\
  saturation (obj w') = saturation (obj w) /\
  contrast (obj w') = contrast (obj w) /\
  tuning_bytes (obj w') /\
  composite_written w'.
Proof.
  intros Hne Hbytes E. unfold OV5640_SetHueDegree in E.
  run_in E; inversion E; subst; clear E; status_clash Hne;
    tuning_done Hbytes.
Qed.

Lemma RegisterBusIO_seeds_tuning (pIO : OV5640_IO_t B) w (r : Z) w' :
  OV5640_RegisterBusIO pObj pIO w = Ret r w' ->
  bright (obj w') = 0x01 /\ saturation (obj w') = 0x41 /\
  contrast (obj w') = 0x41 /\ huedegree (obj w') = 0x32.
Proof.
  intros E. unfold OV5640_RegisterBusIO, bind, get_obj, set_obj, mret in E.
  simpl in E.
  destruct (IO_Init pIO) as [init|]; simpl in E.
  - destruct (init (env w)) as [st e]. inversion E; subst. simpl.
    repeat split.
  - inversion E; subst. simpl. repeat split.
Qed.

(** C1.  Whenever [OV5640_SetBrightness], [OV5640_SetSaturation],
    [OV5640_SetContrast] or [OV5640_SetHueDegree] returns [OV5640_OK], the
    last bus transaction of the call is a write to [OV5640_SDE_CTRL8] of
    [contrast | bright | huedegree | saturation], taken from the handle as
    the call leaves it; in that handle the axis of the call holds the code
    of the call and the other three codes are those the handle held on
    entry.  A handle that comes out of [OV5640_RegisterBusIO] holds the
    default codes 0x01, 0x41, 0x41 and 0x32, which are bytes, and every
    successful call keeps the four codes bytes. *)
Theorem tuning_composite_keeps_other_axes :
  OV5640_OK <> OV5640_ERROR ->
  (forall (pIO : OV5640_IO_t B) w (r : Z) w',
      OV5640_RegisterBusIO pObj pIO w = Ret r w' ->
      (bright (obj w') = 0x01 /\ saturation (obj w') = 0x41 /\
       contrast (obj w') = 0x41 /\ huedegree (obj w') = 0x32) /\
      tuning_bytes (obj w')) /\
  (forall (Level : Z) w w',
      tuning_bytes (obj w) ->
      (OV5640_SetBrightness Level w = Ret OV5640_OK w' ->
       bright (obj w') = (if Level <? 0 then 0x01 else 0x09) /\
       saturation (obj w') = saturation (obj w) /\
       contrast (obj w') = contrast (obj w) /\
       huedegree (obj w') = huedegree (obj w) /\
       tuning_bytes (obj w') /\
       composite_written w') /\
      (OV5640_SetSaturation Level w = Ret OV5640_OK w' ->
       saturation (obj w') = 0x41 /\
       bright (obj w') = bright (obj w) /\
       contrast (obj w') = contrast (obj w) /\
       huedegree (obj w') = huedegree (obj w) /\
       tuning_bytes (obj w') /\
       composite_written w') /\
      (OV5640_SetContrast Level w = Ret OV5640_OK w' ->
       contrast (obj w') = 0x41 /\
       bright (obj w') = bright (obj w) /\
       saturation (obj w') = saturation (obj w) /\
       huedegree (obj w') = huedegree (obj w) /\
       tuning_bytes (obj w') /\
       composite_written w') /\
      (OV5640_SetHueDegree Level w = Ret OV5640_OK w' ->
       nth_error hue_degree_ctrl8 (Z.to_nat (Level + 6)) = Some (huedegree (obj w')) /\
       bright (obj w') = bright (obj w) /\
       saturation (obj w') = saturation (obj w) /\
       contrast (obj w') = contrast (obj w) /\
       tuning_bytes (obj w') /\
       composite_written w')).
Proof.
  intros Hne. split.
  - intros pIO w r w' E.
    pose proof (RegisterBusIO_seeds_tuning pIO w r w' E) as Hs.
    split; [exact Hs|].
    destruct Hs as (Hb & Hs & Hc & Hh).
    unfold tuning_bytes. rewrite Hb, Hs, Hc, Hh. lia.
  - intros Level w w' Hbytes. repeat apply conj.
    + now apply SetBrightness_composite.
    + now apply SetSaturation_composite.
    + now apply SetContrast_composite.
    + now apply SetHueDegree_composite.
Qed.

(** ** Table indices of the tuning operations *)

Lemma index_inside {A : Type} (tbl : list A) (i : Z) w :
  0 <= i < Z.of_nat (length tbl) ->
  exists v, nth_error tbl (Z.to_nat i) = Some v /\ index tbl i w = Ret v w.
Proof.
  intros Hi. unfold index.
  replace ((0 <=? i) && (i <? Z.of_nat (length tbl))) with true
    by (symmetry; apply andb_true_iff; split; [apply Z.leb_le|apply Z.ltb_lt]; lia).
  destruct (nth_error tbl (Z.to_nat i)) as [v|] eqn:Hn.
  - now exists v.
  - apply nth_error_None in Hn. lia.
Qed.

Lemma index_outside {A : Type} (tbl : list A) (i : Z) w :
  ~ (0 <= i < Z.of_nat (length tbl)) -> index tbl i w = Undef w.
Proof.
  intros Hi. unfold index.
  destruct ((0 <=? i) && (i <? Z.of_nat (length tbl))) eqn:Hc; [|reflexivity].
  apply andb_true_iff in Hc. destruct Hc as [H1 H2].
  apply Z.leb_le in H1. apply Z.ltb_lt in H2. lia.
Qed.

Ltac inside_clash :=
  match goal with
  | Hc : (0 <=? _) && (_ <? _) = false |- _ =>
      apply andb_false_iff in Hc; destruct Hc as [Hc|Hc];
      [apply Z.leb_gt in Hc|apply Z.ltb_ge in Hc]; lia
  | Hn : nth_error _ _ = None |- _ =>
      apply nth_error_None in Hn; simpl in Hn; lia
  end.

Ltac outside_clash Hsucc :=
  first
    [ match goal with
      | Hc : (0 <=? _) && (_ <? _) = true |- _ =>
          let Hlo := fresh in
          let Hhi := fresh in
          apply andb_true_iff in Hc; destruct Hc as [Hlo Hhi];
          apply Z.leb_le in Hlo; apply Z.ltb_lt in Hhi; lia
      end
    | match goal with
      | Hw : IO_WriteReg ?io ?a ?r ?d ?e = (?st, _),
        Hc : (?st =? OV5640_OK) = false |- _ =>
          let Hs := fresh in
          pose proof (Hsucc a r d e) as Hs; rewrite Hw in Hs; simpl in Hs;
          rewrite Hs, Z.eqb_refl in Hc; discriminate Hc
      end ].

Lemma tuning_defined_inside (Level : Z) w w' :
  (-4 <= Level <= 4 ->
   OV5640_SetBrightness Level w <> Undef w' /\
   OV5640_SetSaturation Level w <> Undef w' /\
   OV5640_SetContrast Level w <> Undef w') /\
  (-6 <= Level <= 5 -> OV5640_SetHueDegree Level w <> Undef w').
Proof.
  split; [intros HL; repeat apply conj|intros HL]; intros E.
  - unfold OV5640_SetBrightness in E. run_in E; inside_clash.
  - unfold OV5640_SetSaturation in E. run_in E; inside_clash.
  - unfold OV5640_SetContrast in E. run_in E; inside_clash.
  - unfold OV5640_SetHueDegree in E. run_in E; inside_clash.
Qed.

Lemma tuning_undefined_outside (Level : Z) w :
  writes_succeed (IO (obj w)) ->
  (~ (-4 <= Level <= 4) ->
   (exists w', OV5640_SetBrightness Level w = Undef w') /\
   (exists w', OV5640_SetSaturation Level w = Undef w') /\
   (exists w', OV5640_SetContrast Level w = Undef w')) /\
  (~ (-6 <= Level <= 5) -> exists w', OV5640_SetHueDegree Level w = Undef w').
Proof.
  intros Hsucc.
  split; [intros HL; repeat apply conj|intros HL].
  - destruct (OV5640_SetBrightness Level w) as [a w1|w1|w1] eqn:E; [exfalso|eauto|exfalso];
      unfold OV5640_SetBrightness in E; run_in E; outside_clash Hsucc.
  - destruct (OV5640_SetSaturation Level w) as [a w1|w1|w1] eqn:E; [exfalso|eauto|exfalso];
      unfold OV5640_SetSaturation in E; run_in E; outside_clash Hsucc.
  - destruct (OV5640_SetContrast Level w) as [a w1|w1|w1] eqn:E; [exfalso|eauto|exfalso];
      unfold OV5640_SetContrast in E; run_in E; outside_clash Hsucc.
  - destruct (OV5640_SetHueDegree Level w) as [a w1|w1|w1] eqn:E; [exfalso|eauto|exfalso];
      unfold OV5640_SetHueDegree in E; run_in E; outside_clash Hsucc.
Qed.

(** C5.  The lookup tables of [OV5640_SetBrightness], [OV5640_SetSaturation]
    and [OV5640_SetContrast] have 9 entries and those of
    [OV5640_SetHueDegree] 12.  For [Level] in [-4, +4] the index
    [Level + 4], and for [Degree] in [-6, +5] the index [Degree + 6], reads
    an entry of its table, and the four operations never run into
    undefined behaviour.  Outside these ranges the same access is outside
    the table, which is undefined; nothing in the four operations checks the
    range, so on a bus whose writes succeed each of them reaches that
    access. *)
Theorem tuning_table_index_bounds (Level : Z) w :
  (length brightness_level = 9%nat /\ length saturation_level = 9%nat /\
   length contrast_level = 9%nat /\ length hue_degree_ctrl1 = 12%nat /\
   length hue_degree_ctrl2 = 12%nat /\ length hue_degree_ctrl8 = 12%nat) /\
  (-4 <= Level <= 4 ->
   (exists v, index brightness_level (Level + 4) w = Ret v w) /\
   (exists v, index saturation_level (Level + 4) w = Ret v w) /\
   (exists v, index contrast_level (Level + 4) w = Ret v w) /\
   (forall w', OV5640_SetBrightness Level w <> Undef w' /\
               OV5640_SetSaturation Level w <> Undef w' /\
               OV5640_SetContrast Level w <> Undef w')) /\
  (-6 <= Level <= 5 ->
   (exists v, index hue_degree_ctrl1 (Level + 6) w = Ret v w) /\
   (exists v, index hue_degree_ctrl2 (Level + 6) w = Ret v w) /\
   (exists v, index hue_degree_ctrl8 (Level + 6) w = Ret v w) /\
   (forall w', OV5640_SetHueDegree Level w <> Undef w')) /\
  (~ (-4 <= Level <= 4) ->
   index brightness_level (Level + 4) w = Undef w /\
   index saturation_level (Level + 4) w = Undef w /\
   index contrast_level (Level + 4) w = Undef w /\
   (writes_succeed (IO (obj w)) ->
    (exists w', OV5640_SetBrightness Level w = Undef w') /\
    (exists w', OV5640_SetSaturation Level w = Undef w') /\
    (exists w', OV5640_SetContrast Level w = Undef w'))) /\
  (~ (-6 <= Level <= 5) ->
   index hue_degree_ctrl1 (Level + 6) w = Undef w /\
   index hue_degree_ctrl2 (Level + 6) w = Undef w /\
   index hue_degree_ctrl8 (Level + 6) w = Undef w /\
   (writes_succeed (IO (obj w)) ->
    exists w', OV5640_SetHueDegree Level w = Undef w')).
Proof.
  assert (Hin : forall (tbl : list Z) i,
             0 <= i < Z.of_nat (length tbl) -> exists v, index tbl i w = Ret v w).
  { intros tbl i Hi. destruct (index_inside tbl i w Hi) as (v & _ & E). eauto. }
  split; [repeat split|]. split; [|split; [|split]].
  - intros HL. repeat apply conj; try (apply Hin; simpl; lia).
    intros w'. now apply tuning_defined_inside.
  - intros HL. repeat apply conj; try (apply Hin; simpl; lia).
    intros w'. now apply tuning_defined_inside.
  - intros HL. repeat apply conj; try (apply index_outside; simpl; lia).
    intros Hsucc. now apply tuning_undefined_outside.
  - intros HL. repeat apply conj; try (apply index_outside; simpl; lia).
    intros Hsucc. now apply tuning_undefined_outside.
Qed.

(** ** Register tables *)

(** The guarded loop and the breaking loop stop at the first write that
    fails. *)
Lemma write_table_guarded_stops (tbl : list (Z * Z)) w :
  OV5640_OK <> OV5640_ERROR ->
  exists r w' evs,
    write_table_guarded (mret tt) tbl OV5640_OK w = Ret r w' /\
    obj w' = obj w /\
    trace w' = trace w ++ evs /\
    stops_at_failure tbl evs.
Proof.
  intros Hne.
  assert (Hskip : forall tbl w,
             write_table_guarded (mret tt) tbl OV5640_ERROR w = Ret OV5640_ERROR w).
  { clear tbl w. induction tbl as [|[r v] tbl IH]; intros w; simpl.
    - reflexivity.
    - rewrite Z.eqb_refl. simpl. apply IH. }
  revert w. induction tbl as [|[r v] tbl IH]; intros w; simpl.
  - exists OV5640_OK, w, []. rewrite app_nil_r. repeat split. constructor.
  - apply Z.eqb_neq in Hne. rewrite Hne. simpl. unfold bind at 1.
    destruct (write_reg_run r v w) as (st & e & _ & ->).
    destruct (st =? OV5640_OK) eqn:Hst; simpl.
    + apply Z.eqb_eq in Hst. subst st. unfold bind, mret.
      match goal with |- context [write_table_guarded _ _ _ ?w1] =>
        destruct (IH w1) as (r' & w' & evs & E & Ho & Ht & Hs) end.
      unfold mret in E. rewrite E.
      exists r', w', (EvWrite (u16 r) (u8 v) OV5640_OK :: evs).
      simpl in Ho, Ht. repeat split; auto.
      * now rewrite Ht, <- app_assoc.
      * now constructor.
    + rewrite Hskip. eexists _, _, _. repeat split.
      apply stops_failed. now apply Z.eqb_neq.
Qed.

Lemma write_table_break_stops (tbl : list (Z * Z)) (ret : Z) w :
  exists r w' evs,
    write_table_break tbl ret w = Ret r w' /\
    obj w' = obj w /\
    trace w' = trace w ++ evs /\
    stops_at_failure tbl evs.
Proof.
  revert w. induction tbl as [|[r v] tbl IH]; intros w; simpl.
  - exists ret, w, []. rewrite app_nil_r. repeat split. constructor.
  - unfold bind at 1.
    destruct (write_reg_run r v w) as (st & e & _ & ->).
    destruct (st =? OV5640_OK) eqn:Hst; simpl.
    + apply Z.eqb_eq in Hst. subst st.
      match goal with |- context [write_table_break _ _ ?w1] =>
        destruct (IH w1) as (r' & w' & evs & E & Ho & Ht & Hs) end.
      rewrite E.
      exists r', w', (EvWrite (u16 r) (u8 v) OV5640_OK :: evs).
      simpl in Ho, Ht. repeat split; auto.
      * now rewrite Ht, <- app_assoc.
      * now constructor.
    + eexists _, _, _. repeat split.
      apply stops_failed. now apply Z.eqb_neq.
Qed.

(** The unguarded loop writes every entry, whatever the bus answers. *)
Lemma write_table_all_writes (tbl : list (Z * Z)) :
  forall ret w,
  exists r w',
    write_table_all tbl ret w = Ret r w' /\
    writes_of (trace w') = writes_of (trace w) ++ table_writes tbl.
Proof.
  induction tbl as [|[r v] tbl IH]; intros ret w; simpl.
  - exists ret, w. now rewrite app_nil_r.
  - unfold bind at 1.
    destruct (write_reg_run r v w) as (st & e & _ & ->).
    match goal with |- context [write_table_all _ ?ret1 ?w1] =>
      destruct (IH ret1 w1) as (r' & w' & E & Ht) end.
    exists r', w'. split; [exact E|].
    rewrite Ht. simpl. rewrite writes_of_app. simpl.
    now rewrite <- app_assoc.
Qed.

Lemma write_table_all_failed (tbl : list (Z * Z)) :
  forall w r w',
    write_table_all tbl OV5640_ERROR w = Ret r w' -> r = OV5640_ERROR.
Proof.
  induction tbl as [|[r v] tbl IH]; intros w r' w' E; simpl in E.
  - now inversion E.
  - unfold bind at 1 in E.
    destruct (write_reg_run r v w) as (st & e & _ & Hrun). rewrite Hrun in E.
    destruct (negb (st =? OV5640_OK)); eapply IH; exact E.
Qed.

(** [OV5640_OutSize_Set] and [OV5640_JPEG_Mode] on any bus: every entry of
    the table is written, also after a write has failed. *)
Lemma unguarded_tables_write_every_entry (offx offy width height : Z) w :
  (exists r w',
      OV5640_OutSize_Set offx offy width height w = Ret r w' /\
      writes_of (trace w') =
        writes_of (trace w) ++ table_writes (OutSize_Set_datas offx offy width height)) /\
  (exists r w',
      OV5640_JPEG_Mode w = Ret r w' /\
      writes_of (trace w') = writes_of (trace w) ++ table_writes OV5640_jpeg_reg_tbl).
Proof. split; apply write_table_all_writes. Qed.

(** ** Autofocus firmware upload *)

Lemma Focus_Init_upload_writes (blob : list Z) :
  forall addr w,
  exists w',
    Focus_Init_upload blob addr w = Ret tt w' /\
    obj w' = obj w /\
    writes_of (trace w') = writes_of (trace w) ++ upload_writes blob addr.
Proof.
  induction blob as [|b blob IH]; intros addr w; simpl.
  - exists w. now rewrite app_nil_r.
  - unfold bind at 1.
    destruct (write_reg_run addr b w) as (st & e & _ & ->).
    match goal with |- context [Focus_Init_upload _ ?a1 ?w1] =>
      destruct (IH a1 w1) as (w' & E & Ho & Ht) end.
    exists w'. split; [exact E|]. split; [exact Ho|].
    rewrite Ht. simpl. rewrite writes_of_app. simpl.
    now rewrite <- app_assoc.
Qed.

Lemma upload_writes_af_window : upload_writes OV5640_AF_Config 0x8000 = af_window.
Proof. vm_compute. reflexivity. Qed.

(** C6.  What [OV5640_Focus_Init] does, on every bus and in every state: it
    writes the halt command 0x20 to register 0x3000, then byte [i] of
    [OV5640_AF_Config] to address [0x8000 + i] for every [i], and then,
    where the release sequence should follow, it writes entry 0 of [datas]
    again, the halt command, and reads entry 1 of the one-entry array
    [datas], which is undefined: the loop takes its bound from [datas2] and
    its entries from [datas].  The nine writes of the release sequence are
    not issued. *)
Theorem Focus_Init_replays_halt_instead_of_release (fuel : nat) w :
  exists w',
    OV5640_Focus_Init fuel w = Undef w' /\
    writes_of (trace w') =
      writes_of (trace w) ++ [(0x3000, 0x20)] ++ af_window ++ [(0x3000, 0x20)] /\
    table_writes Focus_Init_datas2 =
      [(0x3022, 0x00); (0x3023, 0x00); (0x3024, 0x00); (0x3025, 0x00);
       (0x3026, 0x00); (0x3027, 0x00); (0x3028, 0x00); (0x3029, 0x7f);
       (0x3000, 0x00)].
Proof.
  unfold OV5640_Focus_Init.
  unfold bind at 1. change (index Focus_Init_datas 0 w) with (Ret (0x3000, 0x20) w).
  cbv iota beta. unfold bind at 1.
  destruct (write_reg_run 0x3000 0x20 w) as (st & e & _ & Hrun).
  change (fst (0x3000, 0x20)) with 0x3000. change (snd (0x3000, 0x20)) with 0x20.
  rewrite Hrun. clear Hrun.
  unfold bind at 1.
  match goal with |- context [Focus_Init_upload _ _ ?w1] =>
    destruct (Focus_Init_upload_writes OV5640_AF_Config 0x8000 w1)
      as (w2 & E2 & _ & Ht2); rewrite E2 end.
  rewrite upload_writes_af_window in Ht2.
  cbn [trace] in Ht2.
  rewrite writes_of_app in Ht2.
  change (writes_of [EvWrite (u16 0x3000) (u8 0x20) st]) with [(0x3000, 0x20)] in Ht2.
  unfold bind at 1.
  change (length Focus_Init_datas2) with 9%nat.
  cbn [Focus_Init_release].
  unfold bind at 1. change (index Focus_Init_datas 0 w2) with (Ret (0x3000, 0x20) w2).
  cbv iota beta. unfold bind at 1.
  destruct (write_reg_run 0x3000 0x20 w2) as (st' & e' & _ & Hrun).
  change (fst (0x3000, 0x20)) with 0x3000. change (snd (0x3000, 0x20)) with 0x20.
  rewrite Hrun. clear Hrun.
  cbn [Focus_Init_release].
  unfold bind at 1.
  match goal with |- context [index Focus_Init_datas (0 + 1) ?w3] =>
    change (index Focus_Init_datas (0 + 1) w3) with (@Undef B (Z * Z) w3) end.
  cbv iota beta.
  eexists. split; [reflexivity|]. split; [|reflexivity].
  cbn [trace].
  rewrite writes_of_app, Ht2.
  change (writes_of [EvWrite (u16 0x3000) (u8 0x20) st']) with [(0x3000, 0x20)].
  rewrite <- !app_assoc. reflexivity.
Qed.
End Proofs.

(** ** Autofocus polling, on a sensor that answers from a script *)

Section PollBus.
Context {hdr : Header}.
Variable script : nat -> Z.

Implicit Types (w : World nat).

Lemma poll_read (r buf : Z) w :
  IO (obj w) = poll_io script ->
  ov5640_read_reg r buf w =
    Ret (OV5640_OK, u8 (script (S (env w))))
        {| obj := obj w; env := S (env w);
           trace := trace w ++ [EvRead (u16 r) OV5640_OK (u8 (script (S (env w))))] |}.
Proof.
  intros Hio. unfold ov5640_read_reg, OV5640_ReadRegWrap. now rewrite Hio.
Qed.

Lemma poll_write (r d : Z) w :
  IO (obj w) = poll_io script ->
  ov5640_write_reg r d w =
    Ret OV5640_OK
        {| obj := obj w; env := env w;
           trace := trace w ++ [EvWrite (u16 r) (u8 d) OV5640_OK] |}.
Proof.
  intros Hio. unfold ov5640_write_reg, OV5640_WriteRegWrap. now rewrite Hio.
Qed.

Ltac nreads_tac :=
  unfold nreads in *; cbn [trace] in *;
  rewrite ?reads_of_app, ?length_app in *; simpl length in *; lia.

Lemma gtb_false (a b : Z) : a <= b -> (a >? b) = false.
Proof. intros H. rewrite Z.gtb_ltb. apply Z.ltb_ge. lia. Qed.

Lemma gtb_true (a b : Z) : b < a -> (a >? b) = true.
Proof. intros H. rewrite Z.gtb_ltb. apply Z.ltb_lt. lia. Qed.

Lemma u16_retry (retry : Z) : 0 <= retry <= 201 -> u16 (retry + 1) = retry + 1.
Proof. intros H. unfold u16. apply Z.mod_small. lia. Qed.

(** The loop of [OV5640_Focus_Single] when the next [m] reads miss the
    sentinel and the budget ends with them. *)
Lemma Focus_Single_poll_miss (m : nat) :
  forall (fuel : nat) (retry temp : Z) w,
    IO (obj w) = poll_io script ->
    (1 <= m <= fuel)%nat ->
    retry = 201 - Z.of_nat m -> 0 <= retry ->
    (forall j, (1 <= j <= m)%nat -> u8 (script (env w + j)%nat) <> 0x10) ->
    exists w',
      Focus_Single_poll fuel retry temp w = Ret OV5640_ERROR w' /\
      obj w' = obj w /\ env w' = (env w + m)%nat /\
      nreads w' = (nreads w + m)%nat.
Proof.
  induction m as [|m IH]; intros fuel retry temp w Hio Hm Hr Hr0 Hmiss; [lia|].
  destruct fuel as [|fuel]; [lia|].
  cbn [Focus_Single_poll]. unfold bind at 1. rewrite (poll_read _ _ _ Hio).
  cbn [snd].
  assert (H1 : u8 (script (S (env w))) <> 0x10).
  { replace (S (env w)) with (env w + 1)%nat by lia. apply Hmiss. lia. }
  apply Z.eqb_neq in H1. rewrite H1.
  unfold bind at 1, vTaskDelay_ms at 1. cbn [obj env trace vTaskDelay poll_rtos].
  rewrite u16_retry by lia.
  destruct m as [|m].
  - rewrite gtb_true by lia.
    eexists. split; [reflexivity|]. cbn [obj env].
    split; [reflexivity|]. split; [lia|]. nreads_tac.
  - rewrite gtb_false by lia.
    match goal with |- context [Focus_Single_poll fuel ?r1 ?t1 ?w1] =>
      destruct (IH fuel r1 t1 w1) as (w' & E & Ho & He & Hn) end.
    + exact Hio.
    + lia.
    + lia.
    + lia.
    + intros j Hj. cbn [env]. replace (S (env w) + j)%nat with (env w + S j)%nat by lia.
      apply Hmiss. lia.
    + exists w'. split; [exact E|]. cbn [obj env] in Ho, He.
      split; [exact Ho|]. split; [lia|]. nreads_tac.
Qed.

(** The loop of [OV5640_Focus_Single] when the sentinel first shows at the
    [k]-th read from here and the budget reaches that far. *)
Lemma Focus_Single_poll_hit (k : nat) :
  forall (fuel : nat) (retry temp : Z) w,
    IO (obj w) = poll_io script ->
    (1 <= k <= fuel)%nat ->
    0 <= retry -> retry + Z.of_nat k <= 201 ->
    (forall j, (1 <= j < k)%nat -> u8 (script (env w + j)%nat) <> 0x10) ->
    u8 (script (env w + k)%nat) = 0x10 ->
    exists w',
      Focus_Single_poll fuel retry temp w = Ret OV5640_OK w' /\
      obj w' = obj w /\ env w' = (env w + k)%nat /\
      nreads w' = (nreads w + k)%nat.
Proof.
  induction k as [|k IH]; intros fuel retry temp w Hio Hk Hr0 Hr Hmiss Hhit; [lia|].
  destruct fuel as [|fuel]; [lia|].
  cbn [Focus_Single_poll]. unfold bind at 1. rewrite (poll_read _ _ _ Hio).
  cbn [snd].
  destruct k as [|k].
  - replace (env w + 1)%nat with (S (env w)) in Hhit by lia.
    rewrite Hhit. change (16 =? 16) with true. cbv iota. unfold mret.
    eexists. split; [reflexivity|]. cbn [obj env].
    split; [reflexivity|]. split; [lia|]. nreads_tac.
  - assert (H1 : u8 (script (S (env w))) <> 0x10).
    { replace (S (env w)) with (env w + 1)%nat by lia. apply Hmiss. lia. }
    apply Z.eqb_neq in H1. rewrite H1.
    unfold bind at 1, vTaskDelay_ms at 1. cbn [obj env trace vTaskDelay poll_rtos].
    rewrite u16_retry by lia. rewrite gtb_false by lia.
    match goal with |- context [Focus_Single_poll fuel ?r1 ?t1 ?w1] =>
      destruct (IH fuel r1 t1 w1) as (w' & E & Ho & He & Hn) end.
    + exact Hio.
    + lia.
    + lia.
    + lia.
    + intros j Hj. cbn [env]. replace (S (env w) + j)%nat with (env w + S j)%nat by lia.
      apply Hmiss. lia.
    + cbn [env]. replace (S (env w) + S k)%nat with (env w + S (S k))%nat by lia.
      exact Hhit.
    + exists w'. split; [exact E|]. cbn [obj env] in Ho, He.
      split; [exact Ho|]. split; [lia|]. nreads_tac.
Qed.

(** A polling phase of [OV5640_Focus_Constant] when the reads before the
    last one of the budget miss the sentinel: the last read is not looked
    at. *)
Lemma Focus_Constant_poll_miss (m : nat) :
  forall (fuel : nat) (retry temp : Z) w,
    IO (obj w) = poll_io script ->
    (1 <= m <= fuel)%nat ->
    retry = 201 - Z.of_nat m -> 0 <= retry ->
    (forall j, (1 <= j < m)%nat -> u8 (script (env w + j)%nat) <> 0x00) ->
    exists w',
      Focus_Constant_poll fuel retry temp w = Ret false w' /\
      obj w' = obj w /\ env w' = (env w + m)%nat /\
      nreads w' = (nreads w + m)%nat.
Proof.
  induction m as [|m IH]; intros fuel retry temp w Hio Hm Hr Hr0 Hmiss; [lia|].
  destruct fuel as [|fuel]; [lia|].
  cbn [Focus_Constant_poll]. unfold bind at 1. rewrite (poll_read _ _ _ Hio).
  cbn [snd]. rewrite u16_retry by lia.
  destruct m as [|m].
  - rewrite gtb_true by lia. unfold mret.
    eexists. split; [reflexivity|]. cbn [obj env].
    split; [reflexivity|]. split; [lia|]. nreads_tac.
  - rewrite gtb_false by lia.
    unfold bind at 1, vTaskDelay_ms at 1. cbn [obj env trace vTaskDelay poll_rtos].
    assert (H1 : u8 (script (S (env w))) <> 0x00).
    { replace (S (env w)) with (env w + 1)%nat by lia. apply Hmiss. lia. }
    apply Z.eqb_neq in H1. rewrite H1. cbn [negb].
    match goal with |- context [Focus_Constant_poll fuel ?r1 ?t1 ?w1] =>
      destruct (IH fuel r1 t1 w1) as (w' & E & Ho & He & Hn) end.
    + exact Hio.
    + lia.
    + lia.
    + lia.
    + intros j Hj. cbn [env]. replace (S (env w) + j)%nat with (env w + S j)%nat by lia.
      apply Hmiss. lia.
    + exists w'. split; [exact E|]. cbn [obj env] in Ho, He.
      split; [exact Ho|]. split; [lia|]. nreads_tac.
Qed.

(** A polling phase of [OV5640_Focus_Constant] when the sentinel first
    shows at the [k]-th read from here, before the budget is used up. *)
Lemma Focus_Constant_poll_hit (k : nat) :
  forall (fuel : nat) (retry temp : Z) w,
    IO (obj w) = poll_io script ->
    (1 <= k <= fuel)%nat ->
    0 <= retry -> retry + Z.of_nat k <= 200 ->
    (forall j, (1 <= j < k)%nat -> u8 (script (env w + j)%nat) <> 0x00) ->
    u8 (script (env w + k)%nat) = 0x00 ->
    exists w',
      Focus_Constant_poll fuel retry temp w = Ret true w' /\
      obj w' = obj w /\ env w' = (env w + k)%nat /\
      nreads w' = (nreads w + k)%nat.
Proof.
  induction k as [|k IH]; intros fuel retry temp w Hio Hk Hr0 Hr Hmiss Hhit; [lia|].
  destruct fuel as [|fuel]; [lia|].
  cbn [Focus_Constant_poll]. unfold bind at 1. rewrite (poll_read _ _ _ Hio).
  cbn [snd]. rewrite u16_retry by lia. rewrite gtb_false by lia.
  unfold bind at 1, vTaskDelay_ms at 1. cbn [obj env trace vTaskDelay poll_rtos].
  destruct k as [|k].
  - replace (env w + 1)%nat with (S (env w)) in Hhit by lia.
    rewrite Hhit. change (0 =? 0) with true. cbn [negb]. unfold mret.
    eexists. split; [reflexivity|]. cbn [obj env].
    split; [reflexivity|]. split; [lia|]. nreads_tac.
  - assert (H1 : u8 (script (S (env w))) <> 0x00).
    { replace (S (env w)) with (env w + 1)%nat by lia. apply Hmiss. lia. }
    apply Z.eqb_neq in H1. rewrite H1. cbn [negb].
    match goal with |- context [Focus_Constant_poll fuel ?r1 ?t1 ?w1] =>
      destruct (IH fuel r1 t1 w1) as (w' & E & Ho & He & Hn) end.
    + exact Hio.
    + lia.
    + lia.
    + lia.
    + intros j Hj. cbn [env]. replace (S (env w) + j)%nat with (env w + S j)%nat by lia.
      apply Hmiss. lia.
    + cbn [env]. replace (S (env w) + S k)%nat with (env w + S (S k))%nat by lia.
      exact Hhit.
    + exists w'. split; [exact E|]. cbn [obj env] in Ho, He.
      split; [exact Ho|]. split; [lia|]. nreads_tac.
Qed.

Lemma nreads_after_write w (r d st : Z) :
  nreads {| obj := obj w; env := env w; trace := trace w ++ [EvWrite r d st] |} = nreads w.
Proof. unfold nreads. cbn [trace]. rewrite reads_of_app. simpl. now rewrite app_nil_r. Qed.

(** C7, as the code has it.  On a sensor whose [j]-th status read returns
    [script j], with enough fuel for a whole budget:
    [OV5640_Focus_Single] returns [OV5640_ERROR] after exactly 201 reads of
    register 0x3029 when none of them returns 0x10, and [OV5640_OK] after
    [k] reads when 0x10 first shows at the [k]-th read, for every [k] up to
    201.  Each polling phase of [OV5640_Focus_Constant] gives up after
    exactly 201 reads of register 0x3023 when none of the first 200 returns
    0x00 (the 201st is not looked at) and ends after [k] reads when 0x00
    first shows at the [k]-th read, for every [k] up to 200; the function
    returns [OV5640_ERROR] when either phase gives up and [OV5640_OK] when
    both end. *)
Theorem focus_polls_give_up_after_201_reads (fuel : nat) w :
  IO (obj w) = poll_io script ->
  (201 <= fuel)%nat ->
  ((forall j, (1 <= j <= 201)%nat -> u8 (script (env w + j)%nat) <> 0x10) ->
   exists w',
     OV5640_Focus_Single fuel w = Ret OV5640_ERROR w' /\
     nreads w' = (nreads w + 201)%nat) /\
  (forall k,
      (1 <= k <= 201)%nat ->
      (forall j, (1 <= j < k)%nat -> u8 (script (env w + j)%nat) <> 0x10) ->
      u8 (script (env w + k)%nat) = 0x10 ->
      exists w',
        OV5640_Focus_Single fuel w = Ret OV5640_OK w' /\
        nreads w' = (nreads w + k)%nat) /\
  ((forall j, (1 <= j <= 200)%nat -> u8 (script (env w + j)%nat) <> 0x00) ->
   exists w',
     OV5640_Focus_Constant fuel w = Ret OV5640_ERROR w' /\
     nreads w' = (nreads w + 201)%nat) /\
  (forall k1,
      (1 <= k1 <= 200)%nat ->
      (forall j, (1 <= j < k1)%nat -> u8 (script (env w + j)%nat) <> 0x00) ->
      u8 (script (env w + k1)%nat) = 0x00 ->
      ((forall j, (1 <= j <= 200)%nat -> u8 (script (env w + k1 + j)%nat) <> 0x00) ->
       exists w',
         OV5640_Focus_Constant fuel w = Ret OV5640_ERROR w' /\
         nreads w' = (nreads w + k1 + 201)%nat) /\
      (forall k2,
          (1 <= k2 <= 200)%nat ->
          (forall j, (1 <= j < k2)%nat -> u8 (script (env w + k1 + j)%nat) <> 0x00) ->
          u8 (script (env w + k1 + k2)%nat) = 0x00 ->
          exists w',
            OV5640_Focus_Constant fuel w = Ret OV5640_OK w' /\
            nreads w' = (nreads w + k1 + k2)%nat)).
Proof.
  intros Hio Hfuel.
  split; [|split; [|split]].
  - intros Hmiss. unfold OV5640_Focus_Single, bind.
    rewrite (poll_write _ _ _ Hio).
    match goal with |- context [Focus_Single_poll fuel 0 ?t1 ?w1] =>
      destruct (Focus_Single_poll_miss 201 fuel 0 t1 w1) as (w' & E & _ & _ & Hn) end;
      try (cbn [obj env]; first [exact Hio | lia | exact Hmiss]).
    exists w'. split; [exact E|]. now rewrite Hn, nreads_after_write.
  - intros k Hk Hmiss Hhit. unfold OV5640_Focus_Single, bind.
    rewrite (poll_write _ _ _ Hio).
    match goal with |- context [Focus_Single_poll fuel 0 ?t1 ?w1] =>
      destruct (Focus_Single_poll_hit k fuel 0 t1 w1) as (w' & E & _ & _ & Hn) end;
      try (cbn [obj env]; first [exact Hio | lia | exact Hmiss | exact Hhit]).
    exists w'. split; [exact E|]. now rewrite Hn, nreads_after_write.
  - intros Hmiss. unfold OV5640_Focus_Constant. unfold bind at 1.
    rewrite (poll_write _ _ _ Hio). unfold bind at 1.
    rewrite poll_write by exact Hio. unfold bind at 1. cbn [obj env trace].
    match goal with |- context [Focus_Constant_poll fuel 0 ?t1 ?w1] =>
      destruct (Focus_Constant_poll_miss 201 fuel 0 t1 w1) as (w' & E & _ & _ & Hn) end;
      try (cbn [obj env]; first [exact Hio | lia]).
    { intros j Hj. cbn [env]. apply Hmiss. lia. }
    rewrite E. cbn [negb]. unfold mret.
    exists w'. split; [reflexivity|]. rewrite Hn. nreads_tac.
  - intros k1 Hk1 Hmiss1 Hhit1.
    assert (Hphase1 : exists w1,
               OV5640_Focus_Constant fuel w =
                 (ov5640_write_reg 0x3023 0x01 ;;;
                  ov5640_write_reg 0x3022 0x04 ;;;
                  ok <- Focus_Constant_poll fuel 0 0x04 ;;
                  if negb ok then mret OV5640_ERROR else mret OV5640_OK) w1 /\
               IO (obj w1) = poll_io script /\
               env w1 = (env w + k1)%nat /\ nreads w1 = (nreads w + k1)%nat).
    { unfold OV5640_Focus_Constant. unfold bind at 1.
      rewrite (poll_write _ _ _ Hio). unfold bind at 1.
      rewrite poll_write by exact Hio. unfold bind at 1. cbn [obj env trace].
      match goal with |- context [Focus_Constant_poll fuel 0 ?t1 ?w1] =>
        destruct (Focus_Constant_poll_hit k1 fuel 0 t1 w1) as (w' & E & Ho & He & Hn) end;
        try (cbn [obj env]; first [exact Hio | lia | exact Hmiss1 | exact Hhit1]).
      rewrite E. cbn [negb]. cbn [obj env] in Ho, He.
      exists w'. split; [reflexivity|]. split; [now rewrite Ho|]. split; [exact He|].
      rewrite Hn. nreads_tac. }
    destruct Hphase1 as (w1 & -> & Hio1 & He1 & Hn1).
    split.
    + intros Hmiss2. unfold bind at 1.
      rewrite (poll_write _ _ _ Hio1). unfold bind at 1.
      rewrite poll_write by exact Hio1. unfold bind at 1. cbn [obj env trace].
      match goal with |- context [Focus_Constant_poll fuel 0 ?t1 ?w2] =>
        destruct (Focus_Constant_poll_miss 201 fuel 0 t1 w2) as (w' & E & _ & _ & Hn) end;
        try (cbn [obj env]; first [exact Hio1 | lia]).
      { intros j Hj. cbn [env]. rewrite He1. apply Hmiss2. lia. }
      rewrite E. cbn [negb]. unfold mret.
      exists w'. split; [reflexivity|]. rewrite Hn. nreads_tac.
    + intros k2 Hk2 Hmiss2 Hhit2. unfold bind at 1.
      rewrite (poll_write _ _ _ Hio1). unfold bind at 1.
      rewrite poll_write by exact Hio1. unfold bind at 1. cbn [obj env trace].
      match goal with |- context [Focus_Constant_poll fuel 0 ?t1 ?w2] =>
        destruct (Focus_Constant_poll_hit k2 fuel 0 t1 w2) as (w' & E & _ & _ & Hn) end;
        try (cbn [obj env]; first [exact Hio1 | lia]).
      { intros j Hj. cbn [env]. rewrite He1. apply Hmiss2. lia. }
      { cbn [env]. rewrite He1. exact Hhit2. }
      rewrite E. cbn [negb]. unfold mret.
      exists w'. split; [reflexivity|]. rewrite Hn. nreads_tac.
Qed.
End PollBus.

(** ** Mirror and flip, on the register-file sensor *)

Section RegisterFile.
Context {hdr : Header}.

Implicit Types (w : World Sensor).

Lemma regfile_read (r buf : Z) w :
  IO (obj w) = regfile_io ->
  ov5640_read_reg r buf w =
    Ret (OV5640_OK, u8 (regs (env w) (u16 r)))
        {| obj := obj w; env := env w;
           trace := trace w ++ [EvRead (u16 r) OV5640_OK (u8 (regs (env w) (u16 r)))] |}.
Proof.
  intros Hio. unfold ov5640_read_reg, OV5640_ReadRegWrap. now rewrite Hio.
Qed.

Lemma regfile_write (r d : Z) w :
  IO (obj w) = regfile_io ->
  ov5640_write_reg r d w =
    Ret OV5640_OK
        {| obj := obj w; env := store (env w) (u16 r) (u8 d);
           trace := trace w ++ [EvWrite (u16 r) (u8 d) OV5640_OK] |}.
Proof.
  intros Hio. unfold ov5640_write_reg, OV5640_WriteRegWrap. now rewrite Hio.
Qed.

Lemma patched_absorbs (x bits : Z) :
  Z.lor (Z.land (patched x bits) 0xF9) bits = patched x bits.
Proof.
  unfold patched. apply Z.bits_inj'. intros n Hn.
  rewrite !Z.lor_spec, !Z.land_spec, !Z.lor_spec, !Z.land_spec.
  destruct (Z.testbit (u8 x) n), (Z.testbit 249 n), (Z.testbit bits n); reflexivity.
Qed.

Lemma patched_byte (x bits : Z) :
  bits = 0 \/ bits = 0x06 -> u8 (patched x bits) = patched x bits.
Proof.
  intros Hb. unfold patched. rewrite u8_lor.
  replace (u8 bits) with bits by (destruct Hb as [-> | ->]; reflexivity).
  f_equal. rewrite !u8_land. apply Z.bits_inj'. intros n Hn.
  rewrite !Z.land_spec.
  destruct (Z.testbit x n), (Z.testbit 255 n), (Z.testbit 249 n); reflexivity.
Qed.

Lemma patched_idem (x bits : Z) :
  bits = 0 \/ bits = 0x06 -> patched (patched x bits) bits = patched x bits.
Proof.
  intros Hb. unfold patched at 1. rewrite (patched_byte _ _ Hb).
  apply patched_absorbs.
Qed.

Lemma mirror_flip_bits_cases (Config : Z) :
  (fst (mirror_flip_bits Config) = 0 \/ fst (mirror_flip_bits Config) = 0x06) /\
  (snd (mirror_flip_bits Config) = 0 \/ snd (mirror_flip_bits Config) = 0x06).
Proof.
  unfold mirror_flip_bits.
  destruct (Config =? OV5640_MIRROR); [simpl; auto|].
  destruct (Config =? OV5640_FLIP); [simpl; auto|].
  destruct (Config =? OV5640_MIRROR_FLIP); simpl; auto.
Qed.

(** One call, on the register file. *)
Lemma MirrorFlipConfig_run (Config : Z) w :
  IO (obj w) = regfile_io ->
  exists t,
    OV5640_MirrorFlipConfig Config w =
      Ret OV5640_OK
          {| obj := obj w;
             env := store (store (env w)
                                 (u16 (reg OV5640_TIMING_TC_REG20))
                                 (patched (regs (env w) (u16 (reg OV5640_TIMING_TC_REG20)))
                                          (fst (mirror_flip_bits Config))))
                          (u16 (reg OV5640_TIMING_TC_REG21))
                          (patched (regs (env w) (u16 (reg OV5640_TIMING_TC_REG21)))
                                   (snd (mirror_flip_bits Config)));
             trace := t |}.
Proof.
  intros Hio.
  assert (Hw : forall a b,
             a = 0 \/ a = 0x06 -> b = 0 \/ b = 0x06 ->
             forall w0, IO (obj w0) = regfile_io ->
             forall x y,
             MirrorFlip_write (patched x a) (patched y b) w0 =
               Ret OV5640_OK
                   {| obj := obj w0;
                      env := store (store (env w0) (u16 (reg OV5640_TIMING_TC_REG20))
                                          (patched x a))
                                   (u16 (reg OV5640_TIMING_TC_REG21)) (patched y b);
                      trace := (trace w0 ++
                                [EvWrite (u16 (reg OV5640_TIMING_TC_REG20)) (patched x a)
                                         OV5640_OK]) ++
                                [EvWrite (u16 (reg OV5640_TIMING_TC_REG21)) (patched y b)
                                         OV5640_OK] |}).
  { intros a b Ha Hb w0 Hio0 x y. unfold MirrorFlip_write. unfold bind at 1.
    rewrite (regfile_write _ _ _ Hio0). rewrite Z.eqb_refl. cbn [negb].
    unfold bind at 1. rewrite regfile_write by exact Hio0.
    rewrite Z.eqb_refl. cbn [negb obj env trace]. unfold mret.
    now rewrite !patched_byte by assumption. }
  unfold OV5640_MirrorFlipConfig. unfold bind at 1.
  rewrite (regfile_read _ _ _ Hio). cbn [fst snd]. rewrite Z.eqb_refl. cbn [negb].
  unfold bind at 1. rewrite regfile_read by exact Hio.
  cbn [fst snd obj env trace]. rewrite Z.eqb_refl. cbn [negb].
  set (x := regs (env w) (u16 (reg OV5640_TIMING_TC_REG20))).
  set (y := regs (env w) (u16 (reg OV5640_TIMING_TC_REG21))).
  change (Z.land (u8 x) 249) with (Z.land (u8 x) 0xF9).
  change (Z.land (u8 y) 249) with (Z.land (u8 y) 0xF9).
  replace (Z.land (u8 x) 0xF9) with (patched x 0) by (unfold patched; apply Z.lor_0_r).
  replace (Z.land (u8 y) 0xF9) with (patched y 0) by (unfold patched; apply Z.lor_0_r).
  change (Z.lor (patched x 0) 6) with (Z.lor (Z.lor (Z.land (u8 x) 0xF9) 0) 6).
  change (Z.lor (patched y 0) 6) with (Z.lor (Z.lor (Z.land (u8 y) 0xF9) 0) 6).
  rewrite !Z.lor_0_r.
  change (Z.lor (Z.land (u8 x) 0xF9) 6) with (patched x 6).
  change (Z.lor (Z.land (u8 y) 0xF9) 6) with (patched y 6).
  unfold mirror_flip_bits.
  destruct (Config =? OV5640_MIRROR); [|destruct (Config =? OV5640_FLIP);
    [|destruct (Config =? OV5640_MIRROR_FLIP)]];
    cbn [fst snd];
    match goal with
    | |- exists t, MirrorFlip_write (patched ?x0 ?a) (patched ?y0 ?b) ?w0 = _ =>
        rewrite (Hw a b ltac:(auto) ltac:(auto) w0 Hio x0 y0)
    end;
    eexists; reflexivity.
Qed.

(** C8.  On a sensor that stores what is written to it, for every [Config]
    (mirror, flip, both, none, or any other value, which the driver treats
    as none) and every content of the registers, a second
    [OV5640_MirrorFlipConfig] with the same [Config] leaves every register as
    the first call left it.  The first call leaves in
    [OV5640_TIMING_TC_REG21] the byte read from it with bits 2:1 masked off
    by 0xF9 and the 0x06 pattern of the configuration ORed in, likewise in
    [OV5640_TIMING_TC_REG20], and touches no other register. *)
Theorem MirrorFlipConfig_twice_is_once (Config : Z) w :
  IO (obj w) = regfile_io ->
  exists w1 w2,
    OV5640_MirrorFlipConfig Config w = Ret OV5640_OK w1 /\
    OV5640_MirrorFlipConfig Config w1 = Ret OV5640_OK w2 /\
    (forall a, regs (env w2) a = regs (env w1) a) /\
    regs (env w1) (u16 (reg OV5640_TIMING_TC_REG21)) =
      patched (regs (env w) (u16 (reg OV5640_TIMING_TC_REG21)))
              (snd (mirror_flip_bits Config)) /\
    (u16 (reg OV5640_TIMING_TC_REG20) <> u16 (reg OV5640_TIMING_TC_REG21) ->
     regs (env w1) (u16 (reg OV5640_TIMING_TC_REG20)) =
       patched (regs (env w) (u16 (reg OV5640_TIMING_TC_REG20)))
               (fst (mirror_flip_bits Config))) /\
    (forall a,
        a <> u16 (reg OV5640_TIMING_TC_REG20) ->
        a <> u16 (reg OV5640_TIMING_TC_REG21) ->
        regs (env w1) a = regs (env w) a).
Proof.
  intros Hio.
  destruct (MirrorFlipConfig_run Config w Hio) as (t1 & E1).
  match type of E1 with _ = Ret _ ?w1 =>
    destruct (MirrorFlipConfig_run Config w1 Hio) as (t2 & E2) end.
  destruct (mirror_flip_bits_cases Config) as [H20 H21].
  set (r20 := u16 (reg OV5640_TIMING_TC_REG20)) in *.
  set (r21 := u16 (reg OV5640_TIMING_TC_REG21)) in *.
  set (b20 := fst (mirror_flip_bits Config)) in *.
  set (b21 := snd (mirror_flip_bits Config)) in *.
  eexists _, _. split; [exact E1|]. split; [exact E2|].
  cbn [obj env regs store].
  repeat apply conj.
  - intros a. rewrite (Z.eqb_refl r21).
    destruct (a =? r21) eqn:E21.
    + apply patched_idem, H21.
    + destruct (a =? r20) eqn:E20; [|reflexivity].
      apply Z.eqb_eq in E20. subst a. rewrite E21, Z.eqb_refl.
      apply patched_idem, H20.
  - now rewrite Z.eqb_refl.
  - intros Hneq. apply Z.eqb_neq in Hneq. now rewrite Hneq, Z.eqb_refl.
  - intros a Ha20 Ha21. apply Z.eqb_neq in Ha20, Ha21. now rewrite Ha20, Ha21.
Qed.

End RegisterFile.

(** ** The model at work *)

Section Examples.
#[local] Existing Instance sample_header.

(** C2, on the code.  [OV5640_OutSize_Set] on a bus whose every write
    fails: the first write, of 0x03 to register 0x3212, fails, and the ten
    entries after it are written all the same before [OV5640_ERROR] is
    returned.  The log is not one of a loop that stops at the first failed
    write. *)
Theorem OutSize_Set_keeps_writing_after_failure :
  exists w',
    OV5640_OutSize_Set 4 0 640 480 dead_world = Ret OV5640_ERROR w' /\
    trace w' =
      [EvWrite 0x3212 0x03 (-1); EvWrite 0x3808 0x02 (-1); EvWrite 0x3809 0x80 (-1);
       EvWrite 0x380a 0x01 (-1); EvWrite 0x380b 0xE0 (-1); EvWrite 0x3810 0x00 (-1);
       EvWrite 0x3811 0x04 (-1); EvWrite 0x3812 0x00 (-1); EvWrite 0x3813 0x00 (-1);
       EvWrite 0x3212 0x13 (-1); EvWrite 0x3212 0xa3 (-1)] /\
    ~ stops_at_failure (OutSize_Set_datas 4 0 640 480) (trace w').
Proof.
  eexists. split; [vm_compute; reflexivity|]. split; [reflexivity|].
  cbn [trace]. intros H. inversion H.
Qed.

(** C7 as stated fails.  When register 0x3029 never reads 0x10,
    [OV5640_Focus_Single] returns its error after 201 reads, not after 200;
    and when 0x10 first shows at the 200th read it returns [OV5640_OK]. *)
Lemma Focus_Single_does_not_give_up_at_200 :
  (exists w',
      OV5640_Focus_Single 1000 (poll_world (fun _ => 0xFF)) = Ret OV5640_ERROR w' /\
      nreads w' = 201%nat) /\
  ~ (exists w',
        OV5640_Focus_Single 1000 (poll_world (fun _ => 0xFF)) = Ret OV5640_ERROR w' /\
        nreads w' = 200%nat) /\
  (exists w',
      OV5640_Focus_Single 1000 (poll_world (answer_at 200 0x10 0xFF)) = Ret OV5640_OK w' /\
      nreads w' = 200%nat).
Proof.
  split; [|split].
  - eexists. split; vm_compute; reflexivity.
  - intros (w' & E & Hn). vm_compute in E. inversion E; subst.
    vm_compute in Hn. discriminate Hn.
  - eexists. split; vm_compute; reflexivity.
Qed.
End Examples.

(** ** The theorems at concrete inputs *)

Section Witnesses.
#[local] Existing Instance sample_header.

Lemma sample_codes_differ : OV5640_OK <> OV5640_ERROR.
Proof. cbn. discriminate. Qed.

Lemma sample_tuning_bytes : tuning_bytes (obj sample_world).
Proof. unfold tuning_bytes. cbn. lia. Qed.

Lemma sample_writes_succeed : writes_succeed (IO (obj sample_world)).
Proof. intros a r d e. reflexivity. Qed.

(** Brightness +2, then saturation +1, on a registered handle: the
    composite written by the second call still carries the brightness code
    0x09 of the first. *)
Lemma tuning_composite_witness :
  exists w1 w2,
    OV5640_SetBrightness 2 sample_world = Ret OV5640_OK w1 /\
    OV5640_SetSaturation 1 w1 = Ret OV5640_OK w2 /\
    bright (obj w2) = 0x09 /\
    composite (obj w2) = 0x7B /\
    composite_written w2.
Proof.
  destruct (tuning_composite_keeps_other_axes (B := Sensor) sample_codes_differ)
    as [_ Hops].
  set (o1 := OV5640_SetBrightness 2 sample_world).
  assert (E1 : o1 = Ret OV5640_OK (final o1)) by (vm_compute; reflexivity).
  set (w1 := final o1) in *.
  set (o2 := OV5640_SetSaturation 1 w1).
  assert (E2 : o2 = Ret OV5640_OK (final o2)) by (vm_compute; reflexivity).
  set (w2 := final o2) in *.
  exists w1, w2.
  destruct (proj1 (Hops 2 sample_world w1 sample_tuning_bytes) E1)
    as (Hb1 & _ & _ & _ & Hbytes1 & _).
  destruct (proj1 (proj2 (Hops 1 w1 w2 Hbytes1)) E2)
    as (_ & Hb2 & _ & _ & _ & Hw2).
  split; [exact E1|]. split; [exact E2|].
  split; [rewrite Hb2; exact Hb1|].
  split; [vm_compute; reflexivity|exact Hw2].
Defined.

(** A first [OV5640_Init] (640x480, RGB565) on a registered handle, then a
    second call with arguments that would be rejected. *)
Lemma Init_noop_witness :
  exists w1,
    OV5640_Init 3 3 0 sample_world = Ret OV5640_OK w1 /\
    wrote_first (u16 (reg OV5640_SCCB_SYSTEM_CTRL1)) 0x11 sample_world w1 /\
    OV5640_Init 0 9 9 w1 = Ret OV5640_OK w1.
Proof.
  set (o1 := OV5640_Init 3 3 0 sample_world).
  assert (E1 : o1 = Ret OV5640_OK (final o1)) by (vm_compute; reflexivity).
  set (w1 := final o1) in *.
  exists w1.
  destruct (proj2 (Init_on_initialized_handle_is_noop 3 3 0 sample_world)
              sample_codes_differ eq_refl w1 E1) as [Hw Hnoop].
  split; [exact E1|]. split; [exact Hw|]. apply Hnoop.
Defined.


(** Level +4 reads the last entry of the brightness table; level +5 runs
    [OV5640_SetBrightness] into the access past its end. *)
Lemma tuning_index_witness :
  (exists v, index brightness_level (4 + 4) sample_world = Ret v sample_world) /\
  (exists w', OV5640_SetBrightness 5 sample_world = Undef w').
Proof.
  split.
  - destruct (tuning_table_index_bounds 4 sample_world) as (_ & Hin & _).
    destruct (Hin ltac:(lia)) as (Hb & _). exact Hb.
  - destruct (tuning_table_index_bounds 5 sample_world) as (_ & _ & _ & Hout & _).
    destruct (Hout ltac:(lia)) as (_ & _ & _ & Hf).
    destruct (Hf sample_writes_succeed) as (Hbr & _). exact Hbr.
Defined.

(** The sentinel at the 201st read of register 0x3029 still ends
    [OV5640_Focus_Single] with [OV5640_OK]; the sentinel at the 200th read
    of each phase ends [OV5640_Focus_Constant] with [OV5640_OK] after 400
    reads. *)
Lemma focus_poll_witness :
  (exists w',
      OV5640_Focus_Single 201 (poll_world (answer_at 201 0x10 0)) = Ret OV5640_OK w' /\
      nreads w' = 201%nat) /\
  (exists w',
      OV5640_Focus_Constant 201 (poll_world two_hits) = Ret OV5640_OK w' /\
      nreads w' = 400%nat).
Proof.
  split.
  - destruct (focus_polls_give_up_after_201_reads (answer_at 201 0x10 0) 201
                (poll_world (answer_at 201 0x10 0)) eq_refl (le_n 201))
      as (_ & Hhit & _).
    apply (Hhit 201%nat).
    + lia.
    + intros j Hj. cbn [env poll_world world0]. unfold answer_at.
      replace (Nat.eqb (0 + j) 201) with false
        by (symmetry; apply Nat.eqb_neq; lia).
      vm_compute. discriminate.
    + reflexivity.
  - destruct (focus_polls_give_up_after_201_reads two_hits 201
                (poll_world two_hits) eq_refl (le_n 201))
      as (_ & _ & _ & Hphase).
    assert (Hone : forall j, j <> 200%nat -> j <> 400%nat -> u8 (two_hits j) <> 0x00).
    { intros j H2 H4. unfold two_hits.
      apply Nat.eqb_neq in H2, H4. rewrite H2, H4. vm_compute. discriminate. }
    destruct (Hphase 200%nat) as [_ Hok].
    + lia.
    + intros j Hj. cbn [env poll_world world0]. apply Hone; lia.
    + reflexivity.
    + apply (Hok 200%nat).
      * lia.
      * intros j Hj. cbn [env poll_world world0]. apply Hone; lia.
      * reflexivity.
Defined.

(** Mirror, twice, on the blank register file. *)
Lemma MirrorFlipConfig_witness :
  exists w1 w2,
    OV5640_MirrorFlipConfig OV5640_MIRROR sample_world = Ret OV5640_OK w1 /\
    OV5640_MirrorFlipConfig OV5640_MIRROR w1 = Ret OV5640_OK w2 /\
    regs (env w1) 0x3821 = 0x06 /\
    regs (env w2) 0x3821 = 0x06.
Proof.
  destruct (MirrorFlipConfig_twice_is_once OV5640_MIRROR sample_world eq_refl)
    as (w1 & w2 & E1 & E2 & Hsame & H21 & _).
  exists w1, w2. split; [exact E1|]. split; [exact E2|].
  assert (H : regs (env w1) 0x3821 = 0x06).
  { change (regs (env w1) (u16 (reg OV5640_TIMING_TC_REG21)) = 0x06).
    rewrite H21. reflexivity. }
  split; [exact H|]. rewrite Hsame. exact H.
Defined.

(** A polarity value 7 is rejected; PCLK high, HREF high, VSYNC high is
    written as the byte 0x22. *)
Lemma SetPolarities_witness :
  OV5640_SetPolarities pObj 7 1 0 sample_world = Ret OV5640_ERROR sample_world /\
  writes_of (trace (final (OV5640_SetPolarities pObj 1 1 0 sample_world))) =
    [(0x4740, 0x22)].
Proof.
  split.
  - apply (proj1 (SetPolarities_validates_then_writes_one_byte pObj 7 1 0 sample_world)).
    right. left. split; discriminate.
  - destruct (proj2 (SetPolarities_validates_then_writes_one_byte
                       pObj 1 1 0 sample_world)
                eq_refl ltac:(right; reflexivity) ltac:(right; reflexivity)
                ltac:(right; reflexivity))
      as (_ & st & e & _ & E).
    rewrite E. reflexivity.
Defined.
End Witnesses.
